(** * Interview service backend

    A shallow embedding of the FastAPI / SQLAlchemy interview service
    (app/db/models.py, app/db/database.py, app/api/*.py, app/services/*.py)
    and the properties of its handlers.

    - Python [str] values are kept as their UTF-8 byte strings; they are
      taken without the NUL character, which the database driver does not
      transmit.
    - A relational table is the list of its rows in stored order; a query
      without ORDER BY returns rows in that order, and an INSERT puts its
      row last.  The UPDATE of an interview form writes a new version of
      the row, which is then returned last.  Feedback and phrase rows are
      rewritten where they stand: where a later scan returns them is not
      modelled.
    - The database is PostgreSQL (app/db/database.py): a [String(n)] column
      refuses a value with text after its first [n] characters, OFFSET and
      LIMIT are 64-bit integers, and a value taken from a sequence is not
      given back when the transaction fails.
    - A request handler runs against a [World]: the committed database, the
      session's unit of work (what [db.commit()] would flush) and the log of
      HTTP requests sent to the remote recruiting API.  The session is
      created with [autoflush=False] and closed by [get_db] when the handler
      returns or raises, which discards whatever was not committed. *)

From Stdlib Require Import ZArith List String Ascii Bool Lia Floats DecimalString.
Import ListNotations.
Local Open Scope string_scope.
Local Open Scope Z_scope.

(** ** Python values as text *)

(** [str(n)] for an [int]. *)
Definition str_int (n : Z) : string := NilZero.string_of_int (Z.to_int n).

(** [str(x)] inside an f-string for a nullable text column: [None] prints
    as the word None. *)
Definition str_opt (o : option string) : string :=
  match o with
  | Some s => s
  | None => "None"
  end.

Fixpoint zeros (n : nat) : string :=
  match n with
  | O => ""
  | S k => "0" ++ zeros k
  end.

(** Left padding with zeros to a minimal width, as [%02d] does. *)
Definition zfill (width : nat) (s : string) : string :=
  zeros (width - String.length s) ++ s.

(** [datetime.datetime]: the fields of a naive timestamp. *)
Record datetime := mk_datetime {
  year : Z; month : Z; day : Z; hour : Z; minute : Z; second : Z;
  microsecond : Z
}.

(** [d.strftime('%Y-%m-%d %H:%M')] as the C library of the platform prints
    it: month, day, hour and minute are padded to two digits, the year is
    printed without padding. *)
Definition strftime_Ymd_HM (d : datetime) : string :=
  str_int (year d) ++ "-" ++ zfill 2 (str_int (month d)) ++ "-"
  ++ zfill 2 (str_int (day d)) ++ " " ++ zfill 2 (str_int (hour d)) ++ ":"
  ++ zfill 2 (str_int (minute d)).

(** The number of characters of a text kept as UTF-8 bytes: every byte
    that is not a continuation byte starts a character. *)
Definition is_continuation (c : ascii) : bool :=
  let n := nat_of_ascii c in (128 <=? n)%nat && (n <? 192)%nat.

Fixpoint char_length (s : string) : nat :=
  match s with
  | EmptyString => O
  | String c rest => ((if is_continuation c then 0 else 1) + char_length rest)%nat
  end.

(** What is left of a text after its first [n] characters. *)
Fixpoint excess (n : nat) (s : string) : string :=
  match s with
  | EmptyString => EmptyString
  | String c rest =>
      if is_continuation c then excess n rest
      else match n with
           | O => s
           | S m => excess m rest
           end
  end.

Fixpoint is_blank (s : string) : bool :=
  match s with
  | EmptyString => true
  | String c rest => Ascii.eqb c " " && is_blank rest
  end.

(** Timestamps compare field by field, most significant first. *)
Fixpoint lex_leb (a b : list Z) : bool :=
  match a, b with
  | x :: a', y :: b' => (x <? y) || ((x =? y) && lex_leb a' b')
  | _, _ => true
  end.

Definition datetime_fields (d : datetime) : list Z :=
  [year d; month d; day d; hour d; minute d; second d; microsecond d].

Definition datetime_leb (a b : datetime) : bool :=
  lex_leb (datetime_fields a) (datetime_fields b).

(** Truthiness of [Optional[int]] and [Optional[str]] arguments, as tested
    by [if x:]. *)
Definition truthy_int (o : option Z) : bool :=
  match o with
  | Some n => negb (n =? 0)
  | None => false
  end.

Definition truthy_str (o : option string) : bool :=
  match o with
  | Some s => negb (String.eqb s "")
  | None => false
  end.

(** ** Exceptions and outcomes *)

Inductive Exception :=
| HTTPException (status_code : Z) (detail : string)
| IntegrityError (constraint : string)
| DataError (msg : string)
| JSONDecodeError (msg : string)
| TransportError (msg : string)
| ValidationError (msg : string).

(** [str(e)]: Starlette prints an HTTPException as its status code, a colon
    and the detail; the other exceptions print their message. *)
Definition str_exc (e : Exception) : string :=
  match e with
  | HTTPException c d => str_int c ++ ": " ++ d
  | IntegrityError m => m
  | DataError m => m
  | JSONDecodeError m => m
  | TransportError m => m
  | ValidationError m => m
  end.

Inductive outcome (A : Type) :=
| Return (a : A)
| Raise (e : Exception).
Arguments Return {A} a.
Arguments Raise {A} e.

(** ** Persistence model (app/db/models.py)

    The [created_at] / [updated_at] columns are left out: no handler below
    reads them. *)

Record Question := {
  question_id : Z;
  question_text : string;
  weight : float;
  docs_reference : option string;
  priority : Z;
  question_unit_id : option Z;
  question_difficulty_id : option Z;
  question_level_id : option Z;
  question_group_id : option Z
}.

Record ApplicationTemplate := {
  application_template_id : Z;
  template_name : string;
  template_description : option string;
  template_position : string
}.

Record Interviewer := {
  interviewer_id : Z;
  interviewer_name : string;
  interviewer_email : string;
  interviewer_position : option string
}.

Record InterviewForm := {
  form_id : Z;
  form_candidate_id : string;
  form_candidate_name : string;
  form_position : string;
  form_interview_date : datetime;
  form_template_id : Z
}.

Record Score := {
  score_id : Z;
  score_question_id : Z;
  score_value : float;
  score_comment : option string;
  score_interviewer_id : Z;
  score_interview_form_id : Z;
  score_evaluation_id : option Z
}.

Record Evaluation := {
  evaluation_id : Z;
  total_score : float;
  passed : option bool;
  minimal_rate : float;
  evaluation_interview_form_id : Z
}.

Record Feedback := {
  feedback_id : Z;
  feedback_text : string;
  feedback_interview_form_id : Z
}.

(** A phrase row carries the foreign key [feedback_id] of the one feedback
    it is attached to ([Feedback.phrases] is the reverse side of it). *)
Record PredefinedPhrase := {
  phrase_id : Z;
  phrase_text : string;
  phrase_category : option string;
  phrase_feedback_id : option Z
}.

(** The two association tables hold pairs; both columns together are the
    primary key.  [template_questions]: (template_id, question_id);
    [interviewer_forms]: (interviewer_id, form_id). *)
Record DB := {
  questions : list Question;
  application_templates : list ApplicationTemplate;
  template_questions : list (Z * Z);
  interviewers : list Interviewer;
  interview_forms : list InterviewForm;
  interviewer_forms : list (Z * Z);
  scores : list Score;
  evaluations : list Evaluation;
  feedbacks : list Feedback;
  predefined_phrases : list PredefinedPhrase;
  interview_forms_id_seq : Z;
  feedbacks_id_seq : Z
}.

(** ** The remote recruiting API as the client sees it *)

#[warnings="-register-all"]
Inductive Json :=
| JNull
| JBool (b : bool)
| JNumber (literal : string)
| JString (s : string)
| JArray (items : list Json)
| JObject (fields : list (string * Json)).

Record Request := {
  method : string;
  url : string;
  headers : list (string * string);
  json_payload : list (string * string)
}.

(** An [httpx.Response]: [response_json] is what calling [response.json()]
    does, return the decoded body or raise when the body does not decode. *)
Record Response := {
  response_status_code : Z;
  response_text : string;
  response_json : outcome Json
}.

Inductive Reply :=
| Responds (r : Response)
| Unreachable (msg : string).

Definition Remote := Request -> Reply.

Record Settings := {
  PEOPLEFORCE_API_URL : string;
  PEOPLEFORCE_API_KEY : option string
}.

(** ** Handlers: state and exceptions *)

Record World := {
  database : DB;
  session : DB;
  sent : list Request
}.

Definition Handler (A : Type) := World -> outcome A * World.

Definition ret {A} (a : A) : Handler A := fun w => (Return a, w).

Definition bind {A B} (m : Handler A) (k : A -> Handler B) : Handler B :=
  fun w =>
    match m w with
    | (Return a, w') => k a w'
    | (Raise e, w') => (Raise e, w')
    end.

Definition raise {A} (e : Exception) : Handler A := fun w => (Raise e, w).

(** [try: body except Exception as e: handler e]. *)
Definition try_except {A} (body : Handler A) (handler : Exception -> Handler A)
  : Handler A :=
  fun w =>
    match body w with
    | (Return a, w') => (Return a, w')
    | (Raise e, w') => handler e w'
    end.

Declare Scope handler_scope.
Delimit Scope handler_scope with handler.
Notation "x <- m ;; k" := (bind m (fun x => k))
  (at level 61, m at next level, right associativity) : handler_scope.
Notation "m ;; k" := (bind m (fun _ => k))
  (at level 61, right associativity) : handler_scope.
Local Open Scope handler_scope.

Fixpoint for_each {A} (l : list A) (body : A -> Handler unit) : Handler unit :=
  match l with
  | [] => ret tt
  | x :: rest => body x ;; for_each rest body
  end.

(** [db.query(...)...first()] / [.all()]: with autoflush off a query reads
    the database, not the unflushed unit of work. *)
Definition query {A} (q : DB -> A) : Handler A :=
  fun w => (Return (q (database w)), w).

(** Reading an attribute or a relationship collection of a loaded object
    sees the session's in-memory state. *)
Definition loaded {A} (q : DB -> A) : Handler A :=
  fun w => (Return (q (session w)), w).

(** A change made to an object of the session (an attribute assignment, an
    append to a collection, [db.add]). *)
Definition modify (f : DB -> DB) : Handler unit :=
  fun w => (Return tt,
            {| database := database w; session := f (session w); sent := sent w |}).

(** [get_db]: a fresh session on the committed database; whatever the
    handler left uncommitted is dropped when the session is closed. *)
Definition open_session (db : DB) : World :=
  {| database := db; session := db; sent := [] |}.

Definition run_request {A} (h : Handler A) (db : DB) : outcome A * DB * list Request :=
  let (r, w) := h (open_session db) in (r, database w, sent w).

(** ** Rows, relationships and the unit of work *)

Definition nl : string := String (ascii_of_nat 10) "".

Definition find_template (id : Z) (db : DB) : option ApplicationTemplate :=
  find (fun t => application_template_id t =? id) (application_templates db).

Definition find_question (id : Z) (db : DB) : option Question :=
  find (fun q => question_id q =? id) (questions db).

Definition find_interviewer (id : Z) (db : DB) : option Interviewer :=
  find (fun i => interviewer_id i =? id) (interviewers db).

Definition find_form (id : Z) (db : DB) : option InterviewForm :=
  find (fun f => form_id f =? id) (interview_forms db).

Definition find_phrase (id : Z) (db : DB) : option PredefinedPhrase :=
  find (fun p => phrase_id p =? id) (predefined_phrases db).

Definition find_feedback (id : Z) (db : DB) : option Feedback :=
  find (fun f => feedback_id f =? id) (feedbacks db).

(** [db.query(Feedback).filter(Feedback.interview_form_id == id)]. *)
Definition feedbacks_of_form (id : Z) (db : DB) : list Feedback :=
  filter (fun f => feedback_interview_form_id f =? id) (feedbacks db).

Definition evaluations_of_form (id : Z) (db : DB) : list Evaluation :=
  filter (fun e => evaluation_interview_form_id e =? id) (evaluations db).

Definition scores_of_form (id : Z) (db : DB) : list Score :=
  filter (fun s => score_interview_form_id s =? id) (scores db).

Definition link_eqb (a b : Z * Z) : bool :=
  (fst a =? fst b) && (snd a =? snd b).

Definition link_in (a : Z * Z) (l : list (Z * Z)) : bool :=
  existsb (link_eqb a) l.

(** [form.interviewers]: the relationship is loaded by a join of
    [interviewers] with the association table and has no [order_by]; the
    rows come in the order of the [interviewers] table, each interviewer
    that has a link to the form once. *)
Definition form_interviewers (form : Z) (db : DB) : list Interviewer :=
  filter (fun i => link_in (interviewer_id i, form) (interviewer_forms db))
    (interviewers db).

(** [template.questions], loaded the same way: the questions linked to the
    template, in the order of the [questions] table. *)
Definition template_question_rows (template : Z) (db : DB) : list Question :=
  filter (fun q => link_in (template, question_id q) (template_questions db))
    (questions db).

(** [feedback.phrases]: the phrase rows whose foreign key names the
    feedback. *)
Definition attached_to (feedback : Z) (p : PredefinedPhrase) : bool :=
  match phrase_feedback_id p with
  | Some f => f =? feedback
  | None => false
  end.

Definition feedback_phrases (feedback : Z) (db : DB) : list PredefinedPhrase :=
  filter (attached_to feedback) (predefined_phrases db).

(** [x in collection] compares mapped objects by identity, one object per
    primary key. *)
Definition interviewer_in (i : Interviewer) (l : list Interviewer) : bool :=
  existsb (fun j => interviewer_id j =? interviewer_id i) l.

Definition question_in (q : Question) (l : list Question) : bool :=
  existsb (fun r => question_id r =? question_id q) l.

Fixpoint has_duplicates (l : list (Z * Z)) : bool :=
  match l with
  | [] => false
  | x :: rest => link_in x rest || has_duplicates rest
  end.

(** [list.remove(x)]: the first occurrence goes. *)
Fixpoint remove_link (a : Z * Z) (l : list (Z * Z)) : list (Z * Z) :=
  match l with
  | [] => []
  | x :: rest => if link_eqb a x then rest else x :: remove_link a rest
  end.

(** Field updates of the session's picture of the database. *)
Definition with_template_questions (f : list (Z * Z) -> list (Z * Z)) (s : DB) : DB :=
  {| questions := questions s;
     application_templates := application_templates s;
     template_questions := f (template_questions s);
     interviewers := interviewers s;
     interview_forms := interview_forms s;
     interviewer_forms := interviewer_forms s;
     scores := scores s;
     evaluations := evaluations s;
     feedbacks := feedbacks s;
     predefined_phrases := predefined_phrases s;
     interview_forms_id_seq := interview_forms_id_seq s;
     feedbacks_id_seq := feedbacks_id_seq s |}.

Definition with_interviewer_forms (f : list (Z * Z) -> list (Z * Z)) (s : DB) : DB :=
  {| questions := questions s;
     application_templates := application_templates s;
     template_questions := template_questions s;
     interviewers := interviewers s;
     interview_forms := interview_forms s;
     interviewer_forms := f (interviewer_forms s);
     scores := scores s;
     evaluations := evaluations s;
     feedbacks := feedbacks s;
     predefined_phrases := predefined_phrases s;
     interview_forms_id_seq := interview_forms_id_seq s;
     feedbacks_id_seq := feedbacks_id_seq s |}.

Definition with_feedbacks (f : list Feedback -> list Feedback) (s : DB) : DB :=
  {| questions := questions s;
     application_templates := application_templates s;
     template_questions := template_questions s;
     interviewers := interviewers s;
     interview_forms := interview_forms s;
     interviewer_forms := interviewer_forms s;
     scores := scores s;
     evaluations := evaluations s;
     feedbacks := f (feedbacks s);
     predefined_phrases := predefined_phrases s;
     interview_forms_id_seq := interview_forms_id_seq s;
     feedbacks_id_seq := feedbacks_id_seq s |}.

Definition with_predefined_phrases
  (f : list PredefinedPhrase -> list PredefinedPhrase) (s : DB) : DB :=
  {| questions := questions s;
     application_templates := application_templates s;
     template_questions := template_questions s;
     interviewers := interviewers s;
     interview_forms := interview_forms s;
     interviewer_forms := interviewer_forms s;
     scores := scores s;
     evaluations := evaluations s;
     feedbacks := feedbacks s;
     predefined_phrases := f (predefined_phrases s);
     interview_forms_id_seq := interview_forms_id_seq s;
     feedbacks_id_seq := feedbacks_id_seq s |}.

(** [db.add(form)] for a new form: the row joins the table and the id
    sequence moves on. *)
Definition add_form_row (f : InterviewForm) (s : DB) : DB :=
  {| questions := questions s;
     application_templates := application_templates s;
     template_questions := template_questions s;
     interviewers := interviewers s;
     interview_forms := (interview_forms s ++ [f])%list;
     interviewer_forms := interviewer_forms s;
     scores := scores s;
     evaluations := evaluations s;
     feedbacks := feedbacks s;
     predefined_phrases := predefined_phrases s;
     interview_forms_id_seq := interview_forms_id_seq s + 1;
     feedbacks_id_seq := feedbacks_id_seq s |}.

Definition add_feedback_row (f : Feedback) (s : DB) : DB :=
  {| questions := questions s;
     application_templates := application_templates s;
     template_questions := template_questions s;
     interviewers := interviewers s;
     interview_forms := interview_forms s;
     interviewer_forms := interviewer_forms s;
     scores := scores s;
     evaluations := evaluations s;
     feedbacks := (feedbacks s ++ [f])%list;
     predefined_phrases := predefined_phrases s;
     interview_forms_id_seq := interview_forms_id_seq s;
     feedbacks_id_seq := feedbacks_id_seq s + 1 |}.

(** What is left of a collection when one occurrence of each stored link
    is taken away: the links appended since the collection was loaded. *)
Fixpoint appended_links (current stored : list (Z * Z)) : list (Z * Z) :=
  match stored with
  | [] => current
  | x :: rest => appended_links (remove_link x current) rest
  end.

(** Flushing a many-to-many collection: the unit of work inserts a link
    row for every append made to the in-memory list (the append is also
    recorded on the reverse side of the relationship, whether or not the
    member was already in the list), and deletes the stored links no longer
    in the list.  The association tables have a composite primary key, so
    inserting a link that is stored already, or the same new link twice, is
    rejected by the database. *)
Definition flush_links (pkey : string) (stored current : list (Z * Z))
  : outcome (list (Z * Z)) :=
  let added := appended_links current stored in
  let kept := filter (fun r => link_in r current) stored in
  if has_duplicates added || existsb (fun r => link_in r kept) added
  then Raise (IntegrityError pkey)
  else Return (kept ++ added)%list.

(** The [String(n)] columns of models.py: a value of at most [n]
    characters is stored as it is, and a value that has a character other
    than a space after its first [n] characters is refused by the database
    when the flush writes it, that is for a new row and for a column whose
    value is not the stored one.  (A longer value whose excess is blank is
    cut to [n] characters by the database; the statements below leave that
    case out, and the flush here refuses it like the other long values.) *)
Definition fits (n : nat) (s : string) : bool := (char_length s <=? n)%nat.

Definition too_long_for (n : nat) (s : string) : bool := negb (is_blank (excess n s)).

Definition fits_opt (n : nat) (o : option string) : bool :=
  match o with
  | Some s => fits n s
  | None => true
  end.

Definition text_eqb (a b : option string) : bool :=
  match a, b with
  | Some x, Some y => String.eqb x y
  | None, None => true
  | _, _ => false
  end.

Definition column_fits {R} (key : R -> Z) (column : R -> option string) (n : nat)
  (stored : list R) (r : R) : bool :=
  existsb (fun o => (key o =? key r) && text_eqb (column o) (column r)) stored
  || fits_opt n (column r).

Definition template_fits (stored : list ApplicationTemplate) (t : ApplicationTemplate)
  : bool :=
  column_fits application_template_id (fun r => Some (template_name r)) 100 stored t
  && column_fits application_template_id (fun r => Some (template_position r)) 100
       stored t.

Definition interviewer_fits (stored : list Interviewer) (i : Interviewer) : bool :=
  column_fits interviewer_id (fun r => Some (interviewer_name r)) 100 stored i
  && column_fits interviewer_id (fun r => Some (interviewer_email r)) 100 stored i
  && column_fits interviewer_id interviewer_position 100 stored i.

Definition form_fits (stored : list InterviewForm) (f : InterviewForm) : bool :=
  column_fits form_id (fun r => Some (form_candidate_id r)) 100 stored f
  && column_fits form_id (fun r => Some (form_candidate_name r)) 100 stored f
  && column_fits form_id (fun r => Some (form_position r)) 100 stored f.

Definition phrase_fits (stored : list PredefinedPhrase) (p : PredefinedPhrase) : bool :=
  column_fits phrase_id phrase_category 50 stored p.

Definition strings_fit (stored work : DB) : bool :=
  forallb (template_fits (application_templates stored)) (application_templates work)
  && forallb (interviewer_fits (interviewers stored)) (interviewers work)
  && forallb (form_fits (interview_forms stored)) (interview_forms work)
  && forallb (phrase_fits (predefined_phrases stored)) (predefined_phrases work).

Definition too_long : Exception :=
  DataError "value too long for type character varying".

(** The flush writes the rows of the mapped tables first, then the links
    of the association tables. *)
Definition flush (stored work : DB) : outcome DB :=
  if negb (strings_fit stored work)
  then Raise too_long
  else
    match flush_links "template_questions_pkey"
            (template_questions stored) (template_questions work) with
    | Raise e => Raise e
    | Return tq =>
        match flush_links "interviewer_forms_pkey"
                (interviewer_forms stored) (interviewer_forms work) with
        | Raise e => Raise e
        | Return ifs =>
            Return (with_interviewer_forms (fun _ => ifs)
                      (with_template_questions (fun _ => tq) work))
        end
    end.

(** The committed database after a flush that failed: the transaction is
    rolled back, but when the rows had been written before the links
    failed, the ids those rows took from the sequences are not given
    back. *)
Definition after_failed_flush (stored work : DB) : DB :=
  if strings_fit stored work
  then
    {| questions := questions stored;
       application_templates := application_templates stored;
       template_questions := template_questions stored;
       interviewers := interviewers stored;
       interview_forms := interview_forms stored;
       interviewer_forms := interviewer_forms stored;
       scores := scores stored;
       evaluations := evaluations stored;
       feedbacks := feedbacks stored;
       predefined_phrases := predefined_phrases stored;
       interview_forms_id_seq := interview_forms_id_seq work;
       feedbacks_id_seq := feedbacks_id_seq work |}
  else stored.

(** [db.commit()]. *)
Definition commit : Handler unit :=
  fun w =>
    match flush (database w) (session w) with
    | Return db' =>
        (Return tt, {| database := db'; session := db'; sent := sent w |})
    | Raise e =>
        (Raise e,
         {| database := after_failed_flush (database w) (session w);
            session := session w; sent := sent w |})
    end.

(** [db.refresh(obj)]: the object is read back from its row. *)
Definition refresh {A} (row : DB -> option A) (obj : A) : Handler A :=
  query (fun db => match row db with Some r => r | None => obj end).

(** ** Request bodies (the pydantic models of app/api/interviews.py) *)

Record InterviewFormCreate := {
  new_candidate_id : string;
  new_candidate_name : string;
  new_position : string;
  new_interview_date : datetime;
  new_template_id : Z;
  interviewer_ids : list Z
}.

Record FeedbackCreate := {
  new_text : string;
  predefined_phrase_ids : list Z
}.

(** ** Object construction and collection updates shared by both layers *)

(** [InterviewForm(candidate_id=..., ...)]: the new object; its id is the
    one the sequence hands out when the row is inserted. *)
Definition new_InterviewForm (form : InterviewFormCreate) : Handler InterviewForm :=
  loaded (fun s =>
    {| form_id := interview_forms_id_seq s;
       form_candidate_id := new_candidate_id form;
       form_candidate_name := new_candidate_name form;
       form_position := new_position form;
       form_interview_date := new_interview_date form;
       form_template_id := new_template_id form |}).

Definition new_Feedback (text : string) (interview_id : Z) : Handler Feedback :=
  loaded (fun s =>
    {| feedback_id := feedbacks_id_seq s;
       feedback_text := text;
       feedback_interview_form_id := interview_id |}).

(** [form.interviewers.append(interviewer)]. *)
Definition append_interviewer (form : InterviewForm) (i : Interviewer) : Handler unit :=
  modify (with_interviewer_forms
            (fun links => (links ++ [(interviewer_id i, form_id form)])%list)).

(** [form.interviewers.remove(interviewer)]. *)
Definition remove_interviewer (form : InterviewForm) (i : Interviewer) : Handler unit :=
  modify (with_interviewer_forms (remove_link (interviewer_id i, form_id form))).

(** [template.questions.append(question)]. *)
Definition append_question (t : ApplicationTemplate) (q : Question) : Handler unit :=
  modify (with_template_questions
            (fun links => (links ++ [(application_template_id t, question_id q)])%list)).

(** [template.questions.remove(question)]. *)
Definition remove_question (t : ApplicationTemplate) (q : Question) : Handler unit :=
  modify (with_template_questions (remove_link (application_template_id t, question_id q))).

Definition set_phrase_feedback (o : option Z) (p : PredefinedPhrase) : PredefinedPhrase :=
  {| phrase_id := phrase_id p;
     phrase_text := phrase_text p;
     phrase_category := phrase_category p;
     phrase_feedback_id := o |}.

(** [feedback.phrases.append(phrase)]: the phrase's foreign key now names
    this feedback. *)
Definition append_phrase (fb : Feedback) (p : PredefinedPhrase) : Handler unit :=
  modify (with_predefined_phrases
            (map (fun r => if phrase_id r =? phrase_id p
                           then set_phrase_feedback (Some (feedback_id fb)) r
                           else r))).

(** [feedback.phrases = []]: the phrases it held lose their foreign key. *)
Definition clear_phrases (fb : Feedback) : Handler unit :=
  modify (with_predefined_phrases
            (map (fun r => if attached_to (feedback_id fb) r
                           then set_phrase_feedback None r
                           else r))).

(** [feedback.text = text]. *)
Definition set_feedback_text (fb : Feedback) (text : string) : Handler unit :=
  modify (with_feedbacks
            (map (fun r => if feedback_id r =? feedback_id fb
                           then {| feedback_id := feedback_id r;
                                   feedback_text := text;
                                   feedback_interview_form_id :=
                                     feedback_interview_form_id r |}
                           else r))).

(** The loop over [predefined_phrase_ids]: an id without a row is skipped. *)
Definition attach_phrases (fb : Feedback) (ids : list Z) : Handler unit :=
  for_each ids (fun phrase_id =>
    phrase <- query (find_phrase phrase_id) ;;
    match phrase with
    | Some p => append_phrase fb p
    | None => ret tt
    end).

(** What a form or a template response carries after [db.refresh]. *)
Definition refresh_form (form : InterviewForm)
  : Handler (InterviewForm * list Interviewer) :=
  f <- refresh (find_form (form_id form)) form ;;
  members <- query (form_interviewers (form_id form)) ;;
  ret (f, members).

Definition refresh_template (t : ApplicationTemplate)
  : Handler (ApplicationTemplate * list Question) :=
  r <- refresh (find_template (application_template_id t)) t ;;
  qs <- query (template_question_rows (application_template_id t)) ;;
  ret (r, qs).

(** ** Further request bodies and rows

    The id columns of the tables below are serial.  For the tables whose
    sequence the database record does not carry, the value the sequence
    hands out for an insert is an argument of the handler, [new_id]. *)

Record ScoreCreate := {
  new_question_id : Z;
  new_value : float;
  new_comment : option string;
  new_interviewer_id : Z
}.

Record EvaluationCreate := {
  new_total_score : float;
  new_passed : bool;
  new_minimal_rate : float
}.

Record InterviewerCreate := {
  new_interviewer_name : string;
  new_interviewer_email : string;
  new_interviewer_position : option string
}.

Record PredefinedPhraseCreate := {
  new_phrase_text : string;
  new_phrase_category : option string
}.

Record TemplateCreate := {
  new_template_name : string;
  new_template_description : option string;
  new_template_position : string
}.

(** A field of a partial update: left out of the request body, or given
    (possibly as null); [form.dict(exclude_unset=True)] keeps the given
    ones. *)
Inductive patch (A : Type) :=
| Unset
| Given (v : option A).
Arguments Unset {A}.
Arguments Given {A} v.

Record InterviewFormUpdate := {
  patch_candidate_name : patch string;
  patch_position : patch string;
  patch_interview_date : patch datetime
}.

Definition find_score (id : Z) (db : DB) : option Score :=
  find (fun r => score_id r =? id) (scores db).

Definition find_evaluation (id : Z) (db : DB) : option Evaluation :=
  find (fun e => evaluation_id e =? id) (evaluations db).

(** [db.query(Interviewer).filter(Interviewer.email == email).first()]. *)
Definition find_interviewer_by_email (email : string) (db : DB) : option Interviewer :=
  find (fun i => String.eqb (interviewer_email i) email) (interviewers db).

Definition add_score_row (r : Score) (s : DB) : DB :=
  {| questions := questions s;
     application_templates := application_templates s;
     template_questions := template_questions s;
     interviewers := interviewers s;
     interview_forms := interview_forms s;
     interviewer_forms := interviewer_forms s;
     scores := (scores s ++ [r])%list;
     evaluations := evaluations s;
     feedbacks := feedbacks s;
     predefined_phrases := predefined_phrases s;
     interview_forms_id_seq := interview_forms_id_seq s;
     feedbacks_id_seq := feedbacks_id_seq s |}.

Definition add_evaluation_row (r : Evaluation) (s : DB) : DB :=
  {| questions := questions s;
     application_templates := application_templates s;
     template_questions := template_questions s;
     interviewers := interviewers s;
     interview_forms := interview_forms s;
     interviewer_forms := interviewer_forms s;
     scores := scores s;
     evaluations := (evaluations s ++ [r])%list;
     feedbacks := feedbacks s;
     predefined_phrases := predefined_phrases s;
     interview_forms_id_seq := interview_forms_id_seq s;
     feedbacks_id_seq := feedbacks_id_seq s |}.

Definition add_interviewer_row (r : Interviewer) (s : DB) : DB :=
  {| questions := questions s;
     application_templates := application_templates s;
     template_questions := template_questions s;
     interviewers := (interviewers s ++ [r])%list;
     interview_forms := interview_forms s;
     interviewer_forms := interviewer_forms s;
     scores := scores s;
     evaluations := evaluations s;
     feedbacks := feedbacks s;
     predefined_phrases := predefined_phrases s;
     interview_forms_id_seq := interview_forms_id_seq s;
     feedbacks_id_seq := feedbacks_id_seq s |}.

Definition add_phrase_row (r : PredefinedPhrase) (s : DB) : DB :=
  {| questions := questions s;
     application_templates := application_templates s;
     template_questions := template_questions s;
     interviewers := interviewers s;
     interview_forms := interview_forms s;
     interviewer_forms := interviewer_forms s;
     scores := scores s;
     evaluations := evaluations s;
     feedbacks := feedbacks s;
     predefined_phrases := (predefined_phrases s ++ [r])%list;
     interview_forms_id_seq := interview_forms_id_seq s;
     feedbacks_id_seq := feedbacks_id_seq s |}.

Definition add_template_row (r : ApplicationTemplate) (s : DB) : DB :=
  {| questions := questions s;
     application_templates := (application_templates s ++ [r])%list;
     template_questions := template_questions s;
     interviewers := interviewers s;
     interview_forms := interview_forms s;
     interviewer_forms := interviewer_forms s;
     scores := scores s;
     evaluations := evaluations s;
     feedbacks := feedbacks s;
     predefined_phrases := predefined_phrases s;
     interview_forms_id_seq := interview_forms_id_seq s;
     feedbacks_id_seq := feedbacks_id_seq s |}.

Definition with_interview_forms (f : list InterviewForm -> list InterviewForm) (s : DB) : DB :=
  {| questions := questions s;
     application_templates := application_templates s;
     template_questions := template_questions s;
     interviewers := interviewers s;
     interview_forms := f (interview_forms s);
     interviewer_forms := interviewer_forms s;
     scores := scores s;
     evaluations := evaluations s;
     feedbacks := feedbacks s;
     predefined_phrases := predefined_phrases s;
     interview_forms_id_seq := interview_forms_id_seq s;
     feedbacks_id_seq := feedbacks_id_seq s |}.

(** [setattr(db_form, key, value)] for the keys of the update that carry a
    value. *)
Definition patched {A} (p : patch A) (current : A) : A :=
  match p with
  | Given (Some v) => v
  | _ => current
  end.

Definition assigns_null {A} (p : patch A) : bool :=
  match p with
  | Given None => true
  | _ => false
  end.

Definition apply_update (u : InterviewFormUpdate) (r : InterviewForm) : InterviewForm :=
  {| form_id := form_id r;
     form_candidate_id := form_candidate_id r;
     form_candidate_name := patched (patch_candidate_name u) (form_candidate_name r);
     form_position := patched (patch_position u) (form_position r);
     form_interview_date := patched (patch_interview_date u) (form_interview_date r);
     form_template_id := form_template_id r |}.

(** The three patched columns are NOT NULL: an update that assigns null to
    one of them is refused by the database when it is flushed. *)
Definition update_assigns_null (u : InterviewFormUpdate) : bool :=
  assigns_null (patch_candidate_name u) || assigns_null (patch_position u)
  || assigns_null (patch_interview_date u).

(** The handler assigns [updated_at] for every body, so the commit always
    issues an UPDATE of the row; the UPDATE writes a new version of the row,
    which a scan of the table then returns last. *)
Definition rewritten (r : InterviewForm) (rows : list InterviewForm)
  : list InterviewForm :=
  (filter (fun o => negb (form_id o =? form_id r)) rows ++ [r])%list.

(** The length of the values of an UPDATE is checked when the statement is
    prepared, before the NOT NULL constraints are. *)
Definition written_strings_fit : Handler unit :=
  fun w => if strings_fit (database w) (session w)
           then (Return tt, w)
           else (Raise too_long, w).

(** [db.delete(form)]: the form row goes, and with it its rows of the
    association table.  The scores, evaluations and feedback of the form are
    not deleted (no delete cascade is declared): the unit of work sets their
    [interview_form_id] to NULL, which the NOT NULL column refuses. *)
Definition has_dependents (form : Z) (s : DB) : bool :=
  existsb (fun r => score_interview_form_id r =? form) (scores s)
  || existsb (fun e => evaluation_interview_form_id e =? form) (evaluations s)
  || existsb (fun f => feedback_interview_form_id f =? form) (feedbacks s).

Definition delete_form_rows (form : Z) (s : DB) : DB :=
  {| questions := questions s;
     application_templates := application_templates s;
     template_questions := template_questions s;
     interviewers := interviewers s;
     interview_forms := filter (fun r => negb (form_id r =? form)) (interview_forms s);
     interviewer_forms := filter (fun l => negb (snd l =? form)) (interviewer_forms s);
     scores := scores s;
     evaluations := evaluations s;
     feedbacks := feedbacks s;
     predefined_phrases := predefined_phrases s;
     interview_forms_id_seq := interview_forms_id_seq s;
     feedbacks_id_seq := feedbacks_id_seq s |}.

(** What GET /api/interviews/{id} answers with. *)
Record InterviewFormDetail := {
  detail_form : InterviewForm;
  detail_interviewers : list Interviewer;
  detail_scores : list Score;
  detail_evaluations : list Evaluation;
  detail_feedback : option Feedback
}.

(** ** app/api/interviews.py *)

Module InterviewsApi.

(** The first loop of [create_interview_form]: every id is looked up
    before anything is built. *)
Fixpoint check_interviewers (ids : list Z) : Handler (list Interviewer) :=
  match ids with
  | [] => ret []
  | interviewer_id :: rest =>
      interviewer <- query (find_interviewer interviewer_id) ;;
      match interviewer with
      | None =>
          raise (HTTPException 404
                   ("Інтерв'юера з ID " ++ str_int interviewer_id ++ " не знайдено"))
      | Some i =>
          found <- check_interviewers rest ;;
          ret (i :: found)
      end
  end.

Definition create_interview_form (form : InterviewFormCreate)
  : Handler (InterviewForm * list Interviewer) :=
  template <- query (find_template (new_template_id form)) ;;
  match template with
  | None => raise (HTTPException 404 "Шаблон не знайдено")
  | Some _ =>
      interviewers <- check_interviewers (interviewer_ids form) ;;
      db_form <- new_InterviewForm form ;;
      for_each interviewers (append_interviewer db_form) ;;
      modify (add_form_row db_form) ;;
      commit ;;
      refresh_form db_form
  end.

Definition add_interviewer_to_form (interview_id interviewer_id : Z)
  : Handler (InterviewForm * list Interviewer) :=
  form <- query (find_form interview_id) ;;
  match form with
  | None => raise (HTTPException 404 "Форму інтерв'ю не знайдено")
  | Some form =>
      interviewer <- query (find_interviewer interviewer_id) ;;
      match interviewer with
      | None => raise (HTTPException 404 "Інтерв'юера не знайдено")
      | Some interviewer =>
          members <- loaded (form_interviewers (form_id form)) ;;
          if interviewer_in interviewer members
          then raise (HTTPException 400 "Інтерв'юер вже доданий до цієї форми")
          else
            append_interviewer form interviewer ;;
            commit ;;
            refresh_form form
      end
  end.

Definition remove_interviewer_from_form (interview_id interviewer_id : Z)
  : Handler string :=
  form <- query (find_form interview_id) ;;
  match form with
  | None => raise (HTTPException 404 "Форму інтерв'ю не знайдено")
  | Some form =>
      interviewer <- query (find_interviewer interviewer_id) ;;
      match interviewer with
      | None => raise (HTTPException 404 "Інтерв'юера не знайдено")
      | Some interviewer =>
          members <- loaded (form_interviewers (form_id form)) ;;
          if negb (interviewer_in interviewer members)
          then raise (HTTPException 404 "Інтерв'юер не є учасником цієї форми")
          else
            remove_interviewer form interviewer ;;
            commit ;;
            ret "Інтерв'юера видалено з форми успішно"
      end
  end.

Definition add_feedback (interview_id : Z) (feedback : FeedbackCreate)
  : Handler Feedback :=
  form <- query (find_form interview_id) ;;
  match form with
  | None => raise (HTTPException 404 "Форму інтерв'ю не знайдено")
  | Some _ =>
      existing <- query (fun db => hd_error (feedbacks_of_form interview_id db)) ;;
      match existing with
      | Some _ => raise (HTTPException 400 "Відгук для цієї форми вже існує")
      | None =>
          db_feedback <- new_Feedback (new_text feedback) interview_id ;;
          attach_phrases db_feedback (predefined_phrase_ids feedback) ;;
          modify (add_feedback_row db_feedback) ;;
          commit ;;
          refresh (find_feedback (feedback_id db_feedback)) db_feedback
      end
  end.

Definition get_interview_form (interview_id : Z) : Handler InterviewFormDetail :=
  form <- query (find_form interview_id) ;;
  match form with
  | None => raise (HTTPException 404 "Форму інтерв'ю не знайдено")
  | Some form =>
      members <- loaded (form_interviewers (form_id form)) ;;
      form_scores <- loaded (scores_of_form (form_id form)) ;;
      form_evaluations <- loaded (evaluations_of_form (form_id form)) ;;
      form_feedback <- loaded (fun s => hd_error (feedbacks_of_form (form_id form) s)) ;;
      ret {| detail_form := form; detail_interviewers := members;
             detail_scores := form_scores; detail_evaluations := form_evaluations;
             detail_feedback := form_feedback |}
  end.

Definition update_interview_form (interview_id : Z) (form : InterviewFormUpdate)
  : Handler (InterviewForm * list Interviewer) :=
  db_form <- query (find_form interview_id) ;;
  match db_form with
  | None => raise (HTTPException 404 "Форму інтерв'ю не знайдено")
  | Some db_form =>
      modify (with_interview_forms (rewritten (apply_update form db_form))) ;;
      written_strings_fit ;;
      (if update_assigns_null form
       then raise (IntegrityError "interview_forms_not_null")
       else commit) ;;
      refresh_form (apply_update form db_form)
  end.

Definition delete_interview_form (interview_id : Z) : Handler string :=
  db_form <- query (find_form interview_id) ;;
  match db_form with
  | None => raise (HTTPException 404 "Форму інтерв'ю не знайдено")
  | Some db_form =>
      dependents <- loaded (has_dependents (form_id db_form)) ;;
      modify (delete_form_rows (form_id db_form)) ;;
      (if dependents
       then raise (IntegrityError "interview_form_id_not_null")
       else commit) ;;
      ret "Форму інтерв'ю видалено успішно"
  end.

Definition create_interviewer (new_id : Z) (interviewer : InterviewerCreate)
  : Handler Interviewer :=
  existing <- query (find_interviewer_by_email (new_interviewer_email interviewer)) ;;
  match existing with
  | Some _ => raise (HTTPException 400 "Інтерв'юер з таким email вже існує")
  | None =>
      let db_interviewer :=
        {| interviewer_id := new_id;
           interviewer_name := new_interviewer_name interviewer;
           interviewer_email := new_interviewer_email interviewer;
           interviewer_position := new_interviewer_position interviewer |} in
      modify (add_interviewer_row db_interviewer) ;;
      commit ;;
      refresh (find_interviewer new_id) db_interviewer
  end.

Definition add_score (new_id : Z) (interview_id : Z) (score : ScoreCreate)
  : Handler Score :=
  form <- query (find_form interview_id) ;;
  match form with
  | None => raise (HTTPException 404 "Форму інтерв'ю не знайдено")
  | Some form =>
      interviewer <- query (find_interviewer (new_interviewer_id score)) ;;
      match interviewer with
      | None => raise (HTTPException 404 "Інтерв'юера не знайдено")
      | Some interviewer =>
          members <- loaded (form_interviewers (form_id form)) ;;
          if negb (interviewer_in interviewer members)
          then raise (HTTPException 400 "Інтерв'юер не є учасником цієї форми")
          else
            question <- query (find_question (new_question_id score)) ;;
            match question with
            | None => raise (HTTPException 404 "Питання не знайдено")
            | Some _ =>
                let db_score :=
                  {| score_id := new_id;
                     score_question_id := new_question_id score;
                     score_value := new_value score;
                     score_comment := new_comment score;
                     score_interviewer_id := new_interviewer_id score;
                     score_interview_form_id := interview_id;
                     score_evaluation_id := None |} in
                modify (add_score_row db_score) ;;
                commit ;;
                refresh (find_score new_id) db_score
            end
      end
  end.

Definition add_evaluation (new_id : Z) (interview_id : Z) (evaluation : EvaluationCreate)
  : Handler Evaluation :=
  form <- query (find_form interview_id) ;;
  match form with
  | None => raise (HTTPException 404 "Форму інтерв'ю не знайдено")
  | Some _ =>
      let db_evaluation :=
        {| evaluation_id := new_id;
           total_score := new_total_score evaluation;
           passed := Some (new_passed evaluation);
           minimal_rate := new_minimal_rate evaluation;
           evaluation_interview_form_id := interview_id |} in
      modify (add_evaluation_row db_evaluation) ;;
      commit ;;
      refresh (find_evaluation new_id) db_evaluation
  end.

Definition create_phrase (new_id : Z) (phrase : PredefinedPhraseCreate)
  : Handler PredefinedPhrase :=
  let db_phrase :=
    {| phrase_id := new_id;
       phrase_text := new_phrase_text phrase;
       phrase_category := new_phrase_category phrase;
       phrase_feedback_id := None |} in
  modify (add_phrase_row db_phrase) ;;
  commit ;;
  refresh (find_phrase new_id) db_phrase.

End InterviewsApi.

(** ** app/services/interview_service.py *)

Module InterviewService.

Definition get_interview_by_id (interview_id : Z) : Handler InterviewForm :=
  interview <- query (find_form interview_id) ;;
  match interview with
  | None => raise (HTTPException 404 "Форму співбесіди не знайдено")
  | Some i => ret i
  end.

Definition create_interview (interview_data : InterviewFormCreate)
  : Handler (InterviewForm * list Interviewer) :=
  template <- query (find_template (new_template_id interview_data)) ;;
  match template with
  | None => raise (HTTPException 404 "Шаблон не знайдено")
  | Some _ =>
      db_interview <- new_InterviewForm interview_data ;;
      for_each (interviewer_ids interview_data) (fun interviewer_id =>
        interviewer <- query (find_interviewer interviewer_id) ;;
        match interviewer with
        | None =>
            raise (HTTPException 404
                     ("Інтерв'юера з ID " ++ str_int interviewer_id ++ " не знайдено"))
        | Some i => append_interviewer db_interview i
        end) ;;
      modify (add_form_row db_interview) ;;
      commit ;;
      refresh_form db_interview
  end.

Definition add_feedback (interview_id : Z) (feedback_data : FeedbackCreate)
  : Handler Feedback :=
  _ <- get_interview_by_id interview_id ;;
  existing <- query (fun db => hd_error (feedbacks_of_form interview_id db)) ;;
  match existing with
  | Some existing =>
      set_feedback_text existing (new_text feedback_data) ;;
      clear_phrases existing ;;
      attach_phrases existing (predefined_phrase_ids feedback_data) ;;
      commit ;;
      refresh (find_feedback (feedback_id existing)) existing
  | None =>
      db_feedback <- new_Feedback (new_text feedback_data) interview_id ;;
      attach_phrases db_feedback (predefined_phrase_ids feedback_data) ;;
      modify (add_feedback_row db_feedback) ;;
      commit ;;
      refresh (find_feedback (feedback_id db_feedback)) db_feedback
  end.

Definition add_interviewer_to_form (interview_id interviewer_id : Z)
  : Handler (InterviewForm * list Interviewer) :=
  interview <- get_interview_by_id interview_id ;;
  interviewer <- query (find_interviewer interviewer_id) ;;
  match interviewer with
  | None => raise (HTTPException 404 "Інтерв'юера не знайдено")
  | Some interviewer =>
      members <- loaded (form_interviewers (form_id interview)) ;;
      if interviewer_in interviewer members
      then raise (HTTPException 400 "Інтерв'юер вже доданий до цієї форми")
      else
        append_interviewer interview interviewer ;;
        commit ;;
        refresh_form interview
  end.

Definition remove_interviewer_from_form (interview_id interviewer_id : Z)
  : Handler bool :=
  interview <- get_interview_by_id interview_id ;;
  interviewer <- query (find_interviewer interviewer_id) ;;
  match interviewer with
  | None => raise (HTTPException 404 "Інтерв'юера не знайдено")
  | Some interviewer =>
      members <- loaded (form_interviewers (form_id interview)) ;;
      if negb (interviewer_in interviewer members)
      then raise (HTTPException 404 "Інтерв'юер не є учасником цієї форми")
      else
        remove_interviewer interview interviewer ;;
        commit ;;
        ret true
  end.

Definition delete_interview (interview_id : Z) : Handler bool :=
  db_interview <- get_interview_by_id interview_id ;;
  dependents <- loaded (has_dependents (form_id db_interview)) ;;
  modify (delete_form_rows (form_id db_interview)) ;;
  (if dependents
   then raise (IntegrityError "interview_form_id_not_null")
   else commit) ;;
  ret true.

Definition add_score (new_id : Z) (interview_id : Z) (score_data : ScoreCreate)
  : Handler Score :=
  interview <- get_interview_by_id interview_id ;;
  interviewer <- query (find_interviewer (new_interviewer_id score_data)) ;;
  match interviewer with
  | None => raise (HTTPException 404 "Інтерв'юера не знайдено")
  | Some interviewer =>
      members <- loaded (form_interviewers (form_id interview)) ;;
      if negb (interviewer_in interviewer members)
      then raise (HTTPException 400 "Інтерв'юер не є учасником цієї форми")
      else
        question <- query (find_question (new_question_id score_data)) ;;
        match question with
        | None => raise (HTTPException 404 "Питання не знайдено")
        | Some _ =>
            let db_score :=
              {| score_id := new_id;
                 score_question_id := new_question_id score_data;
                 score_value := new_value score_data;
                 score_comment := new_comment score_data;
                 score_interviewer_id := new_interviewer_id score_data;
                 score_interview_form_id := interview_id;
                 score_evaluation_id := None |} in
            modify (add_score_row db_score) ;;
            commit ;;
            refresh (find_score new_id) db_score
        end
  end.

Definition add_evaluation (new_id : Z) (interview_id : Z)
  (evaluation_data : EvaluationCreate) : Handler Evaluation :=
  _ <- get_interview_by_id interview_id ;;
  let db_evaluation :=
    {| evaluation_id := new_id;
       total_score := new_total_score evaluation_data;
       passed := Some (new_passed evaluation_data);
       minimal_rate := new_minimal_rate evaluation_data;
       evaluation_interview_form_id := interview_id |} in
  modify (add_evaluation_row db_evaluation) ;;
  commit ;;
  refresh (find_evaluation new_id) db_evaluation.

Definition create_interviewer (new_id : Z) (interviewer_data : InterviewerCreate)
  : Handler Interviewer :=
  existing <- query (find_interviewer_by_email (new_interviewer_email interviewer_data)) ;;
  match existing with
  | Some _ => raise (HTTPException 400 "Інтерв'юер з таким email вже існує")
  | None =>
      let db_interviewer :=
        {| interviewer_id := new_id;
           interviewer_name := new_interviewer_name interviewer_data;
           interviewer_email := new_interviewer_email interviewer_data;
           interviewer_position := new_interviewer_position interviewer_data |} in
      modify (add_interviewer_row db_interviewer) ;;
      commit ;;
      refresh (find_interviewer new_id) db_interviewer
  end.

Definition create_predefined_phrase (new_id : Z) (phrase_data : PredefinedPhraseCreate)
  : Handler PredefinedPhrase :=
  let db_phrase :=
    {| phrase_id := new_id;
       phrase_text := new_phrase_text phrase_data;
       phrase_category := new_phrase_category phrase_data;
       phrase_feedback_id := None |} in
  modify (add_phrase_row db_phrase) ;;
  commit ;;
  refresh (find_phrase new_id) db_phrase.

End InterviewService.

(** ** app/services/template_service.py and app/api/templates.py *)

Module TemplateService.

Definition get_template_by_id (template_id : Z) : Handler ApplicationTemplate :=
  template <- query (find_template template_id) ;;
  match template with
  | None => raise (HTTPException 404 "Шаблон не знайдено")
  | Some t => ret t
  end.

Definition add_questions_to_template (template_id : Z) (question_ids : list Z)
  : Handler (ApplicationTemplate * list Question) :=
  db_template <- get_template_by_id template_id ;;
  for_each question_ids (fun question_id =>
    question <- query (find_question question_id) ;;
    match question with
    | None =>
        raise (HTTPException 404
                 ("Питання з ID " ++ str_int question_id ++ " не знайдено"))
    | Some q => append_question db_template q
    end) ;;
  commit ;;
  refresh_template db_template.

Definition remove_question_from_template (template_id question_id : Z)
  : Handler bool :=
  db_template <- get_template_by_id template_id ;;
  question <- query (find_question question_id) ;;
  match question with
  | None =>
      raise (HTTPException 404
               ("Питання з ID " ++ str_int question_id ++ " не знайдено"))
  | Some q =>
      members <- loaded (template_question_rows (application_template_id db_template)) ;;
      if negb (question_in q members)
      then raise (HTTPException 404
                    ("Питання з ID " ++ str_int question_id
                     ++ " не знайдено в цьому шаблоні"))
      else
        remove_question db_template q ;;
        commit ;;
        ret true
  end.

Definition clone_template (new_id : Z) (template_id : Z) (new_template_data : TemplateCreate)
  : Handler ApplicationTemplate :=
  source_template <- get_template_by_id template_id ;;
  let new_template :=
    {| application_template_id := new_id;
       template_name := new_template_name new_template_data;
       template_description := new_template_description new_template_data;
       template_position := new_template_position new_template_data |} in
  modify (add_template_row new_template) ;;
  source_questions <- loaded (template_question_rows
                                (application_template_id source_template)) ;;
  for_each source_questions (append_question new_template) ;;
  commit ;;
  refresh (find_template new_id) new_template.

End TemplateService.

Module TemplatesApi.

(** [TemplateDetailResponse.from_orm(db_template)]: the response model
    declares [questions: List[int]] and reads the attribute [questions] of
    the template, a list of [Question] objects; the validation of the first
    of them as an integer fails.  A template without questions validates,
    with an empty list. *)
Definition from_orm (loaded_template : ApplicationTemplate * list Question)
  : Handler (ApplicationTemplate * list Z) :=
  match snd loaded_template with
  | [] => ret (fst loaded_template, [])
  | _ :: _ =>
      raise (ValidationError "questions -> 0: value is not a valid integer")
  end.

Definition add_questions_to_template (template_id : Z) (questions_list : list Z)
  : Handler (ApplicationTemplate * list Z) :=
  db_template <- query (find_template template_id) ;;
  match db_template with
  | None => raise (HTTPException 404 "Шаблон не знайдено")
  | Some db_template =>
      for_each questions_list (fun question_id =>
        question <- query (find_question question_id) ;;
        match question with
        | None =>
            raise (HTTPException 404
                     ("Питання з ID " ++ str_int question_id ++ " не знайдено"))
        | Some q => append_question db_template q
        end) ;;
      commit ;;
      result <- refresh_template db_template ;;
      detail <- from_orm result ;;
      ret (fst detail, map question_id (snd result))
  end.

Definition remove_question_from_template (template_id question_id : Z)
  : Handler string :=
  db_template <- query (find_template template_id) ;;
  match db_template with
  | None => raise (HTTPException 404 "Шаблон не знайдено")
  | Some db_template =>
      question <- query (find_question question_id) ;;
      match question with
      | None =>
          raise (HTTPException 404
                   ("Питання з ID " ++ str_int question_id ++ " не знайдено"))
      | Some q =>
          members <- loaded (template_question_rows (application_template_id db_template)) ;;
          if negb (question_in q members)
          then raise (HTTPException 404
                        ("Питання з ID " ++ str_int question_id
                         ++ " не знайдено в цьому шаблоні"))
          else
            remove_question db_template q ;;
            commit ;;
            ret "Питання видалено з шаблону успішно"
      end
  end.

Definition clone_template (new_id : Z) (template_id : Z) (template_data : TemplateCreate)
  : Handler ApplicationTemplate :=
  source_template <- query (find_template template_id) ;;
  match source_template with
  | None => raise (HTTPException 404 "Шаблон для клонування не знайдено")
  | Some source_template =>
      let new_template :=
        {| application_template_id := new_id;
           template_name := new_template_name template_data;
           template_description := new_template_description template_data;
           template_position := new_template_position template_data |} in
      modify (add_template_row new_template) ;;
      source_questions <- loaded (template_question_rows
                                    (application_template_id source_template)) ;;
      for_each source_questions (append_question new_template) ;;
      commit ;;
      refresh (find_template new_id) new_template
  end.

End TemplatesApi.

(** ** Filtered listings *)

(** [column == value] on a nullable integer column: NULL matches nothing. *)
Definition sql_eq (column : option Z) (value : Z) : bool :=
  match column with
  | Some c => c =? value
  | None => false
  end.

(** The value inside a truthy [Optional] argument. *)
Definition int_value (o : option Z) : Z :=
  match o with Some n => n | None => 0 end.

Definition str_value (o : option string) : string :=
  match o with Some s => s | None => "" end.

(** [query.offset(skip).limit(limit).all()].  OFFSET and LIMIT are 64-bit
    integers in the database: a value outside that range is refused when the
    statement is prepared, a negative one when it is run, the OFFSET
    first. *)
Definition is_bigint (n : Z) : bool :=
  (- 2 ^ 63 <=? n) && (n <? 2 ^ 63).

Definition offset_limit {A} (skip limit : Z) (rows : list A) : Handler (list A) :=
  if negb (is_bigint skip && is_bigint limit)
  then raise (DataError "bigint out of range")
  else if skip <? 0
  then raise (DataError "OFFSET must not be negative")
  else if limit <? 0
  then raise (DataError "LIMIT must not be negative")
  else ret (firstn (Z.to_nat limit) (skipn (Z.to_nat skip) rows)).

(** [query = query.filter(criterion)] under [if flag:]. *)
Definition filter_if {A} (flag : bool) (criterion : A -> bool) (rows : list A) : list A :=
  if flag then filter criterion rows else rows.

Section Listings.

(** [column.ilike(pattern)] as the database evaluates it. *)
Variable ilike : string -> string -> bool.

(** QuestionService.get_questions and the GET /api/questions handler run
    the same statements. *)
Definition get_questions (skip limit : Z)
  (unit_id difficulty_id level_id group_id : option Z)
  (text_search : option string) : Handler (list Question) :=
  rows <- query questions ;;
  let rows := filter_if (truthy_int unit_id)
                (fun q => sql_eq (question_unit_id q) (int_value unit_id)) rows in
  let rows := filter_if (truthy_int difficulty_id)
                (fun q => sql_eq (question_difficulty_id q) (int_value difficulty_id)) rows in
  let rows := filter_if (truthy_int level_id)
                (fun q => sql_eq (question_level_id q) (int_value level_id)) rows in
  let rows := filter_if (truthy_int group_id)
                (fun q => sql_eq (question_group_id q) (int_value group_id)) rows in
  let rows := filter_if (truthy_str text_search)
                (fun q => ilike (question_text q) ("%" ++ str_value text_search ++ "%")) rows in
  offset_limit skip limit rows.

(** InterviewService.get_interviews and GET /api/interviews. *)
Definition get_interviews (skip limit : Z)
  (candidate_id position : option string)
  (start_date end_date : option datetime) : Handler (list InterviewForm) :=
  rows <- query interview_forms ;;
  let rows := filter_if (truthy_str candidate_id)
                (fun f => String.eqb (form_candidate_id f) (str_value candidate_id)) rows in
  let rows := filter_if (truthy_str position)
                (fun f => ilike (form_position f) ("%" ++ str_value position ++ "%")) rows in
  let rows := match start_date with
              | Some d => filter (fun f => datetime_leb d (form_interview_date f)) rows
              | None => rows
              end in
  let rows := match end_date with
              | Some d => filter (fun f => datetime_leb (form_interview_date f) d) rows
              | None => rows
              end in
  offset_limit skip limit rows.

End Listings.

(** get_interviewers, in the handler and in the service. *)
Definition get_interviewers (skip limit : Z) : Handler (list Interviewer) :=
  rows <- query interviewers ;;
  offset_limit skip limit rows.

(** get_phrases / get_predefined_phrases. *)
Definition get_phrases (category : option string) : Handler (list PredefinedPhrase) :=
  rows <- query predefined_phrases ;;
  ret (filter_if (truthy_str category)
         (fun p => match phrase_category p with
                   | Some c => String.eqb c (str_value category)
                   | None => false
                   end) rows).

Module ScoresService.

(** InterviewService.get_scores. *)
Definition get_scores (interview_id : Z) (interviewer_id : option Z)
  : Handler (list Score) :=
  _ <- InterviewService.get_interview_by_id interview_id ;;
  rows <- query (scores_of_form interview_id) ;;
  ret (filter_if (truthy_int interviewer_id)
         (fun s => score_interviewer_id s =? int_value interviewer_id) rows).

End ScoresService.

Module ScoresApi.

(** GET /api/interviews/{interview_id}/scores. *)
Definition get_scores (interview_id : Z) (interviewer_id : option Z)
  : Handler (list Score) :=
  form <- query (find_form interview_id) ;;
  match form with
  | None => raise (HTTPException 404 "Форму інтерв'ю не знайдено")
  | Some _ =>
      rows <- query (scores_of_form interview_id) ;;
      ret (filter_if (truthy_int interviewer_id)
             (fun s => score_interviewer_id s =? int_value interviewer_id) rows)
  end.

End ScoresApi.

(** ** app/api/integrations.py *)

Module Integrations.

Section PeopleForce.

Variable settings : Settings.
Variable remote : Remote.

(** [str(x)] of a Python float, as an f-string prints it. *)
Variable float_repr : float -> string.

(** PeopleForceClient.__init__: [self.headers]. *)
Definition client_headers : list (string * string) :=
  [("Authorization", "Bearer " ++ str_opt (PEOPLEFORCE_API_KEY settings));
   ("Content-Type", "application/json");
   ("Accept", "application/json")].

(** [await client.patch(url, headers=..., json=payload)]: the request
    goes out, then the remote answers or the transport raises. *)
Definition patch (url : string) (hs : list (string * string))
  (payload : list (string * string)) : Handler Response :=
  fun w =>
    let request := {| method := "PATCH"; url := url; headers := hs;
                      json_payload := payload |} in
    let w' := {| database := database w; session := session w;
                 sent := (sent w ++ [request])%list |} in
    match remote request with
    | Responds r => (Return r, w')
    | Unreachable msg => (Raise (TransportError msg), w')
    end.

Definition lift {A} (o : outcome A) : Handler A := fun w => (o, w).

(** PeopleForceClient.update_candidate_notes. *)
Definition update_candidate_notes (candidate_id notes : string) : Handler Json :=
  let url := PEOPLEFORCE_API_URL settings ++ "/api/v1/candidates/" ++ candidate_id in
  let payload := [("notes", notes)] in
  response <- patch url client_headers payload ;;
  if negb (existsb (Z.eqb (response_status_code response)) [200; 201; 204])
  then raise (HTTPException (response_status_code response)
                ("Помилка оновлення нотаток кандидата в PeopleForce: "
                 ++ response_text response))
  else lift (response_json response).

(** [if eval.passed] on the nullable boolean column. *)
Definition passed_text (e : Evaluation) : string :=
  match passed e with
  | Some true => "Пройшов"
  | _ => "Не пройшов"
  end.

Definition interviewer_line (i : Interviewer) : string :=
  "- " ++ interviewer_name i ++ " (" ++ str_opt (interviewer_position i) ++ ")" ++ nl.

Definition evaluation_lines (e : Evaluation) : string :=
  ("- Загальна оцінка: " ++ float_repr (total_score e) ++ " з "
   ++ float_repr (minimal_rate e) ++ " необхідних" ++ nl)
  ++ ("- Результат: " ++ passed_text e ++ nl ++ nl).

Definition phrase_line (p : PredefinedPhrase) : string :=
  "- " ++ phrase_text p ++ nl.

(** The notes text, built by the successive [notes += ...] of
    [sync_interview_to_peopleforce]. *)
Definition build_notes (form : InterviewForm) (members : list Interviewer)
  (evaluations : list Evaluation)
  (feedback : option (Feedback * list PredefinedPhrase)) : string :=
  let notes := "## Результати технічної співбесіди" ++ nl ++ nl in
  let notes := notes ++ ("**Позиція:** " ++ form_position form ++ nl) in
  let notes := notes ++ ("**Дата інтерв'ю:** "
                         ++ strftime_Ymd_HM (form_interview_date form) ++ nl ++ nl) in
  let notes := notes ++ ("**Інтерв'юери:**" ++ nl) in
  let notes := fold_left (fun notes i => notes ++ interviewer_line i) members notes in
  let notes := notes ++ (nl ++ "**Оцінки:**" ++ nl) in
  let notes :=
    match evaluations with
    | [] => notes
    | _ => fold_left (fun notes e => notes ++ evaluation_lines e) evaluations notes
    end in
  match feedback with
  | None => notes
  | Some (fb, phrases) =>
      let notes := notes ++ ("**Відгук:**" ++ nl) in
      let notes := notes ++ feedback_text fb in
      match phrases with
      | [] => notes
      | _ =>
          let notes := notes ++ (nl ++ nl ++ "**Рекомендації:**" ++ nl) in
          fold_left (fun notes p => notes ++ phrase_line p) phrases notes
      end
  end.

(** What the handler reads before it formats: the form's interviewers,
    its evaluations, its first feedback and that feedback's phrases. *)
Definition load_feedback (interview_id : Z)
  : Handler (option (Feedback * list PredefinedPhrase)) :=
  feedback <- query (fun db => hd_error (feedbacks_of_form interview_id db)) ;;
  match feedback with
  | None => ret None
  | Some fb =>
      phrases <- loaded (feedback_phrases (feedback_id fb)) ;;
      ret (Some (fb, phrases))
  end.

Definition sync_interview_to_peopleforce (interview_id : Z)
  : Handler (list (string * string)) :=
  form <- query (find_form interview_id) ;;
  match form with
  | None => raise (HTTPException 404 "Форму інтерв'ю не знайдено")
  | Some form =>
      evaluations <- query (evaluations_of_form interview_id) ;;
      feedback <- load_feedback interview_id ;;
      members <- loaded (form_interviewers (form_id form)) ;;
      let notes := build_notes form members evaluations feedback in
      try_except
        (_ <- update_candidate_notes (form_candidate_id form) notes ;;
         ret [("status", "success");
              ("message", "Дані успішно синхронізовано з PeopleForce")])
        (fun e =>
           raise (HTTPException 500
                    ("Помилка при синхронізації даних з PeopleForce: "
                     ++ str_exc e)))
  end.

End PeopleForce.

End Integrations.

(** * Properties *)

(** ** Vocabulary of the statements *)

(** The pieces occur in the text one after the other, each one after the
    end of the one before. *)
Fixpoint in_order (parts : list string) (s : string) : Prop :=
  match parts with
  | [] => True
  | p :: rest =>
      exists before after, s = before ++ p ++ after /\ in_order rest after
  end.

(** The lines printed for the rows of a list, one after the other. *)
Definition lines {A} (f : A -> string) (l : list A) : string :=
  fold_right (fun x acc => f x ++ acc) "" l.

(** The notes text the sync flow builds for a form from what the database
    holds. *)
Definition aggregated_notes (float_repr : float -> string) (db : DB)
  (interview_id : Z) (form : InterviewForm) : string :=
  Integrations.build_notes float_repr form
    (form_interviewers (form_id form) db)
    (evaluations_of_form interview_id db)
    (match hd_error (feedbacks_of_form interview_id db) with
     | Some fb => Some (fb, feedback_phrases (feedback_id fb) db)
     | None => None
     end).

(** The request [update_candidate_notes] issues. *)
Definition notes_request (settings : Settings) (candidate_id notes : string) : Request :=
  {| method := "PATCH";
     url := PEOPLEFORCE_API_URL settings ++ "/api/v1/candidates/" ++ candidate_id;
     headers := Integrations.client_headers settings;
     json_payload := [("notes", notes)] |}.

(** The answer of a successful sync. *)
Definition sync_success : list (string * string) :=
  [("status", "success");
   ("message", "Дані успішно синхронізовано з PeopleForce")].

Definition sync_failure (e : Exception) : Exception :=
  HTTPException 500
    ("Помилка при синхронізації даних з PeopleForce: " ++ str_exc e).

(** What the feedback handlers leave behind.  [listed ids p]: the phrase's
    id is among the submitted ids. *)
Definition listed (ids : list Z) (p : PredefinedPhrase) : bool :=
  existsb (Z.eqb (phrase_id p)) ids.

Definition attach (feedback : Z) (ids : list Z) (rows : list PredefinedPhrase)
  : list PredefinedPhrase :=
  map (fun r => if listed ids r then set_phrase_feedback (Some feedback) r else r)
    rows.

Definition detach_all (feedback : Z) (rows : list PredefinedPhrase)
  : list PredefinedPhrase :=
  map (fun r => if attached_to feedback r then set_phrase_feedback None r else r)
    rows.

Definition with_text (text : string) (r : Feedback) : Feedback :=
  {| feedback_id := feedback_id r;
     feedback_text := text;
     feedback_interview_form_id := feedback_interview_form_id r |}.

Definition retext (id : Z) (text : string) (rows : list Feedback) : list Feedback :=
  map (fun r => if feedback_id r =? id then with_text text r else r) rows.

(** The feedback row a first submission creates. *)
Definition created_feedback (db : DB) (interview_id : Z) (fb : FeedbackCreate)
  : Feedback :=
  {| feedback_id := feedbacks_id_seq db;
     feedback_text := new_text fb;
     feedback_interview_form_id := interview_id |}.

(** The database after a first submission, and after a resubmission through
    the service. *)
Definition db_with_created_feedback (db : DB) (interview_id : Z)
  (fb : FeedbackCreate) : DB :=
  add_feedback_row (created_feedback db interview_id fb)
    (with_predefined_phrases
       (attach (feedbacks_id_seq db) (predefined_phrase_ids fb)) db).

Definition db_with_updated_feedback (db : DB) (existing : Feedback)
  (fb : FeedbackCreate) : DB :=
  with_predefined_phrases
    (fun rows =>
       attach (feedback_id existing) (predefined_phrase_ids fb)
         (detach_all (feedback_id existing) rows))
    (with_feedbacks (retext (feedback_id existing) (new_text fb)) db).

(** The feedback id sequence is ahead of every id in use: no feedback row
    and no phrase's foreign key holds a value the sequence has yet to hand
    out. *)
Definition feedbacks_seq_ahead (db : DB) : bool :=
  forallb (fun f => feedback_id f <? feedbacks_id_seq db) (feedbacks db)
  && forallb
       (fun p => match phrase_feedback_id p with
                 | Some f => f <? feedbacks_id_seq db
                 | None => true
                 end)
       (predefined_phrases db).

(** The session's phrase rows are rows of the database, up to their
    foreign key. *)
Definition covers (db : DB) (rows : list PredefinedPhrase) : Prop :=
  forall r, In r rows ->
    exists p, In p (predefined_phrases db) /\ phrase_id p = phrase_id r
              /\ phrase_category p = phrase_category r.

(** Creating a form: the first submitted interviewer id without a row, the
    rows of the ids that have one, the exception for a missing one, the new
    form and the links the handlers append for it. *)
Fixpoint first_missing (ids : list Z) (db : DB) : option Z :=
  match ids with
  | [] => None
  | id :: rest =>
      match find_interviewer id db with
      | None => Some id
      | Some _ => first_missing rest db
      end
  end.

Definition found_interviewers (ids : list Z) (db : DB) : list Interviewer :=
  flat_map
    (fun id => match find_interviewer id db with
               | Some i => [i]
               | None => []
               end)
    ids.

Definition missing_interviewer (id : Z) : Exception :=
  HTTPException 404 ("Інтерв'юера з ID " ++ str_int id ++ " не знайдено").

Definition created_form (db : DB) (form : InterviewFormCreate) : InterviewForm :=
  {| form_id := interview_forms_id_seq db;
     form_candidate_id := new_candidate_id form;
     form_candidate_name := new_candidate_name form;
     form_position := new_position form;
     form_interview_date := new_interview_date form;
     form_template_id := new_template_id form |}.

Definition new_links (db : DB) (form : InterviewFormCreate) : list (Z * Z) :=
  map (fun i => (interviewer_id i, interview_forms_id_seq db))
    (found_interviewers (interviewer_ids form) db).

Definition db_with_created_form (db : DB) (form : InterviewFormCreate)
  (links : list (Z * Z)) : DB :=
  add_form_row (created_form db form) (with_interviewer_forms (fun _ => links) db).

(** The database with one form id handed out and nothing else changed. *)
Definition form_id_taken (s : DB) : DB :=
  {| questions := questions s;
     application_templates := application_templates s;
     template_questions := template_questions s;
     interviewers := interviewers s;
     interview_forms := interview_forms s;
     interviewer_forms := interviewer_forms s;
     scores := scores s;
     evaluations := evaluations s;
     feedbacks := feedbacks s;
     predefined_phrases := predefined_phrases s;
     interview_forms_id_seq := interview_forms_id_seq s + 1;
     feedbacks_id_seq := feedbacks_id_seq s |}.

(** What the creation request does, case by case: the two lookups, the
    INSERT of the form row, the INSERT of its links. *)
Definition creation_outcome (db : DB) (form : InterviewFormCreate)
  : outcome (InterviewForm * list Interviewer) * DB * list Request :=
  match find_template (new_template_id form) db with
  | None => (Raise (HTTPException 404 "Шаблон не знайдено"), db, [])
  | Some _ =>
      match first_missing (interviewer_ids form) db with
      | Some id => (Raise (missing_interviewer id), db, [])
      | None =>
          if negb (form_fits (interview_forms db) (created_form db form))
          then (Raise too_long, db, [])
          else
          match flush_links "interviewer_forms_pkey" (interviewer_forms db)
                  (interviewer_forms db ++ new_links db form)%list with
          | Raise e => (Raise e, form_id_taken db, [])
          | Return links =>
              let db' := db_with_created_form db form links in
              (Return (match find_form (interview_forms_id_seq db) db' with
                       | Some r => r
                       | None => created_form db form
                       end,
                       form_interviewers (interview_forms_id_seq db) db'),
               db', [])
          end
      end
  end.

(** A text of exactly [width] decimal digits. *)
Definition is_digit (c : ascii) : bool :=
  (48 <=? nat_of_ascii c)%nat && (nat_of_ascii c <=? 57)%nat.

Definition digits_of_width (width : nat) (s : string) : bool :=
  Nat.eqb (String.length s) width && forallb is_digit (list_ascii_of_string s).

(** Field ranges of a timestamp for which every platform prints the year
    with four digits. *)
Definition printable_datetime (d : datetime) : Prop :=
  1000 <= year d <= 9999 /\ 1 <= month d <= 12 /\ 1 <= day d <= 31
  /\ 0 <= hour d <= 23 /\ 0 <= minute d <= 59.

(** The row [add_score] builds, and what the request does case by case. *)
Definition created_score (new_id interview_id : Z) (score : ScoreCreate) : Score :=
  {| score_id := new_id;
     score_question_id := new_question_id score;
     score_value := new_value score;
     score_comment := new_comment score;
     score_interviewer_id := new_interviewer_id score;
     score_interview_form_id := interview_id;
     score_evaluation_id := None |}.

Definition created_evaluation (new_id interview_id : Z) (evaluation : EvaluationCreate)
  : Evaluation :=
  {| evaluation_id := new_id;
     total_score := new_total_score evaluation;
     passed := Some (new_passed evaluation);
     minimal_rate := new_minimal_rate evaluation;
     evaluation_interview_form_id := interview_id |}.

Definition created_interviewer (new_id : Z) (interviewer : InterviewerCreate)
  : Interviewer :=
  {| interviewer_id := new_id;
     interviewer_name := new_interviewer_name interviewer;
     interviewer_email := new_interviewer_email interviewer;
     interviewer_position := new_interviewer_position interviewer |}.

Definition cloned_template (new_id : Z) (data : TemplateCreate) : ApplicationTemplate :=
  {| application_template_id := new_id;
     template_name := new_template_name data;
     template_description := new_template_description data;
     template_position := new_template_position data |}.

(** The score may be stored: the form, the interviewer and the question
    exist and the interviewer is on the form. *)
Definition score_allowed (db : DB) (interview_id : Z) (score : ScoreCreate) : bool :=
  match find_form interview_id db, find_interviewer (new_interviewer_id score) db with
  | Some form, Some interviewer =>
      interviewer_in interviewer (form_interviewers (form_id form) db)
      && match find_question (new_question_id score) db with
         | Some _ => true
         | None => false
         end
  | _, _ => false
  end.

(** The feedback table is well formed: the id sequence is ahead of the ids
    in use, feedback ids are a key, and no form has two feedback rows (the
    [uselist=False] side of the relationship). *)
Definition feedback_table_ok (db : DB) : Prop :=
  feedbacks_seq_ahead db = true
  /\ NoDup (map feedback_id (feedbacks db))
  /\ forall f, (List.length (feedbacks_of_form f db) <= 1)%nat.

Definition no_patch : InterviewFormUpdate :=
  {| patch_candidate_name := Unset; patch_position := Unset;
     patch_interview_date := Unset |}.

(** The links a clone receives, and the database after a clone. *)
Definition clone_links (new_id : Z) (rows : list Question) : list (Z * Z) :=
  map (fun q => (new_id, question_id q)) rows.

Definition db_with_clone (db : DB) (new_id template_id : Z) (data : TemplateCreate) : DB :=
  with_template_questions
    (fun links => (links ++ clone_links new_id (template_question_rows template_id db))%list)
    (add_template_row (cloned_template new_id data) db).

(** The form id sequence is ahead of the ids in use: the next id names no
    form, no link and no dependent row. *)
Definition forms_seq_fresh (db : DB) : Prop :=
  find_form (interview_forms_id_seq db) db = None
  /\ (forall link, In link (interviewer_forms db) ->
                   snd link <> interview_forms_id_seq db)
  /\ has_dependents (interview_forms_id_seq db) db = false.

Definition bare_detail (form : InterviewForm) (members : list Interviewer)
  : InterviewFormDetail :=
  {| detail_form := form; detail_interviewers := members;
     detail_scores := []; detail_evaluations := []; detail_feedback := None |}.

Definition created_phrase (new_id : Z) (phrase : PredefinedPhraseCreate)
  : PredefinedPhrase :=
  {| phrase_id := new_id;
     phrase_text := new_phrase_text phrase;
     phrase_category := new_phrase_category phrase;
     phrase_feedback_id := None |}.

(** The interviewers whose id is among [ids], in the order of their rows. *)
Definition submitted_interviewers (ids : list Z) (db : DB) : list Interviewer :=
  filter (fun i => existsb (Z.eqb (interviewer_id i)) ids) (interviewers db).






(** ** Sample data *)

Definition sample_date : datetime :=
  {| year := 2024; month := 3; day := 5; hour := 9; minute := 7; second := 0;
     microsecond := 0 |}.

Definition jane : Interviewer :=
  {| interviewer_id := 1; interviewer_name := "Jane Doe";
     interviewer_email := "jane@example.org";
     interviewer_position := Some "Senior Engineer" |}.

Definition sample_form : InterviewForm :=
  {| form_id := 1; form_candidate_id := "cand-42";
     form_candidate_name := "Sam Roe"; form_position := "Backend Engineer";
     form_interview_date := sample_date; form_template_id := 1 |}.

Definition sample_evaluation : Evaluation :=
  {| evaluation_id := 1; total_score := 8.5%float; passed := Some true;
     minimal_rate := 7%float; evaluation_interview_form_id := 1 |}.

Definition sample_feedback : Feedback :=
  {| feedback_id := 1; feedback_text := "Strong candidate";
     feedback_interview_form_id := 1 |}.

Definition sample_phrase : PredefinedPhrase :=
  {| phrase_id := 1; phrase_text := "Clear communicator";
     phrase_category := Some "positive"; phrase_feedback_id := Some 1 |}.

Definition sample_question : Question :=
  {| question_id := 5; question_text := "What is a goroutine?";
     weight := 1%float; docs_reference := None; priority := 1;
     question_unit_id := None; question_difficulty_id := None;
     question_level_id := None; question_group_id := None |}.

Definition sample_template : ApplicationTemplate :=
  {| application_template_id := 1; template_name := "Golang";
     template_description := None; template_position := "Golang Engineer" |}.

Definition empty_db : DB :=
  {| questions := []; application_templates := []; template_questions := [];
     interviewers := []; interview_forms := []; interviewer_forms := [];
     scores := []; evaluations := []; feedbacks := []; predefined_phrases := [];
     interview_forms_id_seq := 1; feedbacks_id_seq := 1 |}.

Definition sample_db : DB :=
  {| questions := [sample_question];
     application_templates := [sample_template];
     template_questions := [(1, 5)];
     interviewers := [jane];
     interview_forms := [sample_form];
     interviewer_forms := [(1, 1)];
     scores := [];
     evaluations := [sample_evaluation];
     feedbacks := [sample_feedback];
     predefined_phrases := [sample_phrase];
     interview_forms_id_seq := 2;
     feedbacks_id_seq := 2 |}.

Definition sample_settings : Settings :=
  {| PEOPLEFORCE_API_URL := "https://api.peopleforce.io";
     PEOPLEFORCE_API_KEY := Some "secret" |}.

(** How Python prints the two scores of the sample evaluation. *)
Definition sample_float_repr (x : float) : string :=
  if (x =? 8.5)%float then "8.5" else if (x =? 7)%float then "7.0" else "nan".

(** Stub remotes: one that answers every request with a fixed response,
    one that cannot be reached. *)
Definition remote_answering (r : Response) : Remote := fun _ => Responds r.

Definition remote_down : Remote := fun _ => Unreachable "connection refused".

Definition ok_response : Response :=
  {| response_status_code := 200;
     response_text := "{}";
     response_json := Return (JObject []) |}.

Definition server_error_response : Response :=
  {| response_status_code := 500;
     response_text := "boom";
     response_json := Raise (JSONDecodeError "Expecting value: line 1 column 1 (char 0)") |}.

Definition not_found_response : Response :=
  {| response_status_code := 404;
     response_text := "not found";
     response_json := Raise (JSONDecodeError "Expecting value: line 1 column 1 (char 0)") |}.

(** 204 No Content: there is no body to decode. *)
Definition no_content_response : Response :=
  {| response_status_code := 204;
     response_text := "";
     response_json := Raise (JSONDecodeError "Expecting value: line 1 column 1 (char 0)") |}.

(** A second form, still without feedback, and a phrase nobody uses yet. *)
Definition second_form : InterviewForm :=
  {| form_id := 2; form_candidate_id := "cand-43";
     form_candidate_name := "Kim Poe"; form_position := "Backend Engineer";
     form_interview_date := sample_date; form_template_id := 1 |}.

Definition second_phrase : PredefinedPhrase :=
  {| phrase_id := 2; phrase_text := "Needs mentoring";
     phrase_category := None; phrase_feedback_id := None |}.

Definition omar : Interviewer :=
  {| interviewer_id := 2; interviewer_name := "Omar Sy";
     interviewer_email := "omar@example.org"; interviewer_position := None |}.

Definition two_forms_db : DB :=
  {| questions := [sample_question];
     application_templates := [sample_template];
     template_questions := [(1, 5)];
     interviewers := [jane; omar];
     interview_forms := [sample_form; second_form];
     interviewer_forms := [(1, 1)];
     scores := [];
     evaluations := [sample_evaluation];
     feedbacks := [sample_feedback];
     predefined_phrases := [sample_phrase; second_phrase];
     interview_forms_id_seq := 3;
     feedbacks_id_seq := 2 |}.

(** A submission naming the phrase of the first feedback and an id that no
    phrase has. *)
Definition resubmission : FeedbackCreate :=
  {| new_text := "Solid"; predefined_phrase_ids := [1; 99] |}.

(** A creation request naming the same interviewer twice. *)
Definition doubled_request : InterviewFormCreate :=
  {| new_candidate_id := "cand-44"; new_candidate_name := "Lee Ann";
     new_position := "Backend Engineer"; new_interview_date := sample_date;
     new_template_id := 1; interviewer_ids := [1; 1] |}.

(** Creation requests for the two-forms database: one naming both
    interviewers, one naming an interviewer that does not exist. *)
Definition panel_request : InterviewFormCreate :=
  {| new_candidate_id := "cand-45"; new_candidate_name := "Ada Roe";
     new_position := "Backend Engineer"; new_interview_date := sample_date;
     new_template_id := 1; interviewer_ids := [1; 2] |}.

Definition ghost_request : InterviewFormCreate :=
  {| new_candidate_id := "cand-46"; new_candidate_name := "Bo Lind";
     new_position := "Backend Engineer"; new_interview_date := sample_date;
     new_template_id := 1; interviewer_ids := [1; 77] |}.

(** Requests against the two-forms database: a score by Jane, who is on
    form 1, and one by Omar, who is not, for a question that does not even
    exist. *)
Definition jane_score : ScoreCreate :=
  {| new_question_id := 5; new_value := 4%float; new_comment := Some "good";
     new_interviewer_id := 1 |}.

Definition omar_score : ScoreCreate :=
  {| new_question_id := 404; new_value := 2%float; new_comment := None;
     new_interviewer_id := 2 |}.

Definition strong_evaluation : EvaluationCreate :=
  {| new_total_score := 8.5%float; new_passed := true; new_minimal_rate := 7%float |}.

Definition new_colleague : InterviewerCreate :=
  {| new_interviewer_name := "Ira Bond"; new_interviewer_email := "ira@example.org";
     new_interviewer_position := Some "Engineer" |}.

(** A name of 106 characters. *)
Definition long_name : string :=
  "A very long name that goes on and on past the one hundred characters"
  ++ " that the name column can hold at most".

Definition long_named_colleague : InterviewerCreate :=
  {| new_interviewer_name := long_name; new_interviewer_email := "long@example.org";
     new_interviewer_position := None |}.

Definition rename_candidate : InterviewFormUpdate :=
  {| patch_candidate_name := Given (Some "Ada L."); patch_position := Unset;
     patch_interview_date := Unset |}.

Definition null_position : InterviewFormUpdate :=
  {| patch_candidate_name := Given (Some "Ada L."); patch_position := Given None;
     patch_interview_date := Unset |}.

Definition long_rename : InterviewFormUpdate :=
  {| patch_candidate_name := Given (Some long_name); patch_position := Unset;
     patch_interview_date := Unset |}.

Definition rust_template : TemplateCreate :=
  {| new_template_name := "Rust"; new_template_description := None;
     new_template_position := "Rust Engineer" |}.

Definition neutral_phrase : PredefinedPhraseCreate :=
  {| new_phrase_text := "Asked good questions"; new_phrase_category := Some "neutral" |}.

Definition second_question : Question :=
  {| question_id := 6; question_text := "What is a channel?";
     weight := 2%float; docs_reference := None; priority := 1;
     question_unit_id := Some 3; question_difficulty_id := None;
     question_level_id := None; question_group_id := None |}.

(** The sample database with a second question that no template lists. *)
Definition two_questions_db : DB :=
  {| questions := [sample_question; second_question];
     application_templates := [sample_template];
     template_questions := [(1, 5)];
     interviewers := [jane];
     interview_forms := [sample_form];
     interviewer_forms := [(1, 1)];
     scores := [];
     evaluations := [sample_evaluation];
     feedbacks := [sample_feedback];
     predefined_phrases := [sample_phrase];
     interview_forms_id_seq := 2;
     feedbacks_id_seq := 2 |}.

Definition long_named_template : TemplateCreate :=
  {| new_template_name := long_name; new_template_description := None;
     new_template_position := "Rust Engineer" |}.

(** Two questions on the sample template, linked in the other order than
    their rows are stored. *)
Definition links_reversed_db : DB :=
  {| questions := [sample_question; second_question];
     application_templates := [sample_template];
     template_questions := [(1, 6); (1, 5)];
     interviewers := [jane];
     interview_forms := [sample_form];
     interviewer_forms := [(1, 1)];
     scores := [];
     evaluations := [sample_evaluation];
     feedbacks := [sample_feedback];
     predefined_phrases := [sample_phrase];
     interview_forms_id_seq := 2;
     feedbacks_id_seq := 2 |}.


(** The same creation request with the interviewers in the other order. *)
Definition panel_reversed : InterviewFormCreate :=
  {| new_candidate_id := "cand-45"; new_candidate_name := "Ada Roe";
     new_position := "Backend Engineer"; new_interview_date := sample_date;
     new_template_id := 1; interviewer_ids := [2; 1] |}.


(** A phrase whose category has 53 characters. *)
Definition long_category_phrase : PredefinedPhraseCreate :=
  {| new_phrase_text := "Asked good questions";
     new_phrase_category :=
       Some "communication-and-collaboration-with-the-interviewers" |}.






(** ** Printing *)

Example str_int_samples :
  str_int 0 = "0" /\ str_int 404 = "404" /\ str_int (-12) = "-12".
Proof. repeat split; reflexivity. Qed.

Example strftime_sample : strftime_Ymd_HM sample_date = "2024-03-05 09:07".
Proof. reflexivity. Qed.

Lemma append_assoc (a b c : string) : (a ++ b) ++ c = a ++ (b ++ c).
Proof.
  induction a as [|ch a IH]; simpl; [reflexivity | now rewrite IH].
Qed.

Lemma append_nil_r (a : string) : a ++ "" = a.
Proof.
  induction a as [|ch a IH]; simpl; [reflexivity | now rewrite IH].
Qed.

(** A loop of [notes += f x] appends the lines of the list. *)
Lemma fold_left_append {A} (f : A -> string) (l : list A) (init : string) :
  fold_left (fun notes x => notes ++ f x) l init = init ++ lines f l.
Proof.
  revert init. induction l as [|x l IH]; intros init; simpl.
  - now rewrite append_nil_r.
  - rewrite IH. apply append_assoc.
Qed.

Lemma in_order_prefix parts pre s :
  in_order parts s -> in_order parts (pre ++ s).
Proof.
  destruct parts as [|p rest]; simpl; [trivial|].
  intros (b & a & -> & H). exists (pre ++ b), a. split; [|exact H].
  now rewrite append_assoc.
Qed.

(** Pieces found in a text followed by pieces found in the text after it. *)
Lemma in_order_app parts1 parts2 s1 s2 :
  in_order parts1 s1 -> in_order parts2 s2 ->
  in_order (parts1 ++ parts2)%list (s1 ++ s2).
Proof.
  revert s1. induction parts1 as [|p rest IH]; intros s1 H1 H2; simpl.
  - now apply in_order_prefix.
  - destruct H1 as (b & a & -> & H1).
    exists b, (a ++ s2). split.
    + now rewrite !append_assoc.
    + now apply IH.
Qed.

(** The lines of a list contain, in order, a piece of every line. *)
Lemma in_order_lines {A} (f : A -> string) (pieces : A -> list string) (l : list A) :
  (forall x, in_order (pieces x) (f x)) ->
  in_order (flat_map pieces l) (lines f l).
Proof.
  intros Hf. induction l as [|x l IH]; simpl; [exact I|].
  now apply in_order_app.
Qed.

(** A padded number is a text of digits of the requested width, for every
    number below a bound up to which this has been computed. *)
Lemma zfill_digits_checked (width : nat) (bound : Z) :
  forallb (fun k => digits_of_width width (zfill width (str_int (Z.of_nat k))))
    (seq 0 (Z.to_nat bound)) = true ->
  forall n, 0 <= n < bound ->
    digits_of_width width (zfill width (str_int n)) = true.
Proof.
  intros Hall n Hn. rewrite forallb_forall in Hall.
  specialize (Hall (Z.to_nat n)). rewrite Z2Nat.id in Hall by lia.
  apply Hall, in_seq. lia.
Qed.

Lemma four_digits n : 0 <= n <= 9999 -> digits_of_width 4 (zfill 4 (str_int n)) = true.
Proof.
  intros Hn. apply (zfill_digits_checked 4 10000); [vm_compute; reflexivity | lia].
Qed.

Lemma two_digits n : 0 <= n <= 99 -> digits_of_width 2 (zfill 2 (str_int n)) = true.
Proof.
  intros Hn. apply (zfill_digits_checked 2 100); [vm_compute; reflexivity | lia].
Qed.

(** A property computed for every number below a bound holds below it. *)
Lemma checked_below (P : Z -> bool) (bound : Z) :
  forallb (fun k => P (Z.of_nat k)) (seq 0 (Z.to_nat bound)) = true ->
  forall n, 0 <= n < bound -> P n = true.
Proof.
  intros Hall n Hn. rewrite forallb_forall in Hall.
  specialize (Hall (Z.to_nat n)). rewrite Z2Nat.id in Hall by lia.
  apply Hall, in_seq. lia.
Qed.

(** A year of four digits needs no padding. *)
Lemma four_digit_year n : 1000 <= n <= 9999 -> zfill 4 (str_int n) = str_int n.
Proof.
  intros Hn.
  pose proof (checked_below
                (fun k => (k <? 1000) || String.eqb (zfill 4 (str_int k)) (str_int k))
                10000) as Hchecked.
  specialize (Hchecked ltac:(vm_compute; reflexivity) n ltac:(lia)).
  cbv beta in Hchecked. apply orb_true_iff in Hchecked.
  destruct Hchecked as [Hsmall|Heq]; [apply Z.ltb_lt in Hsmall; lia|].
  now apply String.eqb_eq.
Qed.

(** The interview date is printed as YYYY-MM-DD HH:MM: four digits, two,
    two, a space, two and two, with the separators of the format. *)
Theorem strftime_shape (d : datetime) :
  printable_datetime d ->
  exists Y M D h m,
    strftime_Ymd_HM d = Y ++ "-" ++ M ++ "-" ++ D ++ " " ++ h ++ ":" ++ m
    /\ digits_of_width 4 Y = true /\ digits_of_width 2 M = true
    /\ digits_of_width 2 D = true /\ digits_of_width 2 h = true
    /\ digits_of_width 2 m = true.
Proof.
  intros (Hy & Hm & Hd & Hh & Hmi).
  exists (str_int (year d)), (zfill 2 (str_int (month d))),
         (zfill 2 (str_int (day d))), (zfill 2 (str_int (hour d))),
         (zfill 2 (str_int (minute d))).
  split; [reflexivity|].
  split; [rewrite <- four_digit_year by lia; apply four_digits; lia|].
  repeat split; apply two_digits; lia.
Qed.

Lemma strftime_shape_witness :
  exists Y M D h m,
    strftime_Ymd_HM sample_date = Y ++ "-" ++ M ++ "-" ++ D ++ " " ++ h ++ ":" ++ m
    /\ digits_of_width 4 Y = true /\ digits_of_width 2 M = true
    /\ digits_of_width 2 D = true /\ digits_of_width 2 h = true
    /\ digits_of_width 2 m = true.
Proof.
  apply (strftime_shape sample_date).
  unfold printable_datetime, sample_date. cbn. lia.
Defined.

(** Running the sequencing of a handler: the monad operations are
    unfolded, the handler's own queries stay folded. *)
Ltac step_handler :=
  cbv beta iota zeta delta
    [bind ret raise query loaded modify try_except refresh open_session];
  cbn [database session sent fst snd].

Ltac step_handler_in H :=
  cbv beta iota zeta delta
    [bind ret raise query loaded modify try_except refresh open_session] in H;
  cbn [database session sent fst snd] in H.

(** ** The remote client and the sync orchestration *)

Section SyncFacts.

Variable settings : Settings.
Variable remote : Remote.
Variable float_repr : float -> string.

Local Abbreviation update_candidate_notes :=
  (Integrations.update_candidate_notes settings remote).
Local Abbreviation sync_interview_to_peopleforce :=
  (Integrations.sync_interview_to_peopleforce settings remote float_repr).

(** Whatever the remote does, the client call sends exactly one request,
    the PATCH with the notes, and leaves the database and the session
    alone. *)
Lemma update_candidate_notes_world candidate_id notes w :
  snd (update_candidate_notes candidate_id notes w)
  = {| database := database w; session := session w;
       sent := (sent w ++ [notes_request settings candidate_id notes])%list |}.
Proof.
  unfold Integrations.update_candidate_notes, bind, Integrations.patch.
  fold (notes_request settings candidate_id notes).
  destruct (remote (notes_request settings candidate_id notes)) as [r|msg];
    [|reflexivity].
  destruct (negb _); reflexivity.
Qed.

(** The handler on a form that exists: it formats the notes from the
    database and hands them to the client, turning any exception of the
    client into the sync failure. *)
Lemma sync_run db interview_id form :
  find_form interview_id db = Some form ->
  run_request (sync_interview_to_peopleforce interview_id) db
  = match update_candidate_notes (form_candidate_id form)
            (aggregated_notes float_repr db interview_id form)
            (open_session db) with
    | (Return _, w) => (Return sync_success, database w, sent w)
    | (Raise e, w) => (Raise (sync_failure e), database w, sent w)
    end.
Proof.
  intros Hform.
  unfold run_request, Integrations.sync_interview_to_peopleforce,
    Integrations.load_feedback, aggregated_notes.
  step_handler. rewrite Hform. step_handler.
  destruct (hd_error (feedbacks_of_form interview_id db)) as [fb|];
    step_handler;
    destruct (update_candidate_notes _ _ _) as [[j|e] w]; reflexivity.
Qed.

End SyncFacts.

(** ** The aggregated notes *)

Lemma in_order_here p rest s :
  in_order rest s -> in_order (p :: rest) (p ++ s).
Proof. intros H. exists "", s. split; [reflexivity | exact H]. Qed.

Ltac find_pieces :=
  repeat first
    [ exact I
    | apply in_order_here
    | apply in_order_prefix ].


Lemma evaluation_lines_pieces float_repr (e : Evaluation) :
  in_order
    [float_repr (total_score e); float_repr (minimal_rate e);
     match passed e with Some true => "Пройшов" | _ => "Не пройшов" end]
    (Integrations.evaluation_lines float_repr e).
Proof.
  unfold Integrations.evaluation_lines, Integrations.passed_text.
  rewrite !append_assoc.
  find_pieces.
Qed.










(** The whole text for the sample form, as the handler builds it. *)
Example sample_notes_text :
  aggregated_notes sample_float_repr sample_db 1 sample_form
  = "## Результати технічної співбесіди" ++ nl ++ nl
    ++ "**Позиція:** Backend Engineer" ++ nl
    ++ "**Дата інтерв'ю:** 2024-03-05 09:07" ++ nl ++ nl
    ++ "**Інтерв'юери:**" ++ nl
    ++ "- Jane Doe (Senior Engineer)" ++ nl
    ++ nl ++ "**Оцінки:**" ++ nl
    ++ "- Загальна оцінка: 8.5 з 7.0 необхідних" ++ nl
    ++ "- Результат: Пройшов" ++ nl ++ nl
    ++ "**Відгук:**" ++ nl
    ++ "Strong candidate"
    ++ nl ++ nl ++ "**Рекомендації:**" ++ nl
    ++ "- Clear communicator" ++ nl.
Proof. reflexivity. Qed.

(** ** Sync: missing form, failures, persistence *)

(** C8. When no InterviewForm row has the given id, the sync handler
    raises the 404 HTTPException at once: no request has been sent to the
    remote and the database is as before, whatever the remote and the
    formatting would have done. *)
Theorem sync_unknown_form_not_found
  (settings : Settings) (remote : Remote) (float_repr : float -> string)
  (db : DB) (interview_id : Z) :
  find_form interview_id db = None ->
  run_request
    (Integrations.sync_interview_to_peopleforce settings remote float_repr
       interview_id) db
  = (Raise (HTTPException 404 "Форму інтерв'ю не знайдено"), db, []).
Proof.
  intros Hform.
  unfold run_request, Integrations.sync_interview_to_peopleforce.
  step_handler. rewrite Hform. reflexivity.
Qed.

Lemma sync_unknown_form_not_found_witness :
  run_request
    (Integrations.sync_interview_to_peopleforce sample_settings
       (remote_answering ok_response) sample_float_repr 7) sample_db
  = (Raise (HTTPException 404 "Форму інтерв'ю не знайдено"), sample_db, []).
Proof.
  exact (sync_unknown_form_not_found sample_settings
           (remote_answering ok_response) sample_float_repr sample_db 7 eq_refl).
Defined.

(** C2. On a form that exists, whenever the remote notes update raises an
    exception [e] (an HTTPException carrying the remote's own status, a
    transport error, a decoding error), the sync handler raises the one
    HTTPException with status 500 whose detail carries [str(e)]; and whether
    the update succeeds or fails, the database after the request is the
    database before it. *)
Theorem sync_failure_is_uniform_500
  (settings : Settings) (remote : Remote) (float_repr : float -> string)
  (db : DB) (interview_id : Z) (form : InterviewForm) :
  find_form interview_id db = Some form ->
  (forall e w,
     Integrations.update_candidate_notes settings remote
       (form_candidate_id form)
       (aggregated_notes float_repr db interview_id form) (open_session db)
     = (Raise e, w) ->
     fst (fst (run_request
                 (Integrations.sync_interview_to_peopleforce settings remote
                    float_repr interview_id) db))
     = Raise (HTTPException 500
                ("Помилка при синхронізації даних з PeopleForce: " ++ str_exc e)))
  /\ snd (fst (run_request
                 (Integrations.sync_interview_to_peopleforce settings remote
                    float_repr interview_id) db))
     = db.
Proof.
  intros Hform.
  rewrite (sync_run settings remote float_repr db interview_id form Hform).
  pose proof (update_candidate_notes_world settings remote
                (form_candidate_id form)
                (aggregated_notes float_repr db interview_id form)
                (open_session db)) as Hw.
  destruct (Integrations.update_candidate_notes _ _ _ _ _) as [[j|e] w];
    simpl in Hw; subst w; split; try reflexivity.
  - intros e w H. discriminate H.
  - intros e' w H. injection H as -> _. reflexivity.
Qed.

(** A remote answering 404: the handler still reports 500. *)
Lemma sync_failure_is_uniform_500_witness :
  fst (fst (run_request
              (Integrations.sync_interview_to_peopleforce sample_settings
                 (remote_answering not_found_response) sample_float_repr 1)
              sample_db))
  = Raise (HTTPException 500
             "Помилка при синхронізації даних з PeopleForce: 404: Помилка оновлення нотаток кандидата в PeopleForce: not found")
  /\ snd (fst (run_request
                 (Integrations.sync_interview_to_peopleforce sample_settings
                    (remote_answering not_found_response) sample_float_repr 1)
                 sample_db))
     = sample_db.
Proof.
  destruct (sync_failure_is_uniform_500 sample_settings
              (remote_answering not_found_response) sample_float_repr
              sample_db 1 sample_form eq_refl) as [Hfail Hdb].
  split.
  - exact (Hfail
             (HTTPException 404
                "Помилка оновлення нотаток кандидата в PeopleForce: not found")
             _ eq_refl).
  - exact Hdb.
Defined.

(** A remote that cannot be reached, and a remote answering 500. *)
Example sync_remote_down :
  fst (run_request
         (Integrations.sync_interview_to_peopleforce sample_settings remote_down
            sample_float_repr 1) sample_db)
  = (Raise (HTTPException 500
              "Помилка при синхронізації даних з PeopleForce: connection refused"),
     sample_db).
Proof. reflexivity. Qed.

Example sync_remote_500 :
  fst (run_request
         (Integrations.sync_interview_to_peopleforce sample_settings
            (remote_answering server_error_response) sample_float_repr 1)
         sample_db)
  = (Raise (HTTPException 500
              "Помилка при синхронізації даних з PeopleForce: 500: Помилка оновлення нотаток кандидата в PeopleForce: boom"),
     sample_db).
Proof. reflexivity. Qed.

(** ** update_candidate_notes *)

(** The client call issues one PATCH to the candidate's URL with the JSON
    body [{notes: text}].  When the remote answers 200, 201 or 204, the
    call ends as the decoding of the response body ends: with the decoded
    body, or with the exception the decoding raises on a body that is not
    JSON.  When the remote answers any other status, the call raises the
    HTTPException that carries the remote's status code and response
    text. *)
Theorem update_candidate_notes_contract
  (settings : Settings) (remote : Remote) (candidate_id notes : string)
  (w : World) (response : Response) :
  remote (notes_request settings candidate_id notes) = Responds response ->
  snd (Integrations.update_candidate_notes settings remote candidate_id notes w)
  = {| database := database w; session := session w;
       sent := (sent w ++ [notes_request settings candidate_id notes])%list |}
  /\ (In (response_status_code response) [200; 201; 204] ->
      fst (Integrations.update_candidate_notes settings remote candidate_id
             notes w)
      = response_json response)
  /\ (~ In (response_status_code response) [200; 201; 204] ->
      fst (Integrations.update_candidate_notes settings remote candidate_id
             notes w)
      = Raise (HTTPException (response_status_code response)
                 ("Помилка оновлення нотаток кандидата в PeopleForce: "
                  ++ response_text response))).
Proof.
  intros Hremote. split; [apply update_candidate_notes_world|].
  unfold Integrations.update_candidate_notes, bind, Integrations.patch.
  fold (notes_request settings candidate_id notes). rewrite Hremote.
  destruct (existsb (Z.eqb (response_status_code response)) [200; 201; 204])
    eqn:Hcode; cbn [negb].
  - split.
    + intros _. reflexivity.
    + intros Hnot. exfalso. apply Hnot.
      apply existsb_exists in Hcode. destruct Hcode as (c & Hin & Heq).
      apply Z.eqb_eq in Heq. now subst c.
  - split.
    + intros Hin. exfalso.
      assert (existsb (Z.eqb (response_status_code response)) [200; 201; 204]
              = true) as Htrue.
      { apply existsb_exists. exists (response_status_code response).
        split; [exact Hin | apply Z.eqb_refl]. }
      congruence.
    + intros _. reflexivity.
Qed.

Lemma update_candidate_notes_contract_witness :
  snd (Integrations.update_candidate_notes sample_settings
         (remote_answering ok_response) "cand-42" "notes"
         (open_session empty_db))
  = {| database := empty_db; session := empty_db;
       sent := [notes_request sample_settings "cand-42" "notes"] |}
  /\ fst (Integrations.update_candidate_notes sample_settings
            (remote_answering ok_response) "cand-42" "notes"
            (open_session empty_db))
     = Return (JObject [])
  /\ fst (Integrations.update_candidate_notes sample_settings
            (remote_answering server_error_response) "cand-42" "notes"
            (open_session empty_db))
     = Raise (HTTPException 500
                "Помилка оновлення нотаток кандидата в PeopleForce: boom").
Proof.
  destruct (update_candidate_notes_contract sample_settings
              (remote_answering ok_response) "cand-42" "notes"
              (open_session empty_db) ok_response eq_refl)
    as (Hsent & Hok & _).
  destruct (update_candidate_notes_contract sample_settings
              (remote_answering server_error_response) "cand-42" "notes"
              (open_session empty_db) server_error_response eq_refl)
    as (_ & _ & Hfailed).
  split; [exact Hsent|]. split.
  - rewrite Hok; [reflexivity | left; reflexivity].
  - rewrite Hfailed; [reflexivity|].
    cbn. intuition discriminate.
Defined.

(** C7 does not hold on the code for a remote status of 204.  The call
    lists 204 among the statuses of success and then decodes the response
    body as JSON; a 204 No Content response has no body, so the decoding
    raises and the call fails with a decoding error instead of returning the
    remote response body.  The PATCH has been sent all the same. *)
Theorem update_candidate_notes_no_content :
  response_status_code no_content_response = 204
  /\ response_text no_content_response = ""
  /\ Integrations.update_candidate_notes sample_settings
       (remote_answering no_content_response) "cand-42" "notes"
       (open_session empty_db)
     = (Raise (JSONDecodeError "Expecting value: line 1 column 1 (char 0)"),
        {| database := empty_db; session := empty_db;
           sent := [notes_request sample_settings "cand-42" "notes"] |}).
Proof. repeat split; reflexivity. Qed.

(** ** The unit of work *)

Lemma link_eqb_refl (a : Z * Z) : link_eqb a a = true.
Proof. unfold link_eqb. now rewrite !Z.eqb_refl. Qed.

Lemma link_eqb_eq (a b : Z * Z) : link_eqb a b = true <-> a = b.
Proof.
  unfold link_eqb. destruct a as [a1 a2], b as [b1 b2]. cbn [fst snd].
  rewrite andb_true_iff, !Z.eqb_eq. split.
  - intros [-> ->]. reflexivity.
  - intros H. injection H as -> ->. split; reflexivity.
Qed.

Lemma link_in_In (a : Z * Z) (l : list (Z * Z)) : link_in a l = true <-> In a l.
Proof.
  unfold link_in. rewrite existsb_exists. split.
  - intros (x & Hin & Heq). apply link_eqb_eq in Heq. now subst x.
  - intros Hin. exists a. split; [exact Hin | apply link_eqb_refl].
Qed.

Lemma filter_all {A} (f : A -> bool) (l : list A) :
  (forall x, In x l -> f x = true) -> filter f l = l.
Proof.
  induction l as [|x l IH]; intros H; simpl; [reflexivity|].
  rewrite (H x (or_introl eq_refl)). f_equal. apply IH.
  intros y Hy. apply H. now right.
Qed.

Lemma filter_none {A} (f : A -> bool) (l : list A) :
  (forall x, In x l -> f x = false) -> filter f l = [].
Proof.
  induction l as [|x l IH]; intros H; simpl; [reflexivity|].
  rewrite (H x (or_introl eq_refl)). apply IH.
  intros y Hy. apply H. now right.
Qed.

Lemma find_over_app {A} (p : A -> bool) (l l' : list A) :
  find p (l ++ l')%list
  = match find p l with
    | Some x => Some x
    | None => find p l'
    end.
Proof.
  induction l as [|y l IH]; [reflexivity|].
  cbn [find app]. destruct (p y); [reflexivity | exact IH].
Qed.

Lemma find_appended {A} (p : A -> bool) (l : list A) (x : A) :
  find p l = None -> p x = true -> find p (l ++ [x])%list = Some x.
Proof.
  induction l as [|y l IH]; cbn [find app]; intros Hnone Hx.
  - now rewrite Hx.
  - destruct (p y); [discriminate | now apply IH].
Qed.

Lemma remove_link_comm (a b : Z * Z) (l : list (Z * Z)) :
  remove_link a (remove_link b l) = remove_link b (remove_link a l).
Proof.
  induction l as [|x l IH]; [reflexivity|].
  cbn [remove_link].
  destruct (link_eqb b x) eqn:Hb, (link_eqb a x) eqn:Ha; cbn [remove_link];
    rewrite ?Ha, ?Hb; try reflexivity.
  - apply link_eqb_eq in Ha, Hb. now subst.
  - now rewrite IH.
Qed.

(** Taking a link out of the collection appends nothing. *)
Lemma appended_links_remove (a : Z * Z) (current stored : list (Z * Z)) :
  appended_links current stored = [] ->
  appended_links (remove_link a current) stored = [].
Proof.
  revert current. induction stored as [|x rest IH]; intros current; cbn [appended_links].
  - intros ->. reflexivity.
  - intros H. rewrite remove_link_comm. now apply IH.
Qed.

(** The links appended to a loaded collection are found again. *)
Lemma appended_links_app (stored added : list (Z * Z)) :
  appended_links (stored ++ added)%list stored = added.
Proof.
  induction stored as [|x rest IH]; [reflexivity|].
  cbn [appended_links app remove_link]. now rewrite link_eqb_refl.
Qed.

Lemma appended_links_same (l : list (Z * Z)) : appended_links l l = [].
Proof.
  rewrite <- (app_nil_r l) at 1. apply appended_links_app.
Qed.

Lemma appended_links_filter (keep : Z * Z -> bool) (l : list (Z * Z)) :
  appended_links (filter keep l) l = [].
Proof.
  induction l as [|x l IH]; [reflexivity|].
  cbn [filter appended_links]. destruct (keep x).
  - cbn [remove_link]. now rewrite link_eqb_refl.
  - now apply appended_links_remove.
Qed.

(** A collection that was not touched is flushed to itself. *)
Lemma flush_links_unchanged pkey (l : list (Z * Z)) :
  flush_links pkey l l = Return l.
Proof.
  unfold flush_links.
  rewrite appended_links_same, (filter_all (fun r => link_in r l) l).
  - cbn [has_duplicates existsb orb]. now rewrite app_nil_r.
  - intros x Hx. now apply link_in_In.
Qed.

(** ** The length of the strings written *)

Lemma fits_no_excess (n : nat) (s : string) : fits n s = true -> excess n s = "".
Proof.
  unfold fits. revert n. induction s as [|c rest IH]; intros n Hfit; [reflexivity|].
  cbn [char_length excess] in *. destruct (is_continuation c).
  - apply IH. exact Hfit.
  - apply Nat.leb_le in Hfit. destruct n as [|m]; [lia|].
    apply IH. apply Nat.leb_le. lia.
Qed.

(** A value the database refuses for its length does not fit. *)
Lemma too_long_does_not_fit (n : nat) (s : string) :
  too_long_for n s = true -> fits n s = false.
Proof.
  unfold too_long_for. intros Hlong. apply not_true_is_false. intros Hfit.
  rewrite (fits_no_excess n s Hfit) in Hlong. discriminate.
Qed.

Lemma text_eqb_refl (o : option string) : text_eqb o o = true.
Proof. destruct o as [x|]; [apply String.eqb_refl | reflexivity]. Qed.

(** A column that keeps the value of a stored row of the same key is not
    written. *)
Lemma column_fits_kept {R} (key : R -> Z) (column : R -> option string) (n : nat)
  (stored : list R) (r o : R) :
  In o stored -> key o = key r -> column o = column r ->
  column_fits key column n stored r = true.
Proof.
  intros Ho Hkey Hcol. unfold column_fits. apply orb_true_iff. left.
  apply existsb_exists. exists o. split; [exact Ho|].
  now rewrite Hkey, Hcol, Z.eqb_refl, text_eqb_refl.
Qed.

Lemma column_fits_stored {R} (key : R -> Z) (column : R -> option string) (n : nat)
  (stored : list R) (r : R) :
  In r stored -> column_fits key column n stored r = true.
Proof. intros Hr. now apply (column_fits_kept key column n stored r r). Qed.

Lemma column_fits_short {R} (key : R -> Z) (column : R -> option string) (n : nat)
  (stored : list R) (r : R) :
  fits_opt n (column r) = true -> column_fits key column n stored r = true.
Proof. intros H. unfold column_fits. rewrite H. apply orb_true_r. Qed.

Lemma templates_fit_stored (rows : list ApplicationTemplate) :
  forallb (template_fits rows) rows = true.
Proof.
  apply forallb_forall. intros r Hr. unfold template_fits.
  now rewrite !column_fits_stored.
Qed.

Lemma interviewers_fit_stored (rows : list Interviewer) :
  forallb (interviewer_fits rows) rows = true.
Proof.
  apply forallb_forall. intros r Hr. unfold interviewer_fits.
  now rewrite !column_fits_stored.
Qed.

Lemma forms_fit_stored (rows : list InterviewForm) :
  forallb (form_fits rows) rows = true.
Proof.
  apply forallb_forall. intros r Hr. unfold form_fits.
  now rewrite !column_fits_stored.
Qed.

Lemma phrases_fit_stored (rows : list PredefinedPhrase) :
  forallb (phrase_fits rows) rows = true.
Proof.
  apply forallb_forall. intros r Hr. unfold phrase_fits.
  now rewrite column_fits_stored.
Qed.

(** A flush that touches none of the four tables with [String(n)] columns
    writes no such value. *)
Lemma strings_fit_same (stored work : DB) :
  application_templates work = application_templates stored ->
  interviewers work = interviewers stored ->
  interview_forms work = interview_forms stored ->
  predefined_phrases work = predefined_phrases stored ->
  strings_fit stored work = true.
Proof.
  intros Ht Hi Hf Hp. unfold strings_fit. rewrite Ht, Hi, Hf, Hp.
  now rewrite templates_fit_stored, interviewers_fit_stored, forms_fit_stored,
    phrases_fit_stored.
Qed.

(** Re-pointing phrases writes their foreign key only. *)
Lemma strings_fit_covers (stored work : DB) :
  application_templates work = application_templates stored ->
  interviewers work = interviewers stored ->
  interview_forms work = interview_forms stored ->
  covers stored (predefined_phrases work) ->
  strings_fit stored work = true.
Proof.
  intros Ht Hi Hf Hp. unfold strings_fit. rewrite Ht, Hi, Hf.
  rewrite templates_fit_stored, interviewers_fit_stored, forms_fit_stored.
  cbn [andb]. apply forallb_forall. intros r Hr.
  destruct (Hp r Hr) as (p & Hin & Hid & Hcat).
  unfold phrase_fits. now apply (column_fits_kept _ _ _ _ r p).
Qed.

(** A column of a row whose key no stored row has is written. *)
Lemma column_fits_fresh {R} (key : R -> Z) (column : R -> option string) (n : nat)
  (stored : list R) (r : R) :
  find (fun o => key o =? key r) stored = None ->
  column_fits key column n stored r = fits_opt n (column r).
Proof.
  intros Hfresh. unfold column_fits.
  replace (existsb (fun o => (key o =? key r) && text_eqb (column o) (column r)) stored)
    with false; [reflexivity|].
  symmetry. apply not_true_is_false. intros Hex.
  apply existsb_exists in Hex. destruct Hex as (o & Ho & Hsame).
  apply andb_true_iff in Hsame. destruct Hsame as [Hkey _].
  pose proof (find_none _ _ Hfresh o Ho) as Hne. cbv beta in Hne. congruence.
Qed.

(** The strings written when a row is appended to one of the tables. *)
Lemma strings_fit_added_interviewer stored work r :
  application_templates work = application_templates stored ->
  interviewers work = (interviewers stored ++ [r])%list ->
  interview_forms work = interview_forms stored ->
  predefined_phrases work = predefined_phrases stored ->
  strings_fit stored work = interviewer_fits (interviewers stored) r.
Proof.
  intros Ht Hi Hf Hp. unfold strings_fit. rewrite Ht, Hi, Hf, Hp.
  rewrite templates_fit_stored, forms_fit_stored, phrases_fit_stored.
  rewrite forallb_app, interviewers_fit_stored. cbn [forallb andb].
  now rewrite !andb_true_r.
Qed.

Lemma strings_fit_added_phrase stored work r :
  application_templates work = application_templates stored ->
  interviewers work = interviewers stored ->
  interview_forms work = interview_forms stored ->
  predefined_phrases work = (predefined_phrases stored ++ [r])%list ->
  strings_fit stored work = phrase_fits (predefined_phrases stored) r.
Proof.
  intros Ht Hi Hf Hp. unfold strings_fit. rewrite Ht, Hi, Hf, Hp.
  rewrite templates_fit_stored, interviewers_fit_stored, forms_fit_stored.
  rewrite forallb_app, phrases_fit_stored. cbn [forallb andb].
  now rewrite !andb_true_r.
Qed.

Lemma strings_fit_added_template stored work r :
  application_templates work = (application_templates stored ++ [r])%list ->
  interviewers work = interviewers stored ->
  interview_forms work = interview_forms stored ->
  predefined_phrases work = predefined_phrases stored ->
  strings_fit stored work = template_fits (application_templates stored) r.
Proof.
  intros Ht Hi Hf Hp. unfold strings_fit. rewrite Ht, Hi, Hf, Hp.
  rewrite interviewers_fit_stored, forms_fit_stored, phrases_fit_stored.
  rewrite forallb_app, templates_fit_stored. cbn [forallb andb].
  now rewrite !andb_true_r.
Qed.

Lemma flush_no_link_change (stored work : DB) :
  strings_fit stored work = true ->
  template_questions work = template_questions stored ->
  interviewer_forms work = interviewer_forms stored ->
  flush stored work = Return work.
Proof.
  intros Hfit Htq Hif. unfold flush. rewrite Hfit. cbn [negb].
  rewrite Htq, Hif, !flush_links_unchanged.
  destruct work. cbn in Htq, Hif. subst.
  reflexivity.
Qed.

Lemma commit_no_link_change (w : World) :
  strings_fit (database w) (session w) = true ->
  template_questions (session w) = template_questions (database w) ->
  interviewer_forms (session w) = interviewer_forms (database w) ->
  commit w = (Return tt, {| database := session w; session := session w;
                            sent := sent w |}).
Proof.
  intros Hfit Htq Hif. unfold commit. now rewrite flush_no_link_change.
Qed.

(** A commit that touches no association table succeeds when the strings
    it writes fit their columns, and otherwise fails before anything is
    written. *)
Lemma commit_rows (w : World) :
  template_questions (session w) = template_questions (database w) ->
  interviewer_forms (session w) = interviewer_forms (database w) ->
  commit w
  = if strings_fit (database w) (session w)
    then (Return tt, {| database := session w; session := session w;
                        sent := sent w |})
    else (Raise too_long, w).
Proof.
  intros Htq Hif.
  destruct (strings_fit (database w) (session w)) eqn:Hfit.
  - now apply commit_no_link_change.
  - unfold commit, flush, after_failed_flush. rewrite Hfit. cbn [negb].
    now destruct w.
Qed.

(** ** The loop over the submitted phrase ids *)

Lemma listed_set_phrase_feedback ids o r :
  listed ids (set_phrase_feedback o r) = listed ids r.
Proof. reflexivity. Qed.

Lemma find_phrase_id id db p : find_phrase id db = Some p -> phrase_id p = id.
Proof.
  unfold find_phrase. intros H. apply find_some in H.
  now apply Z.eqb_eq.
Qed.

Lemma covers_map db (g : PredefinedPhrase -> PredefinedPhrase) rows :
  (forall r, phrase_id (g r) = phrase_id r) ->
  (forall r, phrase_category (g r) = phrase_category r) ->
  covers db rows -> covers db (map g rows).
Proof.
  intros Hg Hcat Hc r Hin. apply in_map_iff in Hin. destruct Hin as (r0 & <- & Hin0).
  destruct (Hc r0 Hin0) as (p & Hp & Hid & Hc0). exists p. split; [exact Hp|].
  now rewrite Hg, Hcat.
Qed.

Lemma covers_self db : covers db (predefined_phrases db).
Proof. intros r Hr. exists r. split; [exact Hr | split; reflexivity]. Qed.

(** One turn of the loop, on the rows: looking the id up and re-pointing
    the found phrase is the same as re-pointing every row with that id. *)
Lemma attach_step db feedback id rest rows :
  covers db rows ->
  attach feedback rest
    (match find_phrase id db with
     | Some p =>
         map (fun r => if phrase_id r =? phrase_id p
                       then set_phrase_feedback (Some feedback) r
                       else r) rows
     | None => rows
     end)
  = attach feedback (id :: rest) rows.
Proof.
  intros Hc. unfold attach.
  destruct (find_phrase id db) as [p|] eqn:Hfind.
  - apply find_phrase_id in Hfind. subst id.
    rewrite map_map. apply map_ext. intros r.
    unfold listed. cbn [existsb].
    destruct (phrase_id r =? phrase_id p); cbn [orb].
    + cbn [set_phrase_feedback phrase_id].
      now destruct (existsb (Z.eqb (phrase_id r)) rest).
    + reflexivity.
  - apply map_ext_in. intros r Hr.
    unfold listed. cbn [existsb].
    destruct (Hc r Hr) as (p & Hp & Hid & _).
    unfold find_phrase in Hfind.
    pose proof (find_none _ _ Hfind p Hp) as Hne. cbn in Hne.
    rewrite Hid in Hne. rewrite Hne. reflexivity.
Qed.

Lemma with_predefined_phrases_ext f g (s : DB) :
  f (predefined_phrases s) = g (predefined_phrases s) ->
  with_predefined_phrases f s = with_predefined_phrases g s.
Proof. unfold with_predefined_phrases. now intros ->. Qed.

Lemma attach_nil feedback rows : attach feedback [] rows = rows.
Proof. unfold attach. cbn. apply map_id. Qed.

(** The loop as a whole: every row whose id is listed now points to the
    feedback; nothing is raised for an id without a row. *)
Lemma attach_phrases_run fb ids w :
  covers (database w) (predefined_phrases (session w)) ->
  attach_phrases fb ids w
  = (Return tt,
     {| database := database w;
        session := with_predefined_phrases (attach (feedback_id fb) ids) (session w);
        sent := sent w |}).
Proof.
  revert w. induction ids as [|id rest IH]; intros w Hc.
  - unfold attach_phrases. cbn [for_each]. unfold ret. f_equal.
    destruct w as [d s l]. cbn [database session sent]. f_equal.
    rewrite (with_predefined_phrases_ext (attach (feedback_id fb) [])
               (fun rows => rows) s) by apply attach_nil.
    now destruct s.
  - pose proof (attach_step (database w) (feedback_id fb) id rest
                  (predefined_phrases (session w)) Hc) as Hstep.
    unfold attach_phrases in *. cbn [for_each].
    unfold bind at 1, bind at 1, query at 1.
    destruct (find_phrase id (database w)) as [p|] eqn:Hfind.
    + unfold append_phrase, modify. rewrite IH.
      * cbn [database session sent]. f_equal. f_equal.
        apply (with_predefined_phrases_ext
                 (fun rows => attach (feedback_id fb) rest
                    (map (fun r => if phrase_id r =? phrase_id p
                                   then set_phrase_feedback (Some (feedback_id fb)) r
                                   else r) rows))
                 (attach (feedback_id fb) (id :: rest)) (session w)).
        exact Hstep.
      * cbn [database session]. apply covers_map; [| |exact Hc].
        -- intros r. now destruct (phrase_id r =? phrase_id p).
        -- intros r. now destruct (phrase_id r =? phrase_id p).
    + unfold ret. rewrite IH by exact Hc. f_equal. f_equal.
      now apply with_predefined_phrases_ext.
Qed.

Lemma covers_attach db feedback ids rows :
  covers db rows -> covers db (attach feedback ids rows).
Proof.
  intros Hc. unfold attach. apply covers_map; [| |exact Hc];
    intros r; now destruct (listed ids r).
Qed.

Lemma covers_detach db feedback rows :
  covers db rows -> covers db (detach_all feedback rows).
Proof.
  intros Hc. unfold detach_all. apply covers_map; [| |exact Hc];
    intros r; now destruct (attached_to feedback r).
Qed.

(** ** Feedback submission *)

Ltac phrases_covered :=
  cbn [database session sent
       predefined_phrases add_feedback_row with_predefined_phrases with_feedbacks];
  repeat first
    [ apply covers_self
    | apply covers_attach
    | apply covers_detach
    | apply covers_map;
      [ intros ?r;
        match goal with |- context [if ?c then _ else _] => now destruct c end
      | intros ?r;
        match goal with |- context [if ?c then _ else _] => now destruct c end
      | ] ].

Ltac run_commit :=
  rewrite commit_no_link_change
    by first [ reflexivity
             | apply strings_fit_same; reflexivity
             | apply strings_fit_covers; [reflexivity | reflexivity | reflexivity
                                         | phrases_covered] ];
  cbn [database session sent].

(** POST /feedback on a form that already has a feedback. *)
Lemma api_add_feedback_conflict db interview_id fb form existing :
  find_form interview_id db = Some form ->
  hd_error (feedbacks_of_form interview_id db) = Some existing ->
  run_request (InterviewsApi.add_feedback interview_id fb) db
  = (Raise (HTTPException 400 "Відгук для цієї форми вже існує"), db, []).
Proof.
  intros Hform Hex. unfold run_request, InterviewsApi.add_feedback.
  step_handler. rewrite Hform. step_handler. rewrite Hex. reflexivity.
Qed.

(** POST /feedback on a form without feedback. *)
Lemma api_add_feedback_created db interview_id fb form :
  find_form interview_id db = Some form ->
  hd_error (feedbacks_of_form interview_id db) = None ->
  run_request (InterviewsApi.add_feedback interview_id fb) db
  = (Return (match find_feedback (feedbacks_id_seq db)
                     (db_with_created_feedback db interview_id fb) with
             | Some r => r
             | None => created_feedback db interview_id fb
             end),
     db_with_created_feedback db interview_id fb, []).
Proof.
  intros Hform Hex. unfold run_request, InterviewsApi.add_feedback, new_Feedback.
  step_handler. rewrite Hform. step_handler. rewrite Hex. step_handler.
  rewrite attach_phrases_run by apply covers_self.
  step_handler. run_commit. reflexivity.
Qed.

Lemma service_add_feedback_created db interview_id fb form :
  find_form interview_id db = Some form ->
  hd_error (feedbacks_of_form interview_id db) = None ->
  run_request (InterviewService.add_feedback interview_id fb) db
  = (Return (match find_feedback (feedbacks_id_seq db)
                     (db_with_created_feedback db interview_id fb) with
             | Some r => r
             | None => created_feedback db interview_id fb
             end),
     db_with_created_feedback db interview_id fb, []).
Proof.
  intros Hform Hex.
  unfold run_request, InterviewService.add_feedback,
    InterviewService.get_interview_by_id, new_Feedback.
  step_handler. rewrite Hform. step_handler. rewrite Hex. step_handler.
  rewrite attach_phrases_run by apply covers_self.
  step_handler. run_commit. reflexivity.
Qed.

(** InterviewService.add_feedback on a form that already has a feedback. *)
Lemma service_add_feedback_updated db interview_id fb form existing :
  find_form interview_id db = Some form ->
  hd_error (feedbacks_of_form interview_id db) = Some existing ->
  run_request (InterviewService.add_feedback interview_id fb) db
  = (Return (match find_feedback (feedback_id existing)
                     (db_with_updated_feedback db existing fb) with
             | Some r => r
             | None => existing
             end),
     db_with_updated_feedback db existing fb, []).
Proof.
  intros Hform Hex.
  unfold run_request, InterviewService.add_feedback,
    InterviewService.get_interview_by_id, set_feedback_text, clear_phrases.
  step_handler. rewrite Hform. step_handler. rewrite Hex. step_handler.
  rewrite attach_phrases_run.
  - step_handler. run_commit. reflexivity.
  - cbn [database session predefined_phrases with_predefined_phrases with_feedbacks].
    apply (covers_detach db (feedback_id existing)), covers_self.
Qed.

(** ** The phrase table after a submission *)

Lemma attached_to_set feedback other r :
  attached_to other (set_phrase_feedback (Some feedback) r) = (feedback =? other).
Proof. reflexivity. Qed.

(** Rows that end up attached to the feedback: the listed ones, provided
    no unlisted row pointed to it. *)
Lemma filter_attached_attach feedback ids rows :
  (forall r, In r rows -> listed ids r = false -> attached_to feedback r = false) ->
  filter (attached_to feedback) (attach feedback ids rows)
  = map (set_phrase_feedback (Some feedback)) (filter (listed ids) rows).
Proof.
  unfold attach. induction rows as [|r rows IH]; intros H; [reflexivity|].
  cbn [map filter].
  destruct (listed ids r) eqn:Hl.
  - rewrite attached_to_set, Z.eqb_refl. cbn [map]. f_equal.
    apply IH. intros x Hx. apply H. now right.
  - rewrite (H r (or_introl eq_refl) Hl).
    apply IH. intros x Hx. apply H. now right.
Qed.

(** Rows attached to another feedback: those it had, minus the listed. *)
Lemma filter_other_attach feedback other ids rows :
  other <> feedback ->
  filter (attached_to other) (attach feedback ids rows)
  = filter (fun p => negb (listed ids p)) (filter (attached_to other) rows).
Proof.
  intros Hne. unfold attach.
  induction rows as [|r rows IH]; [reflexivity|].
  cbn [map filter].
  destruct (listed ids r) eqn:Hl.
  - rewrite attached_to_set.
    replace (feedback =? other) with false
      by (symmetry; apply Z.eqb_neq; congruence).
    destruct (attached_to other r); [cbn [filter]; rewrite Hl; cbn [negb]|];
      exact IH.
  - destruct (attached_to other r); [cbn [filter]; rewrite Hl; cbn [negb]; f_equal|];
      exact IH.
Qed.

Lemma filter_other_detach feedback other rows :
  other <> feedback ->
  filter (attached_to other) (detach_all feedback rows)
  = filter (attached_to other) rows.
Proof.
  intros Hne. unfold detach_all.
  induction rows as [|r rows IH]; [reflexivity|].
  cbn [map filter].
  destruct (attached_to feedback r) eqn:Ha.
  - unfold attached_to in Ha |- *. cbn [set_phrase_feedback phrase_feedback_id].
    destruct (phrase_feedback_id r) as [f|]; [|discriminate].
    apply Z.eqb_eq in Ha. subst f.
    replace (feedback =? other) with false
      by (symmetry; apply Z.eqb_neq; congruence).
    exact IH.
  - destruct (attached_to other r); [f_equal|]; exact IH.
Qed.

Lemma detach_all_unlisted feedback ids rows r :
  In r (detach_all feedback rows) -> listed ids r = false ->
  attached_to feedback r = false.
Proof.
  unfold detach_all. intros Hin _. apply in_map_iff in Hin.
  destruct Hin as (r0 & <- & _).
  destruct (attached_to feedback r0) eqn:Ha; [reflexivity | exact Ha].
Qed.

Lemma set_after_detach feedback ids rows :
  map (set_phrase_feedback (Some feedback))
    (filter (listed ids) (detach_all feedback rows))
  = map (set_phrase_feedback (Some feedback)) (filter (listed ids) rows).
Proof.
  unfold detach_all. induction rows as [|r rows IH]; [reflexivity|].
  cbn [map filter].
  destruct (attached_to feedback r);
    rewrite ?listed_set_phrase_feedback;
    destruct (listed ids r); cbn [map]; rewrite IH; reflexivity.
Qed.

Lemma seq_ahead_unattached db r :
  feedbacks_seq_ahead db = true -> In r (predefined_phrases db) ->
  attached_to (feedbacks_id_seq db) r = false.
Proof.
  unfold feedbacks_seq_ahead. intros H Hin.
  apply andb_true_iff in H. destruct H as [_ H].
  rewrite forallb_forall in H. specialize (H r Hin).
  unfold attached_to. destruct (phrase_feedback_id r) as [f|]; [|reflexivity].
  apply Z.ltb_lt in H. apply Z.eqb_neq. lia.
Qed.

Lemma created_feedback_phrases db interview_id fb :
  feedbacks_seq_ahead db = true ->
  feedback_phrases (feedbacks_id_seq db) (db_with_created_feedback db interview_id fb)
  = map (set_phrase_feedback (Some (feedbacks_id_seq db)))
      (filter (listed (predefined_phrase_ids fb)) (predefined_phrases db)).
Proof.
  intros Hseq. unfold feedback_phrases, db_with_created_feedback.
  cbn [predefined_phrases add_feedback_row with_predefined_phrases].
  apply filter_attached_attach. intros r Hr _. now apply seq_ahead_unattached.
Qed.

Lemma updated_feedback_phrases db existing fb :
  feedback_phrases (feedback_id existing) (db_with_updated_feedback db existing fb)
  = map (set_phrase_feedback (Some (feedback_id existing)))
      (filter (listed (predefined_phrase_ids fb)) (predefined_phrases db)).
Proof.
  unfold feedback_phrases, db_with_updated_feedback.
  cbn [predefined_phrases with_predefined_phrases with_feedbacks].
  rewrite filter_attached_attach.
  - apply set_after_detach.
  - intros r. apply detach_all_unlisted.
Qed.

(** ** The feedback table after a submission *)

Lemma found_feedback_id id db r : find_feedback id db = Some r -> feedback_id r = id.
Proof.
  unfold find_feedback. intros H. apply find_some in H. now apply Z.eqb_eq.
Qed.

Lemma existing_in_table db interview_id existing :
  hd_error (feedbacks_of_form interview_id db) = Some existing ->
  In existing (feedbacks db)
  /\ feedback_interview_form_id existing = interview_id.
Proof.
  unfold feedbacks_of_form. intros H.
  assert (In existing
            (filter (fun f => feedback_interview_form_id f =? interview_id)
               (feedbacks db))) as Hin.
  { destruct (filter _ _) as [|x l]; [discriminate|].
    injection H as ->. now left. }
  apply filter_In in Hin. destruct Hin as [Hin Heq].
  split; [exact Hin | now apply Z.eqb_eq].
Qed.

(** Under the primary key, the row found by the existing feedback's id
    after the update is that feedback with its new text. *)
Lemma find_retext rows x text :
  NoDup (map feedback_id rows) -> In x rows ->
  find (fun f => feedback_id f =? feedback_id x) (retext (feedback_id x) text rows)
  = Some (with_text text x).
Proof.
  unfold retext. induction rows as [|r rows IH]; intros Hnd Hin; [destruct Hin|].
  cbn [map find] in *. inversion Hnd as [|? ? Hnotin Hnd']; subst.
  destruct (feedback_id r =? feedback_id x) eqn:Heq.
  - cbn [with_text feedback_id]. rewrite Heq.
    apply Z.eqb_eq in Heq. destruct Hin as [->|Hin]; [reflexivity|].
    exfalso. apply Hnotin. rewrite Heq. now apply in_map.
  - rewrite Heq. destruct Hin as [->|Hin].
    + rewrite Z.eqb_refl in Heq. discriminate.
    + now apply IH.
Qed.

Lemma feedbacks_of_form_retext db existing fb f :
  feedbacks_of_form f (db_with_updated_feedback db existing fb)
  = retext (feedback_id existing) (new_text fb) (feedbacks_of_form f db).
Proof.
  unfold feedbacks_of_form, db_with_updated_feedback, retext.
  cbn [feedbacks with_predefined_phrases with_feedbacks].
  induction (feedbacks db) as [|r rows IH]; [reflexivity|].
  cbn [map filter].
  destruct (feedback_id r =? feedback_id existing) eqn:Hid;
    cbn [with_text feedback_interview_form_id];
    destruct (feedback_interview_form_id r =? f); cbn [map];
    rewrite ?Hid, IH; reflexivity.
Qed.

(** C4. On a form that already has a feedback row (feedback ids being the
    primary key), POST /feedback raises the 400 HTTPException and leaves the
    database as it was, while InterviewService.add_feedback returns that same
    row with the submitted text: the feedback table keeps its rows, the
    existing one rewritten in place, the phrases attached to it are now exactly
    the phrase rows whose ids were submitted, and every form has as many
    feedback rows as before, so no form gains a second one on either path. *)
Theorem second_feedback_conflict_or_update
  (db : DB) (interview_id : Z) (fb : FeedbackCreate)
  (form : InterviewForm) (existing : Feedback) :
  find_form interview_id db = Some form ->
  hd_error (feedbacks_of_form interview_id db) = Some existing ->
  NoDup (map feedback_id (feedbacks db)) ->
  run_request (InterviewsApi.add_feedback interview_id fb) db
  = (Raise (HTTPException 400 "Відгук для цієї форми вже існує"), db, [])
  /\ exists db',
       run_request (InterviewService.add_feedback interview_id fb) db
       = (Return (with_text (new_text fb) existing), db', [])
       /\ feedbacks db' = retext (feedback_id existing) (new_text fb) (feedbacks db)
       /\ feedback_phrases (feedback_id existing) db'
          = map (set_phrase_feedback (Some (feedback_id existing)))
              (filter (listed (predefined_phrase_ids fb)) (predefined_phrases db))
       /\ forall f,
            List.length (feedbacks_of_form f db') = List.length (feedbacks_of_form f db).
Proof.
  intros Hform Hex Hpk. split.
  - now apply api_add_feedback_conflict with (form := form) (existing := existing).
  - exists (db_with_updated_feedback db existing fb).
    destruct (existing_in_table db interview_id existing Hex) as [Hin _].
    repeat split.
    + rewrite (service_add_feedback_updated db interview_id fb form existing Hform Hex).
      unfold find_feedback, db_with_updated_feedback.
      cbn [feedbacks with_predefined_phrases with_feedbacks].
      now rewrite find_retext.
    + apply updated_feedback_phrases.
    + intros f. rewrite feedbacks_of_form_retext. unfold retext.
      apply length_map.
Qed.

Lemma second_feedback_conflict_or_update_witness :
  run_request (InterviewsApi.add_feedback 1 resubmission) sample_db
  = (Raise (HTTPException 400 "Відгук для цієї форми вже існує"), sample_db, [])
  /\ exists db',
       run_request (InterviewService.add_feedback 1 resubmission) sample_db
       = (Return (with_text "Solid" sample_feedback), db', [])
       /\ feedbacks db' = [with_text "Solid" sample_feedback]
       /\ feedback_phrases 1 db' = [sample_phrase]
       /\ forall f,
            List.length (feedbacks_of_form f db') = List.length (feedbacks_of_form f sample_db).
Proof.
  apply (second_feedback_conflict_or_update sample_db 1 resubmission
           sample_form sample_feedback eq_refl eq_refl).
  apply NoDup_cons; [intros [] | apply NoDup_nil].
Defined.

Lemma find_nothing {A} (p : A -> bool) (l : list A) :
  (forall x, In x l -> p x = false) -> find p l = None.
Proof.
  intros Hnone. destruct (find p l) as [x|] eqn:Hfind; [|reflexivity].
  apply find_some in Hfind. destruct Hfind as [Hin Hp].
  rewrite (Hnone x Hin) in Hp. discriminate.
Qed.

(** The row a first submission creates is stored under the id the sequence
    handed out. *)
Lemma find_created_feedback db interview_id fb :
  feedbacks_seq_ahead db = true ->
  find_feedback (feedbacks_id_seq db) (db_with_created_feedback db interview_id fb)
  = Some (created_feedback db interview_id fb).
Proof.
  intros Hseq. unfold feedbacks_seq_ahead in Hseq.
  apply andb_true_iff in Hseq. destruct Hseq as [Hrows _].
  unfold find_feedback, db_with_created_feedback.
  cbn [feedbacks add_feedback_row with_predefined_phrases].
  apply find_appended; [|apply Z.eqb_refl].
  apply find_nothing. intros x Hx. rewrite forallb_forall in Hrows.
  specialize (Hrows x Hx). apply Z.ltb_lt in Hrows. apply Z.eqb_neq. lia.
Qed.

Lemma created_feedback_of_form db interview_id fb :
  hd_error (feedbacks_of_form interview_id db) = None ->
  hd_error (feedbacks_of_form interview_id (db_with_created_feedback db interview_id fb))
  = Some (created_feedback db interview_id fb).
Proof.
  unfold feedbacks_of_form, db_with_created_feedback.
  cbn [feedbacks add_feedback_row with_predefined_phrases].
  rewrite filter_app. intros Hnone.
  destruct (filter _ (feedbacks db)) as [|x rest]; [|discriminate].
  cbn [app filter created_feedback feedback_interview_form_id].
  now rewrite Z.eqb_refl.
Qed.

(** The row found under the id of a rewritten feedback carries the new
    text. *)
Lemma find_retext_text rows x text :
  In x rows ->
  exists r,
    find (fun f => feedback_id f =? feedback_id x) (retext (feedback_id x) text rows)
    = Some r
    /\ feedback_text r = text.
Proof.
  unfold retext. induction rows as [|r0 rows IH]; intros Hin; [destruct Hin|].
  cbn [map find]. destruct (feedback_id r0 =? feedback_id x) eqn:Heq.
  - cbn [with_text feedback_id]. rewrite Heq. now eexists.
  - rewrite Heq. destruct Hin as [->|Hin]; [|now apply IH].
    rewrite Z.eqb_refl in Heq. discriminate.
Qed.

(** A submission writes the foreign key of phrase rows: it creates none. *)
Lemma find_in_rewritten_phrases (g : PredefinedPhrase -> PredefinedPhrase) id rows :
  (forall r, phrase_id (g r) = phrase_id r) ->
  find (fun p => phrase_id p =? id) rows = None ->
  find (fun p => phrase_id p =? id) (map g rows) = None.
Proof.
  intros Hg Hnone. apply find_nothing. intros x Hx.
  apply in_map_iff in Hx. destruct Hx as (r & <- & Hr).
  rewrite Hg. exact (find_none _ _ Hnone r Hr).
Qed.

Lemma created_feedback_no_new_phrase db interview_id fb id :
  find_phrase id db = None ->
  find_phrase id (db_with_created_feedback db interview_id fb) = None.
Proof.
  unfold find_phrase, db_with_created_feedback, attach.
  cbn [predefined_phrases add_feedback_row with_predefined_phrases].
  apply find_in_rewritten_phrases. intros r. now destruct (listed _ r).
Qed.

Lemma updated_feedback_no_new_phrase db existing fb id :
  find_phrase id db = None ->
  find_phrase id (db_with_updated_feedback db existing fb) = None.
Proof.
  unfold find_phrase, db_with_updated_feedback, attach, detach_all.
  cbn [predefined_phrases with_feedbacks with_predefined_phrases].
  intros Hnone. apply find_in_rewritten_phrases; [intros r; now destruct (listed _ r)|].
  apply find_in_rewritten_phrases; [|exact Hnone].
  intros r. now destruct (attached_to _ r).
Qed.

(** C10. With the feedback id sequence ahead of the ids in use, a
    submission whose phrase ids include ids of no phrase row succeeds on both
    entry points (the POST handler on a form without feedback, the service on
    any existing form): no 404 is raised and a feedback row is returned.
    That row is stored: it is the row found under its id afterwards and the
    feedback of the form (on the service, for a form that already had one,
    with feedback ids being the primary key), and it carries the submitted
    text.  The phrases attached to it are exactly the phrase rows whose id
    was submitted, and an id that named no phrase row names none
    afterwards. *)
Theorem unknown_phrase_ids_are_skipped
  (db : DB) (interview_id : Z) (fb : FeedbackCreate) (form : InterviewForm) :
  find_form interview_id db = Some form ->
  feedbacks_seq_ahead db = true ->
  (hd_error (feedbacks_of_form interview_id db) = None ->
   exists row db',
     run_request (InterviewsApi.add_feedback interview_id fb) db
     = (Return row, db', [])
     /\ find_feedback (feedback_id row) db' = Some row
     /\ hd_error (feedbacks_of_form interview_id db') = Some row
     /\ feedbacks db' = (feedbacks db ++ [row])%list
     /\ feedback_text row = new_text fb
     /\ feedback_phrases (feedback_id row) db'
        = map (set_phrase_feedback (Some (feedback_id row)))
            (filter (listed (predefined_phrase_ids fb)) (predefined_phrases db))
     /\ (forall id, find_phrase id db = None -> find_phrase id db' = None))
  /\ exists row db',
       run_request (InterviewService.add_feedback interview_id fb) db
       = (Return row, db', [])
       /\ find_feedback (feedback_id row) db' = Some row
       /\ (NoDup (map feedback_id (feedbacks db)) ->
           hd_error (feedbacks_of_form interview_id db') = Some row)
       /\ feedback_text row = new_text fb
       /\ feedback_phrases (feedback_id row) db'
          = map (set_phrase_feedback (Some (feedback_id row)))
              (filter (listed (predefined_phrase_ids fb)) (predefined_phrases db))
       /\ (forall id, find_phrase id db = None -> find_phrase id db' = None).
Proof.
  intros Hform Hseq.
  pose proof (find_created_feedback db interview_id fb Hseq) as Hstored.
  split.
  - intros Hnone. exists (created_feedback db interview_id fb),
                         (db_with_created_feedback db interview_id fb).
    split; [|split; [|split; [|split; [|split; [|split]]]]].
    + rewrite (api_add_feedback_created db interview_id fb form Hform Hnone).
      now rewrite Hstored.
    + exact Hstored.
    + now apply created_feedback_of_form.
    + reflexivity.
    + reflexivity.
    + now apply created_feedback_phrases.
    + intros id. apply created_feedback_no_new_phrase.
  - destruct (hd_error (feedbacks_of_form interview_id db)) as [existing|] eqn:Hex.
    + destruct (existing_in_table db interview_id existing Hex) as [Hin Hof].
      destruct (find_retext_text (feedbacks db) existing (new_text fb) Hin)
        as (r & Hfound & Htext).
      assert (Hfind : find_feedback (feedback_id existing)
                        (db_with_updated_feedback db existing fb) = Some r)
        by exact Hfound.
      pose proof (found_feedback_id _ _ _ Hfind) as Hrid.
      exists r, (db_with_updated_feedback db existing fb).
      split; [|split; [|split; [|split; [|split]]]].
      * rewrite (service_add_feedback_updated db interview_id fb form existing
                   Hform Hex).
        now rewrite Hfind.
      * now rewrite Hrid.
      * intros Hkey. rewrite feedbacks_of_form_retext.
        unfold find_feedback, db_with_updated_feedback in Hfind.
        cbn [feedbacks with_predefined_phrases with_feedbacks] in Hfind.
        rewrite (find_retext _ _ _ Hkey Hin) in Hfind. injection Hfind as <-.
        destruct (feedbacks_of_form interview_id db) as [|x rest]; [discriminate|].
        injection Hex as ->. unfold retext. cbn [map hd_error].
        now rewrite Z.eqb_refl.
      * exact Htext.
      * rewrite Hrid. apply updated_feedback_phrases.
      * intros id. apply updated_feedback_no_new_phrase.
    + exists (created_feedback db interview_id fb),
             (db_with_created_feedback db interview_id fb).
      split; [|split; [|split; [|split; [|split]]]].
      * rewrite (service_add_feedback_created db interview_id fb form Hform Hex).
        now rewrite Hstored.
      * exact Hstored.
      * intros _. now apply created_feedback_of_form.
      * reflexivity.
      * now apply created_feedback_phrases.
      * intros id. apply created_feedback_no_new_phrase.
Qed.

Lemma unknown_phrase_ids_are_skipped_witness :
  find_phrase 99 two_forms_db = None
  /\ (exists row db',
        run_request (InterviewsApi.add_feedback 2 resubmission) two_forms_db
        = (Return row, db', [])
        /\ find_feedback (feedback_id row) db' = Some row
        /\ hd_error (feedbacks_of_form 2 db') = Some row
        /\ feedbacks db' = [sample_feedback; row]
        /\ feedback_text row = "Solid"
        /\ feedback_phrases (feedback_id row) db'
           = [set_phrase_feedback (Some (feedback_id row)) sample_phrase]
        /\ find_phrase 99 db' = None)
  /\ exists row db',
       run_request (InterviewService.add_feedback 2 resubmission) two_forms_db
       = (Return row, db', [])
       /\ find_feedback (feedback_id row) db' = Some row
       /\ hd_error (feedbacks_of_form 2 db') = Some row
       /\ feedback_text row = "Solid"
       /\ feedback_phrases (feedback_id row) db'
          = [set_phrase_feedback (Some (feedback_id row)) sample_phrase]
       /\ find_phrase 99 db' = None.
Proof.
  destruct (unknown_phrase_ids_are_skipped two_forms_db 2 resubmission
              second_form eq_refl eq_refl) as [Hapi Hservice].
  split; [reflexivity|]. split.
  - destruct (Hapi eq_refl)
      as (row & db' & Hrun & Hfound & Hform & Hrows & Htext & Hphrases & Hnone).
    exists row, db'. split; [exact Hrun|]. split; [exact Hfound|].
    split; [exact Hform|]. split; [exact Hrows|]. split; [exact Htext|].
    split; [exact Hphrases | now apply Hnone].
  - destruct Hservice
      as (row & db' & Hrun & Hfound & Hform & Htext & Hphrases & Hnone).
    exists row, db'. split; [exact Hrun|]. split; [exact Hfound|].
    split; [apply Hform; repeat constructor; cbn; intuition discriminate|].
    split; [exact Htext|]. split; [exact Hphrases | now apply Hnone].
Defined.

(** The same submission, run: the id 99 names no phrase and is passed over. *)
Example unknown_phrase_id_run :
  run_request (InterviewsApi.add_feedback 2 resubmission) two_forms_db
  = (Return {| feedback_id := 2; feedback_text := "Solid";
               feedback_interview_form_id := 2 |},
     db_with_created_feedback two_forms_db 2 resubmission, [])
  /\ predefined_phrases (db_with_created_feedback two_forms_db 2 resubmission)
     = [set_phrase_feedback (Some 2) sample_phrase; second_phrase].
Proof. split; reflexivity. Qed.

(** ** A phrase belongs to one feedback *)

Lemma attached_to_unique f1 f2 p :
  attached_to f1 p = true -> attached_to f2 p = true -> f1 = f2.
Proof.
  unfold attached_to. destruct (phrase_feedback_id p) as [f|]; [|discriminate].
  rewrite !Z.eqb_eq. congruence.
Qed.

Lemma feedback_phrases_disjoint db f1 f2 p :
  In p (feedback_phrases f1 db) -> In p (feedback_phrases f2 db) -> f1 = f2.
Proof.
  unfold feedback_phrases. rewrite !filter_In.
  intros [_ H1] [_ H2]. now apply attached_to_unique with p.
Qed.

Lemma created_other_phrases db interview_id fb other :
  other <> feedbacks_id_seq db ->
  feedback_phrases other (db_with_created_feedback db interview_id fb)
  = filter (fun p => negb (listed (predefined_phrase_ids fb) p))
      (feedback_phrases other db).
Proof.
  intros Hne. unfold feedback_phrases, db_with_created_feedback.
  cbn [predefined_phrases add_feedback_row with_predefined_phrases].
  now apply filter_other_attach.
Qed.

Lemma updated_other_phrases db existing fb other :
  other <> feedback_id existing ->
  feedback_phrases other (db_with_updated_feedback db existing fb)
  = filter (fun p => negb (listed (predefined_phrase_ids fb) p))
      (feedback_phrases other db).
Proof.
  intros Hne. unfold feedback_phrases, db_with_updated_feedback.
  cbn [predefined_phrases with_predefined_phrases with_feedbacks].
  rewrite filter_other_attach by exact Hne.
  now rewrite filter_other_detach.
Qed.

(** On a first submission both entry points do the same. *)
Lemma first_submission_agrees db interview_id fb form :
  find_form interview_id db = Some form ->
  hd_error (feedbacks_of_form interview_id db) = None ->
  run_request (InterviewsApi.add_feedback interview_id fb) db
  = run_request (InterviewService.add_feedback interview_id fb) db.
Proof.
  intros Hform Hnone.
  rewrite (api_add_feedback_created db interview_id fb form Hform Hnone).
  now rewrite (service_add_feedback_created db interview_id fb form Hform Hnone).
Qed.

(** C6, as amended.  The relation is one-to-many: a phrase row names at most
    one feedback.  When a submission for an existing form attaches phrases to
    its feedback, every other feedback keeps its phrases except the submitted
    ones, which it loses; afterwards no phrase is among the phrases of two
    different feedbacks. *)
Theorem attaching_moves_the_phrase
  (db : DB) (interview_id : Z) (fb : FeedbackCreate) (form : InterviewForm) :
  find_form interview_id db = Some form ->
  exists row db',
    run_request (InterviewService.add_feedback interview_id fb) db
    = (Return row, db', [])
    /\ (forall other,
          other <> feedback_id row ->
          feedback_phrases other db'
          = filter (fun p => negb (listed (predefined_phrase_ids fb) p))
              (feedback_phrases other db))
    /\ (forall p f1 f2,
          In p (feedback_phrases f1 db') -> In p (feedback_phrases f2 db') ->
          f1 = f2).
Proof.
  intros Hform.
  destruct (hd_error (feedbacks_of_form interview_id db)) as [existing|] eqn:Hex.
  - eexists. exists (db_with_updated_feedback db existing fb). split; [|split].
    + apply (service_add_feedback_updated db interview_id fb form existing Hform Hex).
    + intros other Hne. apply updated_other_phrases.
      destruct (find_feedback (feedback_id existing) _) as [r|] eqn:Hfind;
        [apply found_feedback_id in Hfind; congruence | exact Hne].
    + intros p f1 f2. apply feedback_phrases_disjoint.
  - eexists. exists (db_with_created_feedback db interview_id fb). split; [|split].
    + apply (service_add_feedback_created db interview_id fb form Hform Hex).
    + intros other Hne. apply created_other_phrases.
      destruct (find_feedback (feedbacks_id_seq db) _) as [r|] eqn:Hfind;
        [apply found_feedback_id in Hfind; congruence | exact Hne].
    + intros p f1 f2. apply feedback_phrases_disjoint.
Qed.

Lemma attaching_moves_the_phrase_witness :
  exists row db',
    run_request (InterviewService.add_feedback 2 resubmission) two_forms_db
    = (Return row, db', [])
    /\ (forall other,
          other <> feedback_id row ->
          feedback_phrases other db'
          = filter (fun p => negb (listed [1; 99] p))
              (feedback_phrases other two_forms_db))
    /\ (forall p f1 f2,
          In p (feedback_phrases f1 db') -> In p (feedback_phrases f2 db') ->
          f1 = f2).
Proof.
  exact (attaching_moves_the_phrase two_forms_db 2 resubmission second_form
           eq_refl).
Defined.

(** C6, as stated, fails: the phrase attached to the feedback of form 1 is
    submitted for form 2; it is then attached to the new feedback and no
    longer to the first. *)
Lemma phrase_leaves_first_feedback :
  feedback_phrases 1 two_forms_db = [sample_phrase]
  /\ fst (fst (run_request (InterviewsApi.add_feedback 2 resubmission) two_forms_db))
     = Return {| feedback_id := 2; feedback_text := "Solid";
                 feedback_interview_form_id := 2 |}
  /\ feedback_phrases 2
       (snd (fst (run_request (InterviewsApi.add_feedback 2 resubmission)
                    two_forms_db)))
     = [set_phrase_feedback (Some 2) sample_phrase]
  /\ feedback_phrases 1
       (snd (fst (run_request (InterviewsApi.add_feedback 2 resubmission)
                    two_forms_db)))
     = [].
Proof. repeat split; reflexivity. Qed.

(** ** Falsy filter values *)

(** C9. A filter argument that is falsy is not applied.  [get_scores] with
    [interviewer_id = 0] is [get_scores] without the argument and, on an
    existing form, returns every score of the form; [get_questions] with
    [unit_id], [difficulty_id], [level_id] or [group_id] equal to 0, or with
    an empty [text_search], is [get_questions] without that argument; the
    interview listing with an empty [candidate_id] or [position] is the
    listing without it. *)
Theorem falsy_filters_are_ignored (ilike : string -> string -> bool) :
  (forall interview_id w,
     ScoresService.get_scores interview_id (Some 0) w
     = ScoresService.get_scores interview_id None w
     /\ ScoresApi.get_scores interview_id (Some 0) w
        = ScoresApi.get_scores interview_id None w
     /\ fst (ScoresService.get_scores interview_id (Some 0) w)
        = match find_form interview_id (database w) with
          | Some _ => Return (scores_of_form interview_id (database w))
          | None => Raise (HTTPException 404 "Форму співбесіди не знайдено")
          end
     /\ fst (ScoresApi.get_scores interview_id (Some 0) w)
        = match find_form interview_id (database w) with
          | Some _ => Return (scores_of_form interview_id (database w))
          | None => Raise (HTTPException 404 "Форму інтерв'ю не знайдено")
          end)
  /\ (forall skip limit unit_id difficulty_id level_id group_id text_search w,
        get_questions ilike skip limit (Some 0) difficulty_id level_id group_id
          text_search w
        = get_questions ilike skip limit None difficulty_id level_id group_id
            text_search w
        /\ get_questions ilike skip limit unit_id (Some 0) level_id group_id
             text_search w
           = get_questions ilike skip limit unit_id None level_id group_id
               text_search w
        /\ get_questions ilike skip limit unit_id difficulty_id (Some 0) group_id
             text_search w
           = get_questions ilike skip limit unit_id difficulty_id None group_id
               text_search w
        /\ get_questions ilike skip limit unit_id difficulty_id level_id (Some 0)
             text_search w
           = get_questions ilike skip limit unit_id difficulty_id level_id None
               text_search w
        /\ get_questions ilike skip limit unit_id difficulty_id level_id group_id
             (Some "") w
           = get_questions ilike skip limit unit_id difficulty_id level_id group_id
               None w)
  /\ (forall skip limit candidate_id position start_date end_date w,
        get_interviews ilike skip limit (Some "") position start_date end_date w
        = get_interviews ilike skip limit None position start_date end_date w
        /\ get_interviews ilike skip limit candidate_id (Some "") start_date
             end_date w
           = get_interviews ilike skip limit candidate_id None start_date
               end_date w).
Proof.
  split; [|split].
  - intros interview_id w. repeat split; try reflexivity.
    + unfold ScoresService.get_scores, InterviewService.get_interview_by_id.
      step_handler. now destruct (find_form interview_id (database w)).
    + unfold ScoresApi.get_scores.
      step_handler. now destruct (find_form interview_id (database w)).
  - intros. repeat split; reflexivity.
  - intros. repeat split; reflexivity.
Qed.

(** The score listing of the sample form for interviewer id 0: the one
    score of the form, although its interviewer is number 1. *)
Example scores_for_interviewer_zero :
  let score := {| score_id := 1; score_question_id := 5; score_value := 4%float;
                  score_comment := None; score_interviewer_id := 1;
                  score_interview_form_id := 1; score_evaluation_id := None |} in
  let db := {| questions := questions sample_db;
               application_templates := application_templates sample_db;
               template_questions := template_questions sample_db;
               interviewers := interviewers sample_db;
               interview_forms := interview_forms sample_db;
               interviewer_forms := interviewer_forms sample_db;
               scores := [score];
               evaluations := evaluations sample_db;
               feedbacks := feedbacks sample_db;
               predefined_phrases := predefined_phrases sample_db;
               interview_forms_id_seq := 2;
               feedbacks_id_seq := 2 |} in
  run_request (ScoresService.get_scores 1 (Some 0)) db = (Return [score], db, [])
  /\ run_request (ScoresService.get_scores 1 (Some 2)) db = (Return [], db, []).
Proof. split; reflexivity. Qed.

(** ** Membership relations *)

Lemma question_in_link q template db :
  question_in q (template_question_rows template db) = true ->
  In (template, question_id q) (template_questions db).
Proof.
  unfold question_in, template_question_rows. intros H.
  apply existsb_exists in H. destruct H as (r & Hin & Heq).
  apply filter_In in Hin. destruct Hin as [_ Hlink].
  apply Z.eqb_eq in Heq. rewrite <- Heq. now apply link_in_In.
Qed.

Lemma found_template_id id db t :
  find_template id db = Some t -> application_template_id t = id.
Proof.
  unfold find_template. intros H. apply find_some in H. now apply Z.eqb_eq.
Qed.

(** Appending a link the collection already holds is an INSERT of a stored
    pair: the primary key refuses it. *)
Lemma flush_links_readd pkey stored link :
  In link stored ->
  flush_links pkey stored (stored ++ [link])%list = Raise (IntegrityError pkey).
Proof.
  intros Hin. unfold flush_links. rewrite appended_links_app.
  cbn [has_duplicates existsb orb].
  replace (link_in link
             (filter (fun r => link_in r (stored ++ [link])%list) stored))
    with true; [reflexivity|].
  symmetry. apply link_in_In, filter_In. split; [exact Hin|].
  apply link_in_In, in_or_app. now left.
Qed.

Lemma commit_readded_question (db : DB) (link : Z * Z) (l : list Request) :
  In link (template_questions db) ->
  exists s,
    commit {| database := db;
              session := with_template_questions
                           (fun links => (links ++ [link])%list) db;
              sent := l |}
    = (Raise (IntegrityError "template_questions_pkey"),
       {| database := db; session := s; sent := l |}).
Proof.
  intros Hin. eexists. unfold commit, flush, after_failed_flush.
  cbn [database session sent].
  rewrite strings_fit_same by reflexivity. cbn [negb].
  cbn [template_questions with_template_questions].
  rewrite flush_links_readd by exact Hin.
  do 2 f_equal. now destruct db.
Qed.

(** The misuses of the two membership relations.  The interviewer-to-form
    relation rejects both: adding an interviewer who is already on the form
    raises the 400 HTTPException, removing one who is not raises the 404 one,
    on the handler and on the service alike, and the database is untouched.
    The template-to-question relation rejects the removal of a question that
    is not in the template with the 404 one.  Adding a question that is
    already in the template is not tested for: the append reaches the commit,
    which fails on the primary key of the association table with an
    integrity error that nothing catches; the database is unchanged. *)
Theorem membership_add_and_remove
  (db : DB) (interview_no interviewer_no template_no question_no : Z)
  (form : InterviewForm) (i : Interviewer)
  (t : ApplicationTemplate) (q : Question) :
  (find_form interview_no db = Some form ->
   find_interviewer interviewer_no db = Some i ->
   (interviewer_in i (form_interviewers (form_id form) db) = true ->
    run_request (InterviewsApi.add_interviewer_to_form interview_no interviewer_no) db
    = (Raise (HTTPException 400 "Інтерв'юер вже доданий до цієї форми"), db, [])
    /\ run_request (InterviewService.add_interviewer_to_form interview_no interviewer_no) db
       = (Raise (HTTPException 400 "Інтерв'юер вже доданий до цієї форми"), db, []))
   /\ (interviewer_in i (form_interviewers (form_id form) db) = false ->
       run_request (InterviewsApi.remove_interviewer_from_form interview_no interviewer_no) db
       = (Raise (HTTPException 404 "Інтерв'юер не є учасником цієї форми"), db, [])
       /\ run_request (InterviewService.remove_interviewer_from_form interview_no interviewer_no) db
          = (Raise (HTTPException 404 "Інтерв'юер не є учасником цієї форми"), db, [])))
  /\ (find_template template_no db = Some t ->
      find_question question_no db = Some q ->
      (question_in q (template_question_rows (application_template_id t) db) = false ->
       run_request (TemplatesApi.remove_question_from_template template_no question_no) db
       = (Raise (HTTPException 404
                   ("Питання з ID " ++ str_int question_no
                    ++ " не знайдено в цьому шаблоні")), db, [])
       /\ run_request (TemplateService.remove_question_from_template template_no question_no) db
          = (Raise (HTTPException 404
                      ("Питання з ID " ++ str_int question_no
                       ++ " не знайдено в цьому шаблоні")), db, []))
      /\ (question_in q (template_question_rows (application_template_id t) db) = true ->
          run_request (TemplatesApi.add_questions_to_template template_no [question_no]) db
          = (Raise (IntegrityError "template_questions_pkey"), db, [])
          /\ run_request (TemplateService.add_questions_to_template template_no [question_no]) db
             = (Raise (IntegrityError "template_questions_pkey"), db, []))).
Proof.
  split.
  - intros Hform Hi. split; intros Hmember; split.
    + unfold run_request, InterviewsApi.add_interviewer_to_form.
      step_handler. rewrite Hform. step_handler. rewrite Hi. step_handler.
      now rewrite Hmember.
    + unfold run_request, InterviewService.add_interviewer_to_form,
        InterviewService.get_interview_by_id.
      step_handler. rewrite Hform. step_handler. rewrite Hi. step_handler.
      now rewrite Hmember.
    + unfold run_request, InterviewsApi.remove_interviewer_from_form.
      step_handler. rewrite Hform. step_handler. rewrite Hi. step_handler.
      now rewrite Hmember.
    + unfold run_request, InterviewService.remove_interviewer_from_form,
        InterviewService.get_interview_by_id.
      step_handler. rewrite Hform. step_handler. rewrite Hi. step_handler.
      now rewrite Hmember.
  - intros Ht Hq.
    pose proof (found_template_id template_no db t Ht) as Htid.
    split; intros Hmember; split.
    + unfold run_request, TemplatesApi.remove_question_from_template.
      step_handler. rewrite Ht. step_handler. rewrite Hq. step_handler.
      now rewrite Hmember.
    + unfold run_request, TemplateService.remove_question_from_template,
        TemplateService.get_template_by_id.
      step_handler. rewrite Ht. step_handler. rewrite Hq. step_handler.
      now rewrite Hmember.
    + unfold run_request, TemplatesApi.add_questions_to_template, refresh_template,
        append_question.
      cbn [for_each].
      step_handler. rewrite Ht. step_handler. rewrite Hq. step_handler.
      destruct (commit_readded_question db
                  (application_template_id t, question_id q) []
                  (question_in_link q _ db Hmember)) as (s & ->).
      reflexivity.
    + unfold run_request, TemplateService.add_questions_to_template,
        TemplateService.get_template_by_id, refresh_template, append_question.
      cbn [for_each].
      step_handler. rewrite Ht. step_handler. rewrite Hq. step_handler.
      destruct (commit_readded_question db
                  (application_template_id t, question_id q) []
                  (question_in_link q _ db Hmember)) as (s & ->).
      reflexivity.
Qed.

Lemma membership_add_and_remove_witness :
  run_request (InterviewsApi.add_interviewer_to_form 1 1) two_forms_db
  = (Raise (HTTPException 400 "Інтерв'юер вже доданий до цієї форми"),
     two_forms_db, [])
  /\ run_request (InterviewService.remove_interviewer_from_form 1 2) two_forms_db
     = (Raise (HTTPException 404 "Інтерв'юер не є учасником цієї форми"),
        two_forms_db, [])
  /\ run_request (TemplatesApi.remove_question_from_template 1 6) two_questions_db
     = (Raise (HTTPException 404 "Питання з ID 6 не знайдено в цьому шаблоні"),
        two_questions_db, [])
  /\ run_request (TemplateService.add_questions_to_template 1 [5]) two_questions_db
     = (Raise (IntegrityError "template_questions_pkey"), two_questions_db, []).
Proof.
  destruct (membership_add_and_remove two_forms_db 1 1 1 5 sample_form jane
              sample_template sample_question) as [Hmember _].
  destruct (membership_add_and_remove two_forms_db 1 2 1 5 sample_form omar
              sample_template sample_question) as [Houtsider _].
  destruct (membership_add_and_remove two_questions_db 1 1 1 6 sample_form jane
              sample_template second_question) as [_ Habsent].
  destruct (membership_add_and_remove two_questions_db 1 1 1 5 sample_form jane
              sample_template sample_question) as [_ Hpresent].
  split; [|split; [|split]].
  - exact (proj1 (proj1 (Hmember eq_refl eq_refl) eq_refl)).
  - exact (proj2 (proj2 (Houtsider eq_refl eq_refl) eq_refl)).
  - exact (proj1 (proj1 (Habsent eq_refl eq_refl) eq_refl)).
  - exact (proj2 (proj2 (Hpresent eq_refl eq_refl) eq_refl)).
Defined.

(** C5 does not hold on the code at this input: question 5 is in template
    1, and adding it again is not refused as a Conflict.  Neither entry point
    tests membership (the interviewer-to-form relation does); the question is
    appended to the collection a second time, the commit inserts the stored
    pair again, and the primary key of [template_questions] makes it fail
    with an integrity error that no handler catches.  No link is added. *)
Lemma readding_question_fails_at_commit :
  question_in sample_question (template_question_rows 1 sample_db) = true
  /\ run_request (TemplateService.add_questions_to_template 1 [5]) sample_db
     = (Raise (IntegrityError "template_questions_pkey"), sample_db, [])
  /\ run_request (TemplatesApi.add_questions_to_template 1 [5]) sample_db
     = (Raise (IntegrityError "template_questions_pkey"), sample_db, []).
Proof. repeat split; reflexivity. Qed.

(** Adding the same interviewer twice: the first call links the interviewer to
    the form, the second is the Conflict. *)
Example adding_interviewer_twice :
  exists db',
    run_request (InterviewsApi.add_interviewer_to_form 1 2) two_forms_db
    = (Return (sample_form, [jane; omar]), db', [])
    /\ interviewer_forms db' = [(1, 1); (2, 1)]
    /\ run_request (InterviewsApi.add_interviewer_to_form 1 2) db'
       = (Raise (HTTPException 400 "Інтерв'юер вже доданий до цієї форми"), db', []).
Proof. eexists. repeat split; reflexivity. Qed.

Example removing_absent_interviewer :
  run_request (InterviewsApi.remove_interviewer_from_form 1 2) two_forms_db
  = (Raise (HTTPException 404 "Інтерв'юер не є учасником цієї форми"),
     two_forms_db, []).
Proof. reflexivity. Qed.

(** ** Creating an interview form *)

(** C3 does not hold on the code at this input: the template and the
    interviewer exist, the interviewer is named twice.  Both entry points build a form
    whose collection holds that interviewer twice, the flush inserts the link twice, and
    the primary key of [interviewer_forms] makes the commit fail; no row and
    no link is persisted.  The tables are the ones of before; the id the form
    had taken from the sequence is not given back. *)
Lemma doubled_interviewer_fails_at_commit :
  find_template 1 sample_db = Some sample_template
  /\ find_interviewer 1 sample_db = Some jane
  /\ run_request (InterviewsApi.create_interview_form doubled_request) sample_db
     = (Raise (IntegrityError "interviewer_forms_pkey"), form_id_taken sample_db, [])
  /\ run_request (InterviewService.create_interview doubled_request) sample_db
     = (Raise (IntegrityError "interviewer_forms_pkey"), form_id_taken sample_db, [])
  /\ interview_forms (form_id_taken sample_db) = interview_forms sample_db
  /\ interviewer_forms (form_id_taken sample_db) = interviewer_forms sample_db.
Proof. repeat split; reflexivity. Qed.

Lemma with_interviewer_forms_ext f g (s : DB) :
  f (interviewer_forms s) = g (interviewer_forms s) ->
  with_interviewer_forms f s = with_interviewer_forms g s.
Proof. unfold with_interviewer_forms. now intros ->. Qed.

Lemma with_interviewer_forms_twice f g (s : DB) :
  with_interviewer_forms f (with_interviewer_forms g s)
  = with_interviewer_forms (fun links => f (g links)) s.
Proof. reflexivity. Qed.

(** The loop that appends the checked interviewers to the new form. *)
Lemma append_interviewers_run form members w :
  for_each members (append_interviewer form) w
  = (Return tt,
     {| database := database w;
        session := with_interviewer_forms
                     (fun links =>
                        (links ++ map (fun i => (interviewer_id i, form_id form))
                                    members)%list)
                     (session w);
        sent := sent w |}).
Proof.
  revert w. induction members as [|i members IH]; intros w; cbn [for_each].
  - unfold ret. f_equal. destruct w as [d s l]. cbn [database session sent].
    f_equal.
    rewrite (with_interviewer_forms_ext
               (fun links => (links ++ map (fun i => (interviewer_id i, form_id form)) [])%list)
               (fun links => links) s) by apply app_nil_r.
    now destruct s.
  - unfold bind, append_interviewer at 1, modify. rewrite IH.
    cbn [database session sent]. f_equal. f_equal.
    rewrite with_interviewer_forms_twice.
    apply with_interviewer_forms_ext.
    cbn [map]. now rewrite <- app_assoc.
Qed.

(** The first loop of the POST handler. *)
Lemma check_interviewers_run ids w :
  InterviewsApi.check_interviewers ids w
  = (match first_missing ids (database w) with
     | Some id => Raise (missing_interviewer id)
     | None => Return (found_interviewers ids (database w))
     end, w).
Proof.
  induction ids as [|id rest IH]; cbn [InterviewsApi.check_interviewers]; [reflexivity|].
  unfold bind at 1, query. cbn [first_missing found_interviewers flat_map].
  destruct (find_interviewer id (database w)) as [i|]; [|reflexivity].
  unfold bind. rewrite IH. fold (found_interviewers rest (database w)).
  now destruct (first_missing rest (database w)).
Qed.

(** The service's single loop: it looks an id up and appends at once, so it
    may stop half way; the database is not concerned. *)
Lemma lookup_and_append_run form ids w :
  exists s',
    for_each ids
      (fun interviewer_id =>
         interviewer <- query (find_interviewer interviewer_id) ;;
         match interviewer with
         | None =>
             raise (HTTPException 404
                      ("Інтерв'юера з ID " ++ str_int interviewer_id ++ " не знайдено"))
         | Some i => append_interviewer form i
         end) w
    = (match first_missing ids (database w) with
       | Some id => Raise (missing_interviewer id)
       | None => Return tt
       end,
       {| database := database w; session := s'; sent := sent w |})
    /\ (first_missing ids (database w) = None ->
        s' = with_interviewer_forms
               (fun links =>
                  (links ++ map (fun i => (interviewer_id i, form_id form))
                              (found_interviewers ids (database w)))%list)
               (session w)).
Proof.
  revert w. induction ids as [|id rest IH]; intros w; cbn [for_each].
  - exists (session w). split; [now destruct w|].
    intros _. cbn [found_interviewers flat_map map].
    rewrite (with_interviewer_forms_ext
               (fun links => (links ++ [])%list) (fun links => links) (session w))
      by apply app_nil_r.
    now destruct (session w).
  - unfold bind at 1, bind at 1, query at 1.
    cbn [first_missing found_interviewers flat_map].
    destruct (find_interviewer id (database w)) as [i|].
    + unfold append_interviewer at 1, modify.
      destruct (IH {| database := database w;
                      session := with_interviewer_forms
                                   (fun links =>
                                      (links ++ [(interviewer_id i, form_id form)])%list)
                                   (session w);
                      sent := sent w |}) as (s' & Hrun & Hs').
      exists s'. split; [exact Hrun|].
      cbn [database session] in Hs'. intros Hnone. rewrite (Hs' Hnone).
      rewrite with_interviewer_forms_twice.
      apply with_interviewer_forms_ext.
      cbn [app map]. now rewrite <- app_assoc.
    + exists (session w). split; [now destruct w | discriminate].
Qed.

(** The strings written when a row is appended to the form table. *)
Lemma strings_fit_added_form stored work r :
  application_templates work = application_templates stored ->
  interviewers work = interviewers stored ->
  interview_forms work = (interview_forms stored ++ [r])%list ->
  predefined_phrases work = predefined_phrases stored ->
  strings_fit stored work = form_fits (interview_forms stored) r.
Proof.
  intros Ht Hi Hf Hp. unfold strings_fit. rewrite Ht, Hi, Hf, Hp.
  rewrite templates_fit_stored, interviewers_fit_stored, phrases_fit_stored.
  rewrite forallb_app, forms_fit_stored. cbn [forallb andb].
  now rewrite !andb_true_r.
Qed.

Lemma commit_created_form db form l :
  commit {| database := db;
            session := add_form_row (created_form db form)
                         (with_interviewer_forms
                            (fun links => (links ++ new_links db form)%list) db);
            sent := l |}
  = if negb (form_fits (interview_forms db) (created_form db form))
    then
      (Raise too_long,
       {| database := db;
          session := add_form_row (created_form db form)
                       (with_interviewer_forms
                          (fun links => (links ++ new_links db form)%list) db);
          sent := l |})
    else
    match flush_links "interviewer_forms_pkey" (interviewer_forms db)
            (interviewer_forms db ++ new_links db form)%list with
    | Raise e =>
        (Raise e,
         {| database := form_id_taken db;
            session := add_form_row (created_form db form)
                         (with_interviewer_forms
                            (fun links => (links ++ new_links db form)%list) db);
            sent := l |})
    | Return links =>
        (Return tt,
         {| database := db_with_created_form db form links;
            session := db_with_created_form db form links;
            sent := l |})
    end.
Proof.
  unfold commit, flush, after_failed_flush. cbn [database session sent].
  rewrite (strings_fit_added_form db _ (created_form db form))
    by reflexivity.
  destruct (form_fits (interview_forms db) (created_form db form)); cbn [negb];
    [|reflexivity].
  cbn [template_questions interviewer_forms add_form_row with_interviewer_forms].
  rewrite flush_links_unchanged.
  destruct (flush_links _ _ _) as [links|e]; [now destruct db | reflexivity].
Qed.

(** Both entry points create a form the same way. *)
Lemma api_create_interview_form_run db form :
  run_request (InterviewsApi.create_interview_form form) db
  = creation_outcome db form.
Proof.
  unfold run_request, InterviewsApi.create_interview_form, creation_outcome,
    new_InterviewForm, refresh_form.
  step_handler.
  destruct (find_template (new_template_id form) db) as [t|]; [|reflexivity].
  step_handler. rewrite check_interviewers_run. cbn [database session sent].
  destruct (first_missing (interviewer_ids form) db) as [id|]; [reflexivity|].
  fold (created_form db form).
  rewrite append_interviewers_run. step_handler.
  fold (new_links db form).
  rewrite commit_created_form.
  destruct (form_fits (interview_forms db) (created_form db form)); cbn [negb];
    [|reflexivity].
  destruct (flush_links _ _ _) as [links|e]; reflexivity.
Qed.

Lemma service_create_interview_run db form :
  run_request (InterviewService.create_interview form) db
  = creation_outcome db form.
Proof.
  unfold run_request, InterviewService.create_interview, creation_outcome,
    new_InterviewForm, refresh_form.
  step_handler.
  destruct (find_template (new_template_id form) db) as [t|]; [|reflexivity].
  step_handler. fold (created_form db form).
  destruct (lookup_and_append_run (created_form db form) (interviewer_ids form)
              (open_session db)) as (s' & Hrun & Hs').
  step_handler_in Hrun. step_handler_in Hs'. rewrite Hrun.
  destruct (first_missing (interviewer_ids form) db) as [id|]; [reflexivity|].
  rewrite (Hs' eq_refl). step_handler.
  fold (new_links db form).
  rewrite commit_created_form.
  destruct (form_fits (interview_forms db) (created_form db form)); cbn [negb];
    [|reflexivity].
  destruct (flush_links _ _ _) as [links|e]; reflexivity.
Qed.

Lemma first_missing_none ids db :
  first_missing ids db = None <->
  (forall id, In id ids -> find_interviewer id db <> None).
Proof.
  induction ids as [|id rest IH]; cbn [first_missing].
  - split; [intros _ id [] | reflexivity].
  - destruct (find_interviewer id db) as [i|] eqn:Hfind.
    + rewrite IH. split.
      * intros H x [<-|Hx]; [now rewrite Hfind | now apply H].
      * intros H x Hx. apply H. now right.
    + split; [discriminate|].
      intros H. exfalso. apply (H id); [now left | exact Hfind].
Qed.

Lemma first_missing_some ids db id :
  first_missing ids db = Some id ->
  In id ids /\ find_interviewer id db = None.
Proof.
  induction ids as [|x rest IH]; cbn [first_missing]; [discriminate|].
  destruct (find_interviewer x db) as [i|] eqn:Hfind.
  - intros H. destruct (IH H) as [Hin Hnone]. split; [now right | exact Hnone].
  - intros H. injection H as <-. split; [now left | exact Hfind].
Qed.

Lemma found_interviewer_id id db i :
  find_interviewer id db = Some i -> interviewer_id i = id.
Proof.
  unfold find_interviewer. intros H. apply find_some in H. now apply Z.eqb_eq.
Qed.

(** When every id has a row, the links appended are one per submitted id. *)
Lemma new_links_all_found db form :
  first_missing (interviewer_ids form) db = None ->
  new_links db form
  = map (fun id => (id, interview_forms_id_seq db)) (interviewer_ids form).
Proof.
  unfold new_links, found_interviewers.
  induction (interviewer_ids form) as [|id rest IH]; cbn [first_missing];
    [reflexivity|].
  destruct (find_interviewer id db) as [i|] eqn:Hfind; [|discriminate].
  intros Hrest. cbn [flat_map]. rewrite Hfind. cbn [app map].
  rewrite (found_interviewer_id id db i Hfind). f_equal. now apply IH.
Qed.

Lemma NoDup_has_no_duplicates (l : list (Z * Z)) :
  NoDup l -> has_duplicates l = false.
Proof.
  induction 1 as [|x l Hnotin Hnd IH]; cbn [has_duplicates]; [reflexivity|].
  rewrite IH, orb_false_r.
  destruct (link_in x l) eqn:Hin; [|reflexivity].
  apply link_in_In in Hin. contradiction.
Qed.

Lemma NoDup_links (seq : Z) (ids : list Z) :
  NoDup ids -> NoDup (map (fun id => (id, seq)) ids).
Proof.
  induction 1 as [|x l Hnotin Hnd IH]; cbn [map]; constructor; [|exact IH].
  intros Hin. apply in_map_iff in Hin. destruct Hin as (y & Heq & Hy).
  injection Heq as ->. contradiction.
Qed.

(** Appending links that are pairwise distinct and not stored yet: the
    flush inserts each of them. *)
Lemma flush_links_fresh pkey stored added :
  NoDup added -> (forall x, In x added -> ~ In x stored) ->
  flush_links pkey stored (stored ++ added)%list = Return (stored ++ added)%list.
Proof.
  intros Hnd Hfresh. unfold flush_links.
  rewrite appended_links_app,
          (filter_all (fun r => link_in r (stored ++ added)%list) stored).
  - rewrite NoDup_has_no_duplicates by exact Hnd. cbn [orb].
    replace (existsb (fun r => link_in r stored) added) with false; [reflexivity|].
    symmetry. apply not_true_is_false. intros Hex.
    apply existsb_exists in Hex. destruct Hex as (x & Hx & Hin).
    apply link_in_In in Hin. now apply (Hfresh x).
  - intros x Hx. apply link_in_In, in_or_app. now left.
Qed.

(** The three [String(100)] columns of a new form. *)
Lemma created_form_fits db form :
  fits 100 (new_candidate_id form) = true ->
  fits 100 (new_candidate_name form) = true ->
  fits 100 (new_position form) = true ->
  form_fits (interview_forms db) (created_form db form) = true.
Proof.
  intros Hid Hname Hposition. unfold form_fits.
  now rewrite !column_fits_short.
Qed.

(** When the template or one of the interviewers has no row, both entry
    points raise a 404 HTTPException and the database is what it was: no
    form row, no link. *)
Theorem creation_missing_row_is_404 (db : DB) (form : InterviewFormCreate) :
  (find_template (new_template_id form) db = None
   \/ exists id, In id (interviewer_ids form) /\ find_interviewer id db = None) ->
  exists detail,
    run_request (InterviewsApi.create_interview_form form) db
    = (Raise (HTTPException 404 detail), db, [])
    /\ run_request (InterviewService.create_interview form) db
       = (Raise (HTTPException 404 detail), db, []).
Proof.
  intros H.
  rewrite api_create_interview_form_run, service_create_interview_run.
  unfold creation_outcome.
  destruct (find_template (new_template_id form) db) as [t|].
  - destruct H as [H|(id & Hin & Hnone)]; [discriminate|].
    destruct (first_missing (interviewer_ids form) db) as [missing|] eqn:Hmiss.
    + eexists. split; reflexivity.
    + exfalso.
      apply (proj1 (first_missing_none (interviewer_ids form) db) Hmiss id Hin).
      exact Hnone.
  - eexists. split; reflexivity.
Qed.

Lemma creation_missing_row_is_404_witness :
  exists detail,
    run_request (InterviewsApi.create_interview_form ghost_request) two_forms_db
    = (Raise (HTTPException 404 detail), two_forms_db, [])
    /\ run_request (InterviewService.create_interview ghost_request) two_forms_db
       = (Raise (HTTPException 404 detail), two_forms_db, []).
Proof.
  apply (creation_missing_row_is_404 two_forms_db ghost_request).
  right. exists 77. split; [right; left; reflexivity | reflexivity].
Defined.

(** Whatever makes a creation request fail, no row and no link is written:
    every table is the one of before.  After a 404 the database is the one
    of before; after an integrity error of the commit it differs from it by
    the form id sequence, which has moved on by one, the failing commit
    having taken an id for the form. *)
Theorem creation_failure_writes_nothing
  (db db' : DB) (form : InterviewFormCreate) (e : Exception) (l : list Request) :
  (run_request (InterviewsApi.create_interview_form form) db = (Raise e, db', l)
   \/ run_request (InterviewService.create_interview form) db = (Raise e, db', l)) ->
  (db' = db \/ db' = form_id_taken db)
  /\ (forall status detail, e = HTTPException status detail -> db' = db)
  /\ (forall key, e = IntegrityError key -> db' = form_id_taken db)
  /\ interview_forms db' = interview_forms db
  /\ interviewer_forms db' = interviewer_forms db.
Proof.
  rewrite api_create_interview_form_run, service_create_interview_run.
  unfold creation_outcome, flush_links.
  intros H.
  assert (Hcases : (db' = db /\ forall key, e <> IntegrityError key)
                   \/ (db' = form_id_taken db
                       /\ forall status detail, e <> HTTPException status detail)).
  { destruct H as [H|H];
      destruct (find_template (new_template_id form) db) as [t|];
      try destruct (first_missing (interviewer_ids form) db) as [missing|];
      try destruct (form_fits (interview_forms db) (created_form db form));
      cbn [negb] in H;
      try destruct (has_duplicates _ || existsb _ _);
      try discriminate H; injection H as <- <- _;
      solve [ left; split; [reflexivity | discriminate]
            | right; split; [reflexivity | discriminate] ]. }
  destruct Hcases as [[-> Hnot]|[-> Hnot]].
  - split; [now left|]. split; [reflexivity|].
    split; [intros key He; now elim (Hnot key) | split; reflexivity].
  - split; [now right|].
    split; [intros status detail He; now elim (Hnot status detail)|].
    split; [reflexivity | split; reflexivity].
Qed.

Lemma creation_failure_writes_nothing_witness :
  exists db',
    run_request (InterviewsApi.create_interview_form doubled_request) sample_db
    = (Raise (IntegrityError "interviewer_forms_pkey"), db', [])
    /\ db' = form_id_taken sample_db
    /\ interview_forms db' = interview_forms sample_db
    /\ interviewer_forms db' = interviewer_forms sample_db.
Proof.
  eexists. split; [reflexivity|].
  destruct (creation_failure_writes_nothing sample_db _ doubled_request
              (IntegrityError "interviewer_forms_pkey") [] (or_introl eq_refl))
    as (_ & _ & Htaken & Hforms & Hlinks).
  split; [exact (Htaken _ eq_refl) | split; assumption].
Defined.

(** With pairwise distinct interviewer ids, a creation request whose
    template and interviewers all exist, whose candidate id, candidate name
    and position have at most 100 characters, and whose form id is not used
    by a link yet, succeeds on both entry points: the form row is appended to
    the table and the links of the submitted interviewers are appended to the
    association table, in the order submitted. *)
Theorem distinct_ids_creation_succeeds
  (db : DB) (form : InterviewFormCreate) (t : ApplicationTemplate) :
  find_template (new_template_id form) db = Some t ->
  (forall id, In id (interviewer_ids form) -> find_interviewer id db <> None) ->
  NoDup (interviewer_ids form) ->
  fits 100 (new_candidate_id form) = true ->
  fits 100 (new_candidate_name form) = true ->
  fits 100 (new_position form) = true ->
  (forall link, In link (interviewer_forms db) ->
                snd link <> interview_forms_id_seq db) ->
  exists response db',
    run_request (InterviewsApi.create_interview_form form) db
    = (Return response, db', [])
    /\ run_request (InterviewService.create_interview form) db
       = (Return response, db', [])
    /\ interview_forms db' = (interview_forms db ++ [created_form db form])%list
    /\ interviewer_forms db'
       = (interviewer_forms db
          ++ map (fun id => (id, interview_forms_id_seq db)) (interviewer_ids form))%list
    /\ interview_forms_id_seq db' = interview_forms_id_seq db + 1.
Proof.
  intros Ht Hall Hnd Hid Hname Hposition Hfresh.
  apply first_missing_none in Hall.
  rewrite api_create_interview_form_run, service_create_interview_run.
  unfold creation_outcome. rewrite Ht, Hall.
  rewrite created_form_fits by assumption. cbn [negb].
  rewrite (new_links_all_found db form Hall), flush_links_fresh.
  - eexists. eexists. repeat split.
  - now apply NoDup_links.
  - intros x Hx Hstored. apply in_map_iff in Hx. destruct Hx as (id & <- & _).
    now apply (Hfresh _ Hstored).
Qed.

Lemma distinct_ids_creation_succeeds_witness :
  exists response db',
    run_request (InterviewsApi.create_interview_form panel_request) two_forms_db
    = (Return response, db', [])
    /\ run_request (InterviewService.create_interview panel_request) two_forms_db
       = (Return response, db', [])
    /\ interview_forms db'
       = [sample_form; second_form; created_form two_forms_db panel_request]
    /\ interviewer_forms db' = [(1, 1); (1, 3); (2, 3)]
    /\ interview_forms_id_seq db' = 4.
Proof.
  apply (distinct_ids_creation_succeeds two_forms_db panel_request sample_template
           eq_refl).
  - intros id [<-|[<-|[]]]; discriminate.
  - repeat constructor; cbn; intuition discriminate.
  - reflexivity.
  - reflexivity.
  - reflexivity.
  - intros link [<-|[]]. discriminate.
Defined.

(** A creation request succeeds only if the template and every interviewer
    exist. *)
Theorem creation_success_needs_rows
  (db db' : DB) (form : InterviewFormCreate)
  (response : InterviewForm * list Interviewer) (l : list Request) :
  (run_request (InterviewsApi.create_interview_form form) db
   = (Return response, db', l)
   \/ run_request (InterviewService.create_interview form) db
      = (Return response, db', l)) ->
  find_template (new_template_id form) db <> None
  /\ forall id, In id (interviewer_ids form) -> find_interviewer id db <> None.
Proof.
  rewrite api_create_interview_form_run, service_create_interview_run.
  unfold creation_outcome.
  intros H.
  destruct (find_template (new_template_id form) db) as [t|];
    [|destruct H as [H|H]; discriminate H].
  split; [discriminate|].
  apply first_missing_none.
  destruct (first_missing (interviewer_ids form) db) as [missing|];
    [destruct H as [H|H]; discriminate H | reflexivity].
Qed.

Lemma creation_success_needs_rows_witness :
  find_template 1 two_forms_db <> None
  /\ forall id, In id [1; 2] -> find_interviewer id two_forms_db <> None.
Proof.
  apply (creation_success_needs_rows two_forms_db
           (snd (fst (run_request
                        (InterviewsApi.create_interview_form panel_request)
                        two_forms_db)))
           panel_request
           (created_form two_forms_db panel_request, [jane; omar]) []).
  left. reflexivity.
Defined.

(** ** Scores *)

(** Both entry points of [add_score], in every case. *)
Lemma add_score_run db new_id interview_id score :
  fst (fst (run_request (InterviewsApi.add_score new_id interview_id score) db))
  = match find_form interview_id db with
    | None => Raise (HTTPException 404 "Форму інтерв'ю не знайдено")
    | Some form =>
        match find_interviewer (new_interviewer_id score) db with
        | None => Raise (HTTPException 404 "Інтерв'юера не знайдено")
        | Some interviewer =>
            if interviewer_in interviewer (form_interviewers (form_id form) db)
            then match find_question (new_question_id score) db with
                 | None => Raise (HTTPException 404 "Питання не знайдено")
                 | Some _ =>
                     Return
                       (match find_score new_id
                                (add_score_row (created_score new_id interview_id score) db)
                        with
                        | Some r => r
                        | None => created_score new_id interview_id score
                        end)
                 end
            else Raise (HTTPException 400 "Інтерв'юер не є учасником цієї форми")
        end
    end
  /\ snd (fst (run_request (InterviewsApi.add_score new_id interview_id score) db))
     = (if score_allowed db interview_id score
        then add_score_row (created_score new_id interview_id score) db
        else db)
  /\ snd (run_request (InterviewsApi.add_score new_id interview_id score) db) = [].
Proof.
  unfold run_request, InterviewsApi.add_score, score_allowed.
  step_handler.
  destruct (find_form interview_id db) as [form|]; [|repeat split].
  step_handler.
  destruct (find_interviewer (new_interviewer_id score) db) as [i|]; [|repeat split].
  step_handler.
  destruct (interviewer_in i (form_interviewers (form_id form) db)); [|repeat split].
  cbn [negb andb]. step_handler.
  destruct (find_question (new_question_id score) db) as [q|]; [|repeat split].
  step_handler. run_commit. repeat split.
Qed.

Lemma service_add_score_run db new_id interview_id score :
  fst (fst (run_request (InterviewService.add_score new_id interview_id score) db))
  = match find_form interview_id db with
    | None => Raise (HTTPException 404 "Форму співбесіди не знайдено")
    | Some form =>
        match find_interviewer (new_interviewer_id score) db with
        | None => Raise (HTTPException 404 "Інтерв'юера не знайдено")
        | Some interviewer =>
            if interviewer_in interviewer (form_interviewers (form_id form) db)
            then match find_question (new_question_id score) db with
                 | None => Raise (HTTPException 404 "Питання не знайдено")
                 | Some _ =>
                     Return
                       (match find_score new_id
                                (add_score_row (created_score new_id interview_id score) db)
                        with
                        | Some r => r
                        | None => created_score new_id interview_id score
                        end)
                 end
            else Raise (HTTPException 400 "Інтерв'юер не є учасником цієї форми")
        end
    end
  /\ snd (fst (run_request (InterviewService.add_score new_id interview_id score) db))
     = (if score_allowed db interview_id score
        then add_score_row (created_score new_id interview_id score) db
        else db)
  /\ snd (run_request (InterviewService.add_score new_id interview_id score) db) = [].
Proof.
  unfold run_request, InterviewService.add_score,
    InterviewService.get_interview_by_id, score_allowed.
  step_handler.
  destruct (find_form interview_id db) as [form|]; [|repeat split].
  step_handler.
  destruct (find_interviewer (new_interviewer_id score) db) as [i|]; [|repeat split].
  step_handler.
  destruct (interviewer_in i (form_interviewers (form_id form) db)); [|repeat split].
  cbn [negb andb]. step_handler.
  destruct (find_question (new_question_id score) db) as [q|]; [|repeat split].
  step_handler. run_commit. repeat split.
Qed.

(** A score by an interviewer who is not on the form is refused with the
    400 HTTPException on both entry points and nothing is stored, whether or
    not the question of the score exists: membership is tested before the
    question is looked up. *)
Theorem score_by_outsider_is_conflict
  (db : DB) (new_id interview_id : Z) (score : ScoreCreate)
  (form : InterviewForm) (interviewer : Interviewer) :
  find_form interview_id db = Some form ->
  find_interviewer (new_interviewer_id score) db = Some interviewer ->
  interviewer_in interviewer (form_interviewers (form_id form) db) = false ->
  run_request (InterviewsApi.add_score new_id interview_id score) db
  = (Raise (HTTPException 400 "Інтерв'юер не є учасником цієї форми"), db, [])
  /\ run_request (InterviewService.add_score new_id interview_id score) db
     = (Raise (HTTPException 400 "Інтерв'юер не є учасником цієї форми"), db, []).
Proof.
  intros Hform Hi Hout.
  destruct (add_score_run db new_id interview_id score) as (Ha & Hb & Hc).
  destruct (service_add_score_run db new_id interview_id score) as (Hd & He & Hf).
  unfold score_allowed in Hb, He.
  rewrite Hform, Hi, Hout in Ha, Hb, Hd, He. cbn [andb] in Hb, He.
  split.
  - destruct (run_request (InterviewsApi.add_score _ _ _) db) as [[r d] l].
    cbn [fst snd] in Ha, Hb, Hc. now subst.
  - destruct (run_request (InterviewService.add_score _ _ _) db) as [[r d] l].
    cbn [fst snd] in Hd, He, Hf. now subst.
Qed.

Lemma score_by_outsider_is_conflict_witness :
  run_request (InterviewsApi.add_score 1 1 omar_score) two_forms_db
  = (Raise (HTTPException 400 "Інтерв'юер не є учасником цієї форми"),
     two_forms_db, [])
  /\ run_request (InterviewService.add_score 1 1 omar_score) two_forms_db
     = (Raise (HTTPException 400 "Інтерв'юер не є учасником цієї форми"),
        two_forms_db, []).
Proof.
  exact (score_by_outsider_is_conflict two_forms_db 1 1 omar_score sample_form omar
           eq_refl eq_refl eq_refl).
Defined.

(** [add_score] succeeds exactly when the form, the interviewer and the
    question exist and the interviewer is on the form; it then appends the one
    score row, and in every other case the database is left as it was.  Both
    entry points agree on this. *)
Theorem score_stored_iff_allowed
  (db : DB) (new_id interview_id : Z) (score : ScoreCreate) :
  ((exists row,
      fst (fst (run_request (InterviewsApi.add_score new_id interview_id score) db))
      = Return row)
   <-> score_allowed db interview_id score = true)
  /\ ((exists row,
         fst (fst (run_request (InterviewService.add_score new_id interview_id score) db))
         = Return row)
      <-> score_allowed db interview_id score = true)
  /\ snd (fst (run_request (InterviewsApi.add_score new_id interview_id score) db))
     = snd (fst (run_request (InterviewService.add_score new_id interview_id score) db))
  /\ (if score_allowed db interview_id score
      then scores (snd (fst (run_request
                               (InterviewsApi.add_score new_id interview_id score) db)))
           = (scores db ++ [created_score new_id interview_id score])%list
      else snd (fst (run_request
                       (InterviewsApi.add_score new_id interview_id score) db))
           = db).
Proof.
  destruct (add_score_run db new_id interview_id score) as (Ha & Hb & _).
  destruct (service_add_score_run db new_id interview_id score) as (Hd & He & _).
  rewrite Ha, Hb, Hd, He. unfold score_allowed.
  destruct (find_form interview_id db) as [form|];
    [|repeat split; try discriminate; intros [row H]; discriminate].
  destruct (find_interviewer (new_interviewer_id score) db) as [i|];
    [|repeat split; try discriminate; intros [row H]; discriminate].
  destruct (interviewer_in i (form_interviewers (form_id form) db)); cbn [andb];
    [|repeat split; try discriminate; intros [row H]; discriminate].
  destruct (find_question (new_question_id score) db) as [q|];
    [|repeat split; try discriminate; intros [row H]; discriminate].
  repeat split; eauto.
Qed.

(** Round trip: a stored score (under an id no score has yet) is the row
    the request returns, it comes last in the score listing of its form, and
    last in the listing filtered by its interviewer. *)
Theorem added_score_is_listed
  (db : DB) (new_id interview_id : Z) (score : ScoreCreate) :
  score_allowed db interview_id score = true ->
  find_score new_id db = None ->
  new_interviewer_id score <> 0 ->
  fst (fst (run_request (InterviewsApi.add_score new_id interview_id score) db))
  = Return (created_score new_id interview_id score)
  /\ fst (fst (run_request (ScoresApi.get_scores interview_id None)
                 (snd (fst (run_request
                              (InterviewsApi.add_score new_id interview_id score) db)))))
     = Return (scores_of_form interview_id db
               ++ [created_score new_id interview_id score])%list
  /\ fst (fst (run_request
                 (ScoresApi.get_scores interview_id (Some (new_interviewer_id score)))
                 (snd (fst (run_request
                              (InterviewsApi.add_score new_id interview_id score) db)))))
     = Return (filter (fun r => score_interviewer_id r =? new_interviewer_id score)
                 (scores_of_form interview_id db)
               ++ [created_score new_id interview_id score])%list.
Proof.
  intros Hallowed Hfresh Hnonzero.
  destruct (add_score_run db new_id interview_id score) as (Ha & Hb & _).
  rewrite Ha, Hb, Hallowed. clear Ha Hb.
  unfold score_allowed in Hallowed.
  destruct (find_form interview_id db) as [form|] eqn:Hform; [|discriminate].
  destruct (find_interviewer (new_interviewer_id score) db) as [i|]; [|discriminate].
  destruct (interviewer_in i (form_interviewers (form_id form) db)); [|discriminate].
  destruct (find_question (new_question_id score) db) as [q|]; [|discriminate].
  assert (Hfound : find_score new_id
                     (add_score_row (created_score new_id interview_id score) db)
                   = Some (created_score new_id interview_id score)).
  { unfold find_score. cbn [scores add_score_row].
    apply find_appended; [exact Hfresh | apply Z.eqb_refl]. }
  rewrite Hfound.
  assert (Hlist : scores_of_form interview_id
                    (add_score_row (created_score new_id interview_id score) db)
                  = (scores_of_form interview_id db
                     ++ [created_score new_id interview_id score])%list).
  { unfold scores_of_form. cbn [scores add_score_row].
    rewrite filter_app. cbn [filter created_score score_interview_form_id].
    now rewrite Z.eqb_refl. }
  split; [reflexivity|].
  unfold run_request, ScoresApi.get_scores. step_handler.
  change (find_form interview_id
            (add_score_row (created_score new_id interview_id score) db))
    with (find_form interview_id db).
  rewrite Hform. step_handler. rewrite Hlist.
  split; [reflexivity|].
  unfold filter_if, truthy_int, int_value.
  apply Z.eqb_neq in Hnonzero. rewrite Hnonzero. cbn [negb].
  rewrite filter_app. cbn [filter created_score score_interviewer_id].
  now rewrite Z.eqb_refl.
Qed.

Lemma added_score_is_listed_witness :
  fst (fst (run_request (InterviewsApi.add_score 1 1 jane_score) two_forms_db))
  = Return (created_score 1 1 jane_score)
  /\ fst (fst (run_request (ScoresApi.get_scores 1 None)
                 (snd (fst (run_request (InterviewsApi.add_score 1 1 jane_score)
                              two_forms_db)))))
     = Return [created_score 1 1 jane_score]
  /\ fst (fst (run_request (ScoresApi.get_scores 1 (Some 1))
                 (snd (fst (run_request (InterviewsApi.add_score 1 1 jane_score)
                              two_forms_db)))))
     = Return [created_score 1 1 jane_score].
Proof.
  apply (added_score_is_listed two_forms_db 1 1 jane_score eq_refl eq_refl).
  discriminate.
Defined.

(** ** Evaluations *)

Lemma in_order_tail p rest s : in_order (p :: rest) s -> in_order rest s.
Proof.
  intros (before & after & -> & H).
  now apply in_order_prefix, in_order_prefix.
Qed.

Lemma in_order_drop parts1 parts2 s :
  in_order (parts1 ++ parts2)%list s -> in_order parts2 s.
Proof.
  induction parts1 as [|p rest IH]; cbn [app]; [trivial|].
  intros H. apply IH. now apply in_order_tail with p.
Qed.

(** The notes text for any form: the evaluation lines sit between the
    interviewers and whatever the feedback adds. *)
Lemma build_notes_evaluations float_repr form members evals feedback :
  exists before after,
    Integrations.build_notes float_repr form members evals feedback
    = before ++ lines (Integrations.evaluation_lines float_repr) evals ++ after.
Proof.
  unfold Integrations.build_notes.
  assert (Hev : forall init,
             match evals with
             | [] => init
             | _ => fold_left
                      (fun notes e => notes ++ Integrations.evaluation_lines float_repr e)
                      evals init
             end = init ++ lines (Integrations.evaluation_lines float_repr) evals).
  { intros init. destruct evals as [|e evals].
    - cbn [lines fold_right]. now rewrite append_nil_r.
    - apply fold_left_append. }
  rewrite Hev.
  match goal with
  | |- context [?init ++ lines (Integrations.evaluation_lines float_repr) evals] =>
      generalize init
  end.
  intros init. exists init.
  destruct feedback as [[fb phrases]|].
  - destruct phrases as [|p phrases].
    + exists (("**Відгук:**" ++ nl) ++ feedback_text fb).
      now rewrite !append_assoc.
    + rewrite fold_left_append.
      exists (("**Відгук:**" ++ nl) ++ feedback_text fb
              ++ (nl ++ nl ++ "**Рекомендації:**" ++ nl)
              ++ lines Integrations.phrase_line (p :: phrases)).
      now rewrite !append_assoc.
  - exists "". now rewrite append_nil_r.
Qed.

(** Both entry points of [add_evaluation] on an existing form. *)
Lemma add_evaluation_run db new_id interview_id evaluation form :
  find_form interview_id db = Some form ->
  run_request (InterviewsApi.add_evaluation new_id interview_id evaluation) db
  = (Return (match find_evaluation new_id
                     (add_evaluation_row
                        (created_evaluation new_id interview_id evaluation) db) with
             | Some r => r
             | None => created_evaluation new_id interview_id evaluation
             end),
     add_evaluation_row (created_evaluation new_id interview_id evaluation) db, [])
  /\ run_request (InterviewService.add_evaluation new_id interview_id evaluation) db
     = run_request (InterviewsApi.add_evaluation new_id interview_id evaluation) db.
Proof.
  intros Hform.
  unfold run_request, InterviewsApi.add_evaluation, InterviewService.add_evaluation,
    InterviewService.get_interview_by_id.
  step_handler. rewrite Hform. step_handler. run_commit. split; reflexivity.
Qed.

(** An evaluation submitted for an existing form, under an id no evaluation
    has yet, is stored and returned as submitted on both entry points; the
    form's evaluations are the ones it had followed by the new one, however
    many it had, and the evaluations of every other form are the same. *)
Theorem evaluation_is_appended
  (db : DB) (new_id interview_id : Z) (evaluation : EvaluationCreate)
  (form : InterviewForm) :
  find_form interview_id db = Some form ->
  find_evaluation new_id db = None ->
  exists db',
    run_request (InterviewsApi.add_evaluation new_id interview_id evaluation) db
    = (Return (created_evaluation new_id interview_id evaluation), db', [])
    /\ run_request (InterviewService.add_evaluation new_id interview_id evaluation) db
       = (Return (created_evaluation new_id interview_id evaluation), db', [])
    /\ evaluations_of_form interview_id db'
       = (evaluations_of_form interview_id db
          ++ [created_evaluation new_id interview_id evaluation])%list
    /\ forall other, other <> interview_id ->
         evaluations_of_form other db' = evaluations_of_form other db.
Proof.
  intros Hform Hfresh.
  destruct (add_evaluation_run db new_id interview_id evaluation form Hform)
    as [Hapi Hservice].
  exists (add_evaluation_row (created_evaluation new_id interview_id evaluation) db).
  assert (Hfound : find_evaluation new_id
                     (add_evaluation_row
                        (created_evaluation new_id interview_id evaluation) db)
                   = Some (created_evaluation new_id interview_id evaluation)).
  { unfold find_evaluation. cbn [evaluations add_evaluation_row].
    apply find_appended; [exact Hfresh | apply Z.eqb_refl]. }
  rewrite Hservice, Hapi, Hfound.
  repeat split.
  - unfold evaluations_of_form. cbn [evaluations add_evaluation_row].
    rewrite filter_app.
    cbn [filter created_evaluation evaluation_interview_form_id].
    now rewrite Z.eqb_refl.
  - intros other Hother. unfold evaluations_of_form.
    cbn [evaluations add_evaluation_row]. rewrite filter_app.
    cbn [filter created_evaluation evaluation_interview_form_id].
    replace (interview_id =? other) with false
      by (symmetry; apply Z.eqb_neq; congruence).
    apply app_nil_r.
Qed.

Lemma evaluation_is_appended_witness :
  exists db',
    run_request (InterviewsApi.add_evaluation 2 1 strong_evaluation) two_forms_db
    = (Return (created_evaluation 2 1 strong_evaluation), db', [])
    /\ run_request (InterviewService.add_evaluation 2 1 strong_evaluation) two_forms_db
       = (Return (created_evaluation 2 1 strong_evaluation), db', [])
    /\ evaluations_of_form 1 db'
       = [sample_evaluation; created_evaluation 2 1 strong_evaluation]
    /\ forall other, other <> 1 ->
         evaluations_of_form other db' = evaluations_of_form other two_forms_db.
Proof.
  exact (evaluation_is_appended two_forms_db 2 1 strong_evaluation sample_form
           eq_refl eq_refl).
Defined.

(** An evaluation added to a form shows in the notes of the next sync: the
    PATCH that the sync sends after [add_evaluation] carries a text with the
    new total score, the new minimal rate and the matching pass or fail
    label, in this order. *)
Theorem added_evaluation_is_synced
  (settings : Settings) (remote : Remote) (float_repr : float -> string)
  (db : DB) (new_id interview_id : Z) (evaluation : EvaluationCreate)
  (form : InterviewForm) :
  find_form interview_id db = Some form ->
  exists notes,
    snd (run_request
           (Integrations.sync_interview_to_peopleforce settings remote float_repr
              interview_id)
           (snd (fst (run_request
                        (InterviewsApi.add_evaluation new_id interview_id evaluation)
                        db))))
    = [notes_request settings (form_candidate_id form) notes]
    /\ in_order
         [float_repr (new_total_score evaluation);
          float_repr (new_minimal_rate evaluation);
          if new_passed evaluation then "Пройшов" else "Не пройшов"]
         notes.
Proof.
  intros Hform.
  destruct (add_evaluation_run db new_id interview_id evaluation form Hform)
    as [Hapi _].
  rewrite Hapi. cbn [fst snd].
  set (db' := add_evaluation_row
                (created_evaluation new_id interview_id evaluation) db).
  assert (Hform' : find_form interview_id db' = Some form) by exact Hform.
  exists (aggregated_notes float_repr db' interview_id form). split.
  - rewrite (sync_run settings remote float_repr db' interview_id form Hform').
    pose proof (update_candidate_notes_world settings remote
                  (form_candidate_id form)
                  (aggregated_notes float_repr db' interview_id form)
                  (open_session db')) as Hw.
    destruct (Integrations.update_candidate_notes _ _ _ _ _) as [[j|e] w];
      simpl in Hw; subst w; reflexivity.
  - unfold aggregated_notes.
    destruct (build_notes_evaluations float_repr form
                (form_interviewers (form_id form) db')
                (evaluations_of_form interview_id db')
                (match hd_error (feedbacks_of_form interview_id db') with
                 | Some fb => Some (fb, feedback_phrases (feedback_id fb) db')
                 | None => None
                 end)) as (before & after & ->).
    apply in_order_prefix.
    rewrite <- (app_nil_r [_; _; _]).
    apply in_order_app; [|exact I].
    assert (Hevals : evaluations_of_form interview_id db'
                     = (evaluations_of_form interview_id db
                        ++ [created_evaluation new_id interview_id evaluation])%list).
    { unfold evaluations_of_form, db'. cbn [evaluations add_evaluation_row].
      rewrite filter_app.
      cbn [filter created_evaluation evaluation_interview_form_id].
      now rewrite Z.eqb_refl. }
    rewrite Hevals.
    pose proof (in_order_lines (Integrations.evaluation_lines float_repr)
                  (fun e => [float_repr (total_score e);
                             float_repr (minimal_rate e);
                             match passed e with
                             | Some true => "Пройшов"
                             | _ => "Не пройшов"
                             end])
                  (evaluations_of_form interview_id db
                   ++ [created_evaluation new_id interview_id evaluation])%list
                  (evaluation_lines_pieces float_repr)) as Hall.
    rewrite flat_map_app in Hall. apply in_order_drop in Hall.
    cbn [flat_map app created_evaluation total_score minimal_rate passed] in Hall.
    now destruct (new_passed evaluation).
Qed.

Lemma added_evaluation_is_synced_witness :
  exists notes,
    snd (run_request
           (Integrations.sync_interview_to_peopleforce sample_settings
              (remote_answering ok_response) sample_float_repr 2)
           (snd (fst (run_request
                        (InterviewsApi.add_evaluation 2 2 strong_evaluation)
                        two_forms_db))))
    = [notes_request sample_settings "cand-43" notes]
    /\ in_order ["8.5"; "7.0"; "Пройшов"] notes.
Proof.
  exact (added_evaluation_is_synced sample_settings (remote_answering ok_response)
           sample_float_repr two_forms_db 2 2 strong_evaluation second_form eq_refl).
Defined.

(** ** Interviewers *)

Lemma NoDup_snoc {A} (l : list A) (x : A) :
  NoDup l -> ~ In x l -> NoDup (l ++ [x])%list.
Proof.
  induction 1 as [|y l Hy Hnd IH]; intros Hx; cbn [app].
  - constructor; [intros [] | constructor].
  - constructor.
    + intros Hin. apply in_app_or in Hin. destruct Hin as [Hin|[<-|[]]].
      * contradiction.
      * apply Hx. now left.
    + apply IH. intros Hin. apply Hx. now right.
Qed.

Lemma find_by_email_none email db :
  find_interviewer_by_email email db = None
  <-> ~ In email (map interviewer_email (interviewers db)).
Proof.
  unfold find_interviewer_by_email.
  induction (interviewers db) as [|i rows IH]; cbn [find map].
  - split; [intros _ [] | reflexivity].
  - destruct (String.eqb_spec (interviewer_email i) email) as [Heq|Hne].
    + split; [discriminate|]. intros H. exfalso. apply H. now left.
    + rewrite IH. split.
      * intros H [Hin|Hin]; [contradiction | now apply H].
      * intros H Hin. apply H. now right.
Qed.

Lemma create_interviewer_run db new_id interviewer :
  run_request (InterviewsApi.create_interviewer new_id interviewer) db
  = match find_interviewer_by_email (new_interviewer_email interviewer) db with
    | Some _ => (Raise (HTTPException 400 "Інтерв'юер з таким email вже існує"), db, [])
    | None =>
        if interviewer_fits (interviewers db) (created_interviewer new_id interviewer)
        then
          (Return (match find_interviewer new_id
                           (add_interviewer_row (created_interviewer new_id interviewer)
                              db)
                   with
                   | Some r => r
                   | None => created_interviewer new_id interviewer
                   end),
           add_interviewer_row (created_interviewer new_id interviewer) db, [])
        else (Raise too_long, db, [])
    end
  /\ run_request (InterviewService.create_interviewer new_id interviewer) db
     = run_request (InterviewsApi.create_interviewer new_id interviewer) db.
Proof.
  unfold run_request, InterviewsApi.create_interviewer,
    InterviewService.create_interviewer.
  step_handler.
  destruct (find_interviewer_by_email (new_interviewer_email interviewer) db);
    [split; reflexivity|].
  step_handler. rewrite commit_rows by reflexivity.
  cbn [database session sent]. fold (created_interviewer new_id interviewer).
  rewrite (strings_fit_added_interviewer db _ (created_interviewer new_id interviewer))
    by reflexivity.
  destruct (interviewer_fits _ _); split; reflexivity.
Qed.

Lemma created_interviewer_fits db new_id interviewer :
  find_interviewer new_id db = None ->
  interviewer_fits (interviewers db) (created_interviewer new_id interviewer)
  = fits 100 (new_interviewer_name interviewer)
    && fits 100 (new_interviewer_email interviewer)
    && fits_opt 100 (new_interviewer_position interviewer).
Proof.
  intros Hfresh. unfold interviewer_fits.
  now rewrite !column_fits_fresh by exact Hfresh.
Qed.

(** Interviewer e-mail addresses stay unique.  A request whose address is
    taken raises the 400 HTTPException and stores nothing; a request with a new
    address (under an id no interviewer has yet) whose name, address and
    position have at most 100 characters stores and returns the interviewer
    as submitted; when one of the three has a character other than a space
    after its first 100 characters, the database refuses the row at the
    commit, the error is not caught and nothing is stored.  In
    every case no two interviewers share an address afterwards.  The service
    does what the handler does. *)
Theorem interviewer_emails_stay_unique
  (db : DB) (new_id : Z) (interviewer : InterviewerCreate) :
  NoDup (map interviewer_email (interviewers db)) ->
  (In (new_interviewer_email interviewer) (map interviewer_email (interviewers db)) ->
   run_request (InterviewsApi.create_interviewer new_id interviewer) db
   = (Raise (HTTPException 400 "Інтерв'юер з таким email вже існує"), db, []))
  /\ (~ In (new_interviewer_email interviewer)
          (map interviewer_email (interviewers db)) ->
      find_interviewer new_id db = None ->
      (fits 100 (new_interviewer_name interviewer)
       && fits 100 (new_interviewer_email interviewer)
       && fits_opt 100 (new_interviewer_position interviewer) = true ->
       run_request (InterviewsApi.create_interviewer new_id interviewer) db
       = (Return (created_interviewer new_id interviewer),
          add_interviewer_row (created_interviewer new_id interviewer) db, []))
      /\ (too_long_for 100 (new_interviewer_name interviewer) = true
          \/ too_long_for 100 (new_interviewer_email interviewer) = true
          \/ (exists position,
                new_interviewer_position interviewer = Some position
                /\ too_long_for 100 position = true) ->
          exists refused,
            run_request (InterviewsApi.create_interviewer new_id interviewer) db
            = (Raise (DataError refused), db, [])))
  /\ NoDup (map interviewer_email
              (interviewers
                 (snd (fst (run_request
                              (InterviewsApi.create_interviewer new_id interviewer)
                              db)))))
  /\ run_request (InterviewService.create_interviewer new_id interviewer) db
     = run_request (InterviewsApi.create_interviewer new_id interviewer) db.
Proof.
  intros Hnd.
  destruct (create_interviewer_run db new_id interviewer) as [Hrun Hservice].
  rewrite Hservice, Hrun.
  destruct (find_interviewer_by_email (new_interviewer_email interviewer) db)
    as [taken|] eqn:Hfind.
  - split; [reflexivity|]. split; [|split; [exact Hnd | reflexivity]].
    intros Hnotin Hfresh. exfalso.
    apply find_by_email_none in Hnotin. congruence.
  - apply find_by_email_none in Hfind.
    split; [intros Hin; contradiction|].
    split; [|split; [|reflexivity]].
    + intros _ Hfresh. rewrite (created_interviewer_fits db new_id interviewer Hfresh).
      split; [intros -> | intros Hlong].
      * assert (find_interviewer new_id
                  (add_interviewer_row (created_interviewer new_id interviewer) db)
                = Some (created_interviewer new_id interviewer)) as ->; [|reflexivity].
        unfold find_interviewer. cbn [interviewers add_interviewer_row].
        apply find_appended; [exact Hfresh | apply Z.eqb_refl].
      * replace (fits 100 (new_interviewer_name interviewer)
                 && fits 100 (new_interviewer_email interviewer)
                 && fits_opt 100 (new_interviewer_position interviewer))
          with false; [eexists; reflexivity|].
        symmetry.
        destruct Hlong as [Hlong|[Hlong|(position & Hposition & Hlong)]];
          apply too_long_does_not_fit in Hlong.
        -- now rewrite Hlong.
        -- rewrite Hlong. now rewrite andb_false_r.
        -- rewrite Hposition. cbn [fits_opt]. rewrite Hlong. apply andb_false_r.
    + destruct (interviewer_fits _ _); cbn [fst snd]; [|exact Hnd].
      cbn [interviewers add_interviewer_row].
      rewrite map_app. cbn [map created_interviewer interviewer_email].
      now apply NoDup_snoc.
Qed.

Lemma interviewer_emails_stay_unique_witness :
  run_request (InterviewsApi.create_interviewer 3 new_colleague) two_forms_db
  = (Return (created_interviewer 3 new_colleague),
     add_interviewer_row (created_interviewer 3 new_colleague) two_forms_db, [])
  /\ (exists refused,
        run_request (InterviewsApi.create_interviewer 3 long_named_colleague)
          two_forms_db
        = (Raise (DataError refused), two_forms_db, []))
  /\ NoDup (map interviewer_email
              (interviewers
                 (snd (fst (run_request
                              (InterviewsApi.create_interviewer 3 new_colleague)
                              two_forms_db))))).
Proof.
  assert (Hunique : NoDup (map interviewer_email (interviewers two_forms_db))).
  { repeat constructor; cbn; intuition discriminate. }
  destruct (interviewer_emails_stay_unique two_forms_db 3 new_colleague Hunique)
    as (_ & Hfresh & Hkept & _).
  destruct (interviewer_emails_stay_unique two_forms_db 3 long_named_colleague Hunique)
    as (_ & Hlong & _).
  split; [|split; [|exact Hkept]].
  - apply Hfresh; [cbn; intuition discriminate | reflexivity | reflexivity].
  - apply Hlong; [cbn; intuition discriminate | reflexivity | left; reflexivity].
Defined.

(** ** Pages and filters *)

Lemma firstn_add {A} (a b : nat) (l : list A) :
  firstn (a + b) l = (firstn a l ++ firstn b (skipn a l))%list.
Proof.
  revert l. induction a as [|a IH]; intros l; [reflexivity|].
  destruct l as [|x l]; cbn [Nat.add firstn skipn app].
  - now rewrite firstn_nil.
  - now rewrite IH.
Qed.

Lemma skipn_add {A} (a b : nat) (l : list A) :
  skipn (a + b) l = skipn b (skipn a l).
Proof.
  revert l. induction a as [|a IH]; intros l; [reflexivity|].
  destruct l as [|x l]; cbn [Nat.add skipn]; [now rewrite skipn_nil | apply IH].
Qed.

Lemma In_page {A} (n m : nat) (rows : list A) (row : A) :
  In row (firstn n (skipn m rows)) -> In row rows.
Proof.
  intros Hin.
  rewrite <- (firstn_skipn m rows). apply in_or_app. right.
  rewrite <- (firstn_skipn n (skipn m rows)). apply in_or_app. now left.
Qed.

Lemma offset_limit_run {A} (skip limit : Z) (rows : list A) (w : World) :
  0 <= skip < 2 ^ 63 -> 0 <= limit < 2 ^ 63 ->
  offset_limit skip limit rows w
  = (Return (firstn (Z.to_nat limit) (skipn (Z.to_nat skip) rows)), w).
Proof.
  intros Hs Hl. unfold offset_limit, is_bigint.
  replace (- 2 ^ 63 <=? skip) with true by (symmetry; apply Z.leb_le; lia).
  replace (- 2 ^ 63 <=? limit) with true by (symmetry; apply Z.leb_le; lia).
  replace (skip <? 2 ^ 63) with true by (symmetry; apply Z.ltb_lt; lia).
  replace (limit <? 2 ^ 63) with true by (symmetry; apply Z.ltb_lt; lia).
  replace (skip <? 0) with false by (symmetry; apply Z.ltb_ge; lia).
  replace (limit <? 0) with false by (symmetry; apply Z.ltb_ge; lia).
  reflexivity.
Qed.

Lemma offset_limit_refused {A} (skip limit : Z) (rows : list A) (w : World) :
  skip < 0 \/ limit < 0 \/ 2 ^ 63 <= skip \/ 2 ^ 63 <= limit ->
  exists refused, offset_limit skip limit rows w = (Raise (DataError refused), w).
Proof.
  intros Hout. unfold offset_limit.
  destruct (is_bigint skip && is_bigint limit) eqn:Hrange; cbn [negb];
    [|eexists; reflexivity].
  destruct (skip <? 0) eqn:Hs; [eexists; reflexivity|].
  destruct (limit <? 0) eqn:Hl; [eexists; reflexivity|].
  exfalso. apply Z.ltb_ge in Hs, Hl.
  unfold is_bigint in Hrange.
  rewrite !andb_true_iff, !Z.leb_le, !Z.ltb_lt in Hrange. lia.
Qed.

(** Consecutive pages of the interviewer listing tile it: the page of [a]
    rows at offset [skip] followed by the page of [b] rows at offset
    [skip + a] is the page of [a + b] rows at offset [skip] (the numbers
    being non-negative and within the 64 bits of OFFSET and LIMIT); no page
    holds more rows than its limit, and listing changes nothing. *)
Theorem interviewer_pages_tile (db : DB) (skip a b : Z) :
  0 <= skip -> 0 <= a -> 0 <= b -> skip + a + b < 2 ^ 63 ->
  exists page1 page2,
    run_request (get_interviewers skip a) db = (Return page1, db, [])
    /\ run_request (get_interviewers (skip + a) b) db = (Return page2, db, [])
    /\ run_request (get_interviewers skip (a + b)) db
       = (Return (page1 ++ page2)%list, db, [])
    /\ Z.of_nat (List.length page1) <= a.
Proof.
  intros Hs Ha Hb Hrange.
  unfold run_request, get_interviewers. step_handler.
  rewrite !offset_limit_run by lia.
  eexists. eexists. repeat split.
  - rewrite Z2Nat.inj_add, firstn_add by lia.
    now rewrite (Z2Nat.inj_add skip a), skipn_add by lia.
  - pose proof (firstn_le_length (Z.to_nat a)
                  (skipn (Z.to_nat skip) (interviewers db))). lia.
Qed.

Lemma interviewer_pages_tile_witness :
  exists page1 page2,
    run_request (get_interviewers 0 1) two_forms_db = (Return page1, two_forms_db, [])
    /\ run_request (get_interviewers (0 + 1) 1) two_forms_db
       = (Return page2, two_forms_db, [])
    /\ run_request (get_interviewers 0 (1 + 1)) two_forms_db
       = (Return (page1 ++ page2)%list, two_forms_db, [])
    /\ Z.of_nat (List.length page1) <= 1.
Proof.
  apply (interviewer_pages_tile two_forms_db 0 1 1); lia.
Defined.

(** The interviewer listing and its two numbers.  A negative offset or
    limit, or one that does not fit the 64 bits the database gives them, is
    refused by the database with a data error that no handler catches.
    Otherwise every page is a part of the table, and with offset 0 and a
    limit that is at least the size of the table the listing is the whole
    table in stored order. *)
Theorem interviewer_listing_bounds (db : DB) (skip limit : Z) :
  (skip < 0 \/ limit < 0 \/ 2 ^ 63 <= skip \/ 2 ^ 63 <= limit ->
   exists refused,
     run_request (get_interviewers skip limit) db = (Raise (DataError refused), db, []))
  /\ (0 <= skip < 2 ^ 63 -> 0 <= limit < 2 ^ 63 ->
      (Z.of_nat (List.length (interviewers db)) <= limit ->
       run_request (get_interviewers 0 limit) db = (Return (interviewers db), db, []))
      /\ exists page,
           run_request (get_interviewers skip limit) db = (Return page, db, [])
           /\ forall row, In row page -> In row (interviewers db)).
Proof.
  unfold run_request, get_interviewers. step_handler. split.
  - intros Hout.
    destruct (offset_limit_refused skip limit (interviewers db) (open_session db) Hout)
      as (refused & Hrun).
    exists refused. unfold open_session in Hrun. now rewrite Hrun.
  - intros Hs Hl. split.
    + intros Hbig. rewrite offset_limit_run by lia.
      cbn [Z.to_nat skipn]. rewrite firstn_all2 by lia. reflexivity.
    + rewrite offset_limit_run by lia. eexists. split; [reflexivity|].
      intros row Hin. exact (In_page _ _ _ _ Hin).
Qed.

Lemma interviewer_listing_bounds_witness :
  run_request (get_interviewers 0 100) two_forms_db
  = (Return [jane; omar], two_forms_db, [])
  /\ (exists refused,
        run_request (get_interviewers (2 ^ 63) 1) two_forms_db
        = (Raise (DataError refused), two_forms_db, []))
  /\ (exists refused,
        run_request (get_interviewers 0 (-1)) two_forms_db
        = (Raise (DataError refused), two_forms_db, [])).
Proof.
  destruct (interviewer_listing_bounds two_forms_db 0 100) as [_ Hpage].
  destruct (Hpage ltac:(lia) ltac:(lia)) as [Hall _].
  destruct (interviewer_listing_bounds two_forms_db (2 ^ 63) 1) as [Hhuge _].
  destruct (interviewer_listing_bounds two_forms_db 0 (-1)) as [Hnegative _].
  split; [apply Hall; cbn; lia|].
  split; [apply Hhuge; lia | apply Hnegative; lia].
Defined.

Lemma In_filter_if {A} (flag : bool) (criterion : A -> bool) (rows : list A) (x : A) :
  In x (filter_if flag criterion rows)
  <-> In x rows /\ (flag = true -> criterion x = true).
Proof.
  unfold filter_if. destruct flag.
  - rewrite filter_In. intuition.
  - intuition discriminate.
Qed.

Lemma filter_if_length {A} (flag : bool) (criterion : A -> bool) (rows : list A) :
  (List.length (filter_if flag criterion rows) <= List.length rows)%nat.
Proof.
  unfold filter_if. destruct flag; [apply filter_length_le | apply le_n].
Qed.

(** The question listing is exact: with offset 0 and a limit that is at
    least the size of the table (and within the 64 bits the database gives
    it), a question is listed if and only if it is in
    the table and passes every filter whose argument is truthy, equality for
    the four tag ids (a question whose tag is NULL never matches) and the
    ILIKE pattern made of the search text between two percent signs. *)
Theorem question_listing_is_exact
  (ilike : string -> string -> bool) (db : DB) (limit : Z)
  (unit_id difficulty_id level_id group_id : option Z)
  (text_search : option string) :
  Z.of_nat (List.length (questions db)) <= limit -> limit < 2 ^ 63 ->
  exists rows,
    run_request
      (get_questions ilike 0 limit unit_id difficulty_id level_id group_id
         text_search) db
    = (Return rows, db, [])
    /\ forall q,
         In q rows <->
         In q (questions db)
         /\ (truthy_int unit_id = true -> question_unit_id q = unit_id)
         /\ (truthy_int difficulty_id = true -> question_difficulty_id q = difficulty_id)
         /\ (truthy_int level_id = true -> question_level_id q = level_id)
         /\ (truthy_int group_id = true -> question_group_id q = group_id)
         /\ (truthy_str text_search = true ->
             ilike (question_text q) ("%" ++ str_value text_search ++ "%") = true).
Proof.
  intros Hbig Hrange.
  assert (Heq : forall (column arg : option Z),
             truthy_int arg = true ->
             (sql_eq column (int_value arg) = true <-> column = arg)).
  { intros column [v|] Ht; [|discriminate]. cbn [int_value].
    unfold sql_eq. destruct column as [c|].
    - rewrite Z.eqb_eq. split; [now intros -> | now intros [= ->]].
    - split; discriminate. }
  unfold run_request, get_questions. step_handler.
  rewrite offset_limit_run by lia. cbn [Z.to_nat skipn].
  rewrite firstn_all2.
  - eexists. split; [reflexivity|].
    intros q. rewrite !In_filter_if.
    split.
    + intros (((((Hin & Hu) & Hd) & Hl) & Hg) & Ht).
      repeat split; try assumption; intros Hflag;
        apply Heq; auto.
    + intros (Hin & Hu & Hd & Hl & Hg & Ht).
      repeat split; try assumption; intros Hflag;
        apply Heq; auto.
  - repeat (etransitivity; [apply filter_if_length|]). lia.
Qed.

Lemma question_listing_is_exact_witness :
  exists rows,
    run_request
      (get_questions (fun _ _ => true) 0 100 (Some 3) None None None None)
      two_questions_db
    = (Return rows, two_questions_db, [])
    /\ In second_question rows
    /\ ~ In sample_question rows.
Proof.
  destruct (question_listing_is_exact (fun _ _ => true) two_questions_db 100
              (Some 3) None None None None) as (rows & Hrun & Hexact).
  - cbn. lia.
  - lia.
  - exists rows. split; [exact Hrun|]. split.
    + apply Hexact. repeat split; try discriminate.
      right. left. reflexivity.
    + intros Hin. apply Hexact in Hin. destruct Hin as (_ & Hunit & _).
      specialize (Hunit eq_refl). discriminate.
Defined.

(** ** The feedback table stays well formed *)

Lemma seq_ahead_split db :
  feedbacks_seq_ahead db = true <->
  (forall f, In f (feedbacks db) -> feedback_id f < feedbacks_id_seq db)
  /\ (forall p v, In p (predefined_phrases db) -> phrase_feedback_id p = Some v ->
                  v < feedbacks_id_seq db).
Proof.
  unfold feedbacks_seq_ahead. rewrite andb_true_iff, !forallb_forall. split.
  - intros [Hf Hp]. split.
    + intros f Hin. apply Z.ltb_lt. now apply Hf.
    + intros p v Hin Hv. specialize (Hp p Hin). rewrite Hv in Hp.
      now apply Z.ltb_lt.
  - intros [Hf Hp]. split.
    + intros f Hin. apply Z.ltb_lt. now apply Hf.
    + intros p Hin. destruct (phrase_feedback_id p) as [v|] eqn:Hv; [|reflexivity].
      apply Z.ltb_lt. now apply (Hp p v).
Qed.

Lemma created_table_ok db interview_id fb :
  feedback_table_ok db ->
  hd_error (feedbacks_of_form interview_id db) = None ->
  feedback_table_ok (db_with_created_feedback db interview_id fb).
Proof.
  intros (Hseq & Hkey & Hone) Hnone.
  apply seq_ahead_split in Hseq. destruct Hseq as [Hf Hp].
  unfold feedback_table_ok. rewrite seq_ahead_split.
  unfold db_with_created_feedback, created_feedback, feedbacks_of_form.
  cbn [feedbacks predefined_phrases feedbacks_id_seq add_feedback_row
       with_predefined_phrases].
  repeat split.
  - intros f Hin. apply in_app_or in Hin. destruct Hin as [Hin|[<-|[]]].
    + specialize (Hf f Hin). lia.
    + cbn [feedback_id]. lia.
  - intros p v Hin Hv. unfold attach in Hin. apply in_map_iff in Hin.
    destruct Hin as (r & <- & Hin).
    destruct (listed (predefined_phrase_ids fb) r).
    + cbn [set_phrase_feedback phrase_feedback_id] in Hv. injection Hv as <-. lia.
    + specialize (Hp r v Hin Hv). lia.
  - rewrite map_app. cbn [map feedback_id]. apply NoDup_snoc; [exact Hkey|].
    intros Hin. apply in_map_iff in Hin. destruct Hin as (f & Hid & Hin).
    specialize (Hf f Hin). lia.
  - intros f. rewrite filter_app, length_app. cbn [filter feedback_interview_form_id].
    destruct (interview_id =? f) eqn:Hsame.
    + apply Z.eqb_eq in Hsame. subst f.
      unfold feedbacks_of_form in Hnone.
      destruct (filter _ (feedbacks db)); [cbn; lia | discriminate].
    + specialize (Hone f). unfold feedbacks_of_form in Hone. cbn [List.length]. lia.
Qed.

Lemma retext_ids id text rows :
  map feedback_id (retext id text rows) = map feedback_id rows.
Proof.
  unfold retext. rewrite map_map. apply map_ext.
  intros r. now destruct (feedback_id r =? id).
Qed.

Lemma updated_table_ok db existing fb :
  feedback_table_ok db ->
  In existing (feedbacks db) ->
  feedback_table_ok (db_with_updated_feedback db existing fb).
Proof.
  intros (Hseq & Hkey & Hone) Hex.
  apply seq_ahead_split in Hseq. destruct Hseq as [Hf Hp].
  unfold feedback_table_ok. rewrite seq_ahead_split. repeat split.
  - unfold db_with_updated_feedback.
    cbn [feedbacks feedbacks_id_seq with_predefined_phrases with_feedbacks].
    intros f Hin. unfold retext in Hin. apply in_map_iff in Hin.
    destruct Hin as (r & <- & Hin). specialize (Hf r Hin).
    now destruct (feedback_id r =? feedback_id existing).
  - unfold db_with_updated_feedback.
    cbn [predefined_phrases feedbacks_id_seq with_predefined_phrases with_feedbacks].
    intros p v Hin Hv. unfold attach in Hin. apply in_map_iff in Hin.
    destruct Hin as (r & <- & Hin).
    destruct (listed (predefined_phrase_ids fb) r).
    + cbn [set_phrase_feedback phrase_feedback_id] in Hv. injection Hv as <-.
      now apply Hf.
    + unfold detach_all in Hin. apply in_map_iff in Hin.
      destruct Hin as (r0 & <- & Hin).
      destruct (attached_to (feedback_id existing) r0).
      * discriminate.
      * now apply (Hp r0 v).
  - unfold db_with_updated_feedback.
    cbn [feedbacks with_predefined_phrases with_feedbacks].
    now rewrite retext_ids.
  - intros f. rewrite feedbacks_of_form_retext. unfold retext.
    rewrite length_map. apply Hone.
Qed.

Lemma add_feedback_unknown_form db interview_id fb :
  find_form interview_id db = None ->
  run_request (InterviewsApi.add_feedback interview_id fb) db
  = (Raise (HTTPException 404 "Форму інтерв'ю не знайдено"), db, [])
  /\ run_request (InterviewService.add_feedback interview_id fb) db
     = (Raise (HTTPException 404 "Форму співбесіди не знайдено"), db, []).
Proof.
  intros Hform. split.
  - unfold run_request, InterviewsApi.add_feedback.
    step_handler. rewrite Hform. reflexivity.
  - unfold run_request, InterviewService.add_feedback,
      InterviewService.get_interview_by_id.
    step_handler. rewrite Hform. reflexivity.
Qed.

Lemma feedback_step_ok (db : DB) (interview_id : Z) (fb : FeedbackCreate) :
  feedback_table_ok db ->
  forall db',
    db' = snd (fst (run_request (InterviewsApi.add_feedback interview_id fb) db))
    \/ db' = snd (fst (run_request (InterviewService.add_feedback interview_id fb) db)) ->
    feedback_table_ok db'
    /\ (List.length (feedbacks db) <= List.length (feedbacks db')
        <= List.length (feedbacks db) + 1)%nat.
Proof.
  intros Hok db' Hrun.
  assert (Hsame : (List.length (feedbacks db) <= List.length (feedbacks db)
                   <= List.length (feedbacks db) + 1)%nat) by lia.
  assert (Hcreated : (List.length (feedbacks db)
                      <= List.length (feedbacks (db_with_created_feedback db interview_id fb))
                      <= List.length (feedbacks db) + 1)%nat).
  { unfold db_with_created_feedback.
    cbn [feedbacks add_feedback_row with_predefined_phrases].
    rewrite length_app. cbn [List.length]. lia. }
  destruct (find_form interview_id db) as [form|] eqn:Hform.
  - destruct (hd_error (feedbacks_of_form interview_id db)) as [existing|] eqn:Hex.
    + destruct Hrun as [-> | ->].
      * rewrite (api_add_feedback_conflict db interview_id fb form existing Hform Hex).
        now split.
      * rewrite (service_add_feedback_updated db interview_id fb form existing Hform Hex).
        cbn [fst snd]. split.
        -- apply updated_table_ok; [exact Hok|].
           now destruct (existing_in_table db interview_id existing Hex).
        -- unfold db_with_updated_feedback, retext.
           cbn [feedbacks with_predefined_phrases with_feedbacks].
           rewrite length_map. lia.
    + destruct Hrun as [-> | ->].
      * rewrite (api_add_feedback_created db interview_id fb form Hform Hex).
        cbn [fst snd]. split; [now apply created_table_ok | exact Hcreated].
      * rewrite (service_add_feedback_created db interview_id fb form Hform Hex).
        cbn [fst snd]. split; [now apply created_table_ok | exact Hcreated].
  - destruct (add_feedback_unknown_form db interview_id fb Hform) as [Hapi Hsvc].
    destruct Hrun as [-> | ->]; [rewrite Hapi | rewrite Hsvc]; now split.
Qed.

(** Whatever is submitted and for whatever form id, both feedback entry
    points leave the feedback table well formed: the id sequence stays
    ahead of the ids in use, feedback ids stay a key, and no form ever has
    two feedback rows.  The table grows by at most one row. *)
Theorem feedback_table_stays_well_formed
  (db : DB) (interview_id : Z) (fb : FeedbackCreate) :
  feedback_table_ok db ->
  (feedback_table_ok
     (snd (fst (run_request (InterviewsApi.add_feedback interview_id fb) db)))
   /\ feedback_table_ok
        (snd (fst (run_request (InterviewService.add_feedback interview_id fb) db))))
  /\ (List.length (feedbacks db)
      <= List.length
           (feedbacks
              (snd (fst (run_request (InterviewsApi.add_feedback interview_id fb) db))))
      <= List.length (feedbacks db) + 1)%nat
  /\ (List.length (feedbacks db)
      <= List.length
           (feedbacks
              (snd (fst (run_request (InterviewService.add_feedback interview_id fb) db))))
      <= List.length (feedbacks db) + 1)%nat.
Proof.
  intros Hok.
  destruct (feedback_step_ok db interview_id fb Hok _ (or_introl eq_refl))
    as [Hapi Hapi_size].
  destruct (feedback_step_ok db interview_id fb Hok _ (or_intror eq_refl))
    as [Hsvc Hsvc_size].
  split; [split; assumption | split; assumption].
Qed.

Lemma feedback_table_stays_well_formed_witness :
  (feedback_table_ok
     (snd (fst (run_request (InterviewsApi.add_feedback 2 resubmission) two_forms_db)))
   /\ feedback_table_ok
        (snd (fst (run_request (InterviewService.add_feedback 1 resubmission)
                     sample_db))))
  /\ (List.length (feedbacks two_forms_db)
      <= List.length
           (feedbacks
              (snd (fst (run_request (InterviewsApi.add_feedback 2 resubmission)
                           two_forms_db))))
      <= List.length (feedbacks two_forms_db) + 1)%nat.
Proof.
  assert (Hfirst : feedback_table_ok two_forms_db).
  { repeat split.
    - repeat constructor; cbn; intuition discriminate.
    - intros f. unfold feedbacks_of_form. cbn [feedbacks two_forms_db].
      etransitivity; [apply filter_length_le | cbn; lia]. }
  assert (Hsecond : feedback_table_ok sample_db).
  { repeat split.
    - repeat constructor; cbn; intuition discriminate.
    - intros f. unfold feedbacks_of_form. cbn [feedbacks sample_db].
      etransitivity; [apply filter_length_le | cbn; lia]. }
  destruct (feedback_table_stays_well_formed two_forms_db 2 resubmission Hfirst)
    as ((Hapi & _) & Hsize & _).
  destruct (feedback_table_stays_well_formed sample_db 1 resubmission Hsecond)
    as ((_ & Hsvc) & _).
  split; [split; assumption | exact Hsize].
Defined.

(** ** Interviewers joining and leaving a form *)

Lemma found_form_id id db form : find_form id db = Some form -> form_id form = id.
Proof.
  unfold find_form. intros H. apply find_some in H. now apply Z.eqb_eq.
Qed.

(** An interviewer with a row is on a form exactly when the association
    table holds the link. *)
Lemma member_iff_link db id i form :
  find_interviewer id db = Some i ->
  forall links,
    interviewer_in i (form_interviewers form (with_interviewer_forms (fun _ => links) db))
    = link_in (id, form) links.
Proof.
  intros Hfind links.
  pose proof (found_interviewer_id id db i Hfind) as Hid.
  unfold find_interviewer in Hfind. apply find_some in Hfind. destruct Hfind as [Hin _].
  unfold interviewer_in, form_interviewers.
  cbn [interviewer_forms interviewers with_interviewer_forms].
  apply eq_true_iff_eq. rewrite link_in_In, existsb_exists. split.
  - intros (j & Hj & Heq). apply filter_In in Hj. destruct Hj as [_ Hlink].
    apply Z.eqb_eq in Heq. apply link_in_In in Hlink.
    assert (Ej : interviewer_id j = id) by congruence.
    now rewrite <- Ej.
  - intros Hlink. exists i. split; [|apply Z.eqb_refl].
    apply filter_In. split; [exact Hin|].
    rewrite Hid. now apply link_in_In.
Qed.

Lemma with_interviewer_forms_same db :
  with_interviewer_forms (fun _ => interviewer_forms db) db = db.
Proof. now destruct db. Qed.

Lemma member_iff_link_here db id i form :
  find_interviewer id db = Some i ->
  interviewer_in i (form_interviewers form db) = link_in (id, form) (interviewer_forms db).
Proof.
  intros Hfind.
  rewrite <- (member_iff_link db id i form Hfind (interviewer_forms db)).
  now rewrite with_interviewer_forms_same.
Qed.

Lemma flush_links_added pkey stored link :
  link_in link stored = false ->
  flush_links pkey stored (stored ++ [link])%list = Return (stored ++ [link])%list.
Proof.
  intros Hnew. unfold flush_links.
  rewrite appended_links_app,
          (filter_all (fun r => link_in r (stored ++ [link])%list) stored).
  - cbn [has_duplicates link_in existsb orb]. now rewrite Hnew.
  - intros x Hx. apply link_in_In, in_or_app. now left.
Qed.

Lemma remove_link_subset link stored x :
  In x (remove_link link stored) -> In x stored.
Proof.
  induction stored as [|y rest IH]; cbn [remove_link]; [tauto|].
  destruct (link_eqb link y).
  - intros Hin. now right.
  - intros [<-|Hin]; [now left | right; now apply IH].
Qed.

Lemma remove_link_NoDup link stored :
  NoDup stored -> NoDup (remove_link link stored).
Proof.
  induction 1 as [|y rest Hnotin Hnd IH]; cbn [remove_link]; [constructor|].
  destruct (link_eqb link y); [exact Hnd|].
  constructor; [|exact IH].
  intros Hin. apply Hnotin. now apply remove_link_subset in Hin.
Qed.

Lemma remove_link_gone link stored :
  NoDup stored -> link_in link (remove_link link stored) = false.
Proof.
  induction 1 as [|y rest Hnotin Hnd IH]; cbn [remove_link]; [reflexivity|].
  destruct (link_eqb link y) eqn:Heq.
  - apply link_eqb_eq in Heq. subst y.
    apply not_true_is_false. intros Hin. now apply link_in_In in Hin.
  - cbn [link_in existsb]. rewrite Heq. exact IH.
Qed.

Lemma flush_links_removed pkey stored link :
  NoDup stored ->
  flush_links pkey stored (remove_link link stored) = Return (remove_link link stored).
Proof.
  intros Hnd. unfold flush_links.
  rewrite appended_links_remove by apply appended_links_same.
  - cbn [has_duplicates existsb orb]. rewrite app_nil_r. f_equal.
    induction Hnd as [|y rest Hnotin Hnd IH]; [reflexivity|].
    cbn [remove_link filter].
    destruct (link_eqb link y) eqn:Heq.
    + replace (link_in y rest) with false.
      * apply filter_all. intros x Hx. now apply link_in_In.
      * symmetry. apply not_true_is_false. intros Hin. now apply link_in_In in Hin.
    + cbn [link_in existsb]. rewrite link_eqb_refl. cbn [orb]. f_equal.
      etransitivity; [|exact IH]. apply filter_ext_in.
      intros x Hx. cbn [link_in existsb].
      destruct (link_eqb x y) eqn:Hxy; [|reflexivity].
      apply link_eqb_eq in Hxy. subst x. contradiction.
Qed.

Lemma remove_link_last link stored :
  link_in link stored = false -> remove_link link (stored ++ [link])%list = stored.
Proof.
  induction stored as [|y rest IH]; cbn [remove_link app link_in existsb].
  - now rewrite link_eqb_refl.
  - intros H. apply orb_false_iff in H. destruct H as [Hy Hrest].
    rewrite Hy. f_equal. now apply IH.
Qed.

Lemma commit_interviewer_links db links l :
  flush_links "interviewer_forms_pkey" (interviewer_forms db) links = Return links ->
  commit {| database := db;
            session := with_interviewer_forms (fun _ => links) db;
            sent := l |}
  = (Return tt,
     {| database := with_interviewer_forms (fun _ => links) db;
        session := with_interviewer_forms (fun _ => links) db;
        sent := l |}).
Proof.
  intros Hflush. unfold commit, flush. cbn [database session sent].
  rewrite strings_fit_same by reflexivity. cbn [negb].
  cbn [template_questions interviewer_forms with_interviewer_forms].
  rewrite flush_links_unchanged, Hflush. now destruct db.
Qed.

Lemma add_interviewer_run db interview_no interviewer_no form i :
  find_form interview_no db = Some form ->
  find_interviewer interviewer_no db = Some i ->
  interviewer_in i (form_interviewers (form_id form) db) = false ->
  let db1 := with_interviewer_forms
               (fun _ => (interviewer_forms db ++ [(interviewer_no, interview_no)])%list)
               db in
  run_request (InterviewsApi.add_interviewer_to_form interview_no interviewer_no) db
  = (Return (form, form_interviewers interview_no db1), db1, [])
  /\ run_request (InterviewService.add_interviewer_to_form interview_no interviewer_no) db
     = (Return (form, form_interviewers interview_no db1), db1, []).
Proof.
  intros Hform Hi Hout db1.
  pose proof (found_form_id _ _ _ Hform) as Hfid.
  pose proof (found_interviewer_id _ _ _ Hi) as Hiid.
  assert (Hnew : link_in (interviewer_no, interview_no) (interviewer_forms db) = false).
  { rewrite <- (member_iff_link_here db interviewer_no i interview_no Hi).
    now rewrite <- Hfid. }
  assert (Hsession :
            with_interviewer_forms
              (fun links => (links ++ [(interviewer_id i, form_id form)])%list) db
            = db1).
  { unfold db1. rewrite Hfid, Hiid. now destruct db. }
  assert (Hfound : find_form (form_id form) db1 = Some form).
  { rewrite Hfid. exact Hform. }
  split.
  - unfold run_request, InterviewsApi.add_interviewer_to_form,
      append_interviewer, refresh_form.
    step_handler. rewrite Hform. step_handler. rewrite Hi. step_handler.
    rewrite Hout. step_handler. rewrite Hsession. unfold db1 at 1.
    rewrite commit_interviewer_links by now apply flush_links_added.
    step_handler. fold db1. rewrite Hfound, Hfid. reflexivity.
  - unfold run_request, InterviewService.add_interviewer_to_form,
      InterviewService.get_interview_by_id, append_interviewer, refresh_form.
    step_handler. rewrite Hform. step_handler. rewrite Hi. step_handler.
    rewrite Hout. step_handler. rewrite Hsession. unfold db1 at 1.
    rewrite commit_interviewer_links by now apply flush_links_added.
    step_handler. fold db1. rewrite Hfound, Hfid. reflexivity.
Qed.

Lemma remove_interviewer_run db interview_no interviewer_no form i :
  find_form interview_no db = Some form ->
  find_interviewer interviewer_no db = Some i ->
  interviewer_in i (form_interviewers (form_id form) db) = true ->
  NoDup (interviewer_forms db) ->
  let db2 := with_interviewer_forms
               (fun _ => remove_link (interviewer_no, interview_no) (interviewer_forms db))
               db in
  run_request (InterviewsApi.remove_interviewer_from_form interview_no interviewer_no) db
  = (Return "Інтерв'юера видалено з форми успішно", db2, [])
  /\ run_request (InterviewService.remove_interviewer_from_form interview_no interviewer_no) db
     = (Return true, db2, []).
Proof.
  intros Hform Hi Hmember Hkey db2.
  pose proof (found_form_id _ _ _ Hform) as Hfid.
  pose proof (found_interviewer_id _ _ _ Hi) as Hiid.
  assert (Hsession :
            with_interviewer_forms (remove_link (interviewer_id i, form_id form)) db
            = db2).
  { unfold db2. rewrite Hfid, Hiid. now destruct db. }
  split.
  - unfold run_request, InterviewsApi.remove_interviewer_from_form, remove_interviewer.
    step_handler. rewrite Hform. step_handler. rewrite Hi. step_handler.
    rewrite Hmember. cbn [negb]. step_handler. rewrite Hsession. unfold db2 at 1.
    rewrite commit_interviewer_links by now apply flush_links_removed.
    reflexivity.
  - unfold run_request, InterviewService.remove_interviewer_from_form,
      InterviewService.get_interview_by_id, remove_interviewer.
    step_handler. rewrite Hform. step_handler. rewrite Hi. step_handler.
    rewrite Hmember. cbn [negb]. step_handler. rewrite Hsession. unfold db2 at 1.
    rewrite commit_interviewer_links by now apply flush_links_removed.
    reflexivity.
Qed.

(** With the association table keyed by its pairs, the two successful
    membership updates do what their names say, on the handler and on the
    service alike: adding an interviewer who is not on the form appends the
    link, after which the interviewer is on the form and is in the list
    returned; removing one who is on the form deletes the link, after which
    the interviewer is not on the form.  Both keep the pairs a key and touch
    no other table. *)
Theorem interviewer_membership_updates
  (db : DB) (interview_no interviewer_no : Z) (form : InterviewForm) (i : Interviewer) :
  find_form interview_no db = Some form ->
  find_interviewer interviewer_no db = Some i ->
  NoDup (interviewer_forms db) ->
  (interviewer_in i (form_interviewers interview_no db) = false ->
   exists members db',
     run_request (InterviewsApi.add_interviewer_to_form interview_no interviewer_no) db
     = (Return (form, members), db', [])
     /\ run_request (InterviewService.add_interviewer_to_form interview_no interviewer_no) db
        = (Return (form, members), db', [])
     /\ interviewer_in i members = true
     /\ db' = with_interviewer_forms
                (fun links => (links ++ [(interviewer_no, interview_no)])%list) db
     /\ NoDup (interviewer_forms db'))
  /\ (interviewer_in i (form_interviewers interview_no db) = true ->
      exists db',
        run_request (InterviewsApi.remove_interviewer_from_form interview_no interviewer_no) db
        = (Return "Інтерв'юера видалено з форми успішно", db', [])
        /\ run_request
             (InterviewService.remove_interviewer_from_form interview_no interviewer_no) db
           = (Return true, db', [])
        /\ interviewer_in i (form_interviewers interview_no db') = false
        /\ db' = with_interviewer_forms (remove_link (interviewer_no, interview_no)) db
        /\ NoDup (interviewer_forms db')).
Proof.
  intros Hform Hi Hkey.
  pose proof (found_form_id _ _ _ Hform) as Hfid.
  split; intros Hmember.
  - destruct (add_interviewer_run db interview_no interviewer_no form i Hform Hi)
      as [Hapi Hsvc]; [now rewrite Hfid|].
    eexists. eexists. split; [exact Hapi|]. split; [exact Hsvc|].
    assert (Hnew : link_in (interviewer_no, interview_no) (interviewer_forms db) = false).
    { now rewrite <- (member_iff_link_here db interviewer_no i interview_no Hi). }
    split; [|split].
    + rewrite (member_iff_link db interviewer_no i interview_no Hi).
      apply link_in_In, in_or_app. right. now left.
    + reflexivity.
    + cbn [interviewer_forms with_interviewer_forms].
      apply NoDup_snoc; [exact Hkey|].
      intros Hin. apply link_in_In in Hin. congruence.
  - destruct (remove_interviewer_run db interview_no interviewer_no form i Hform Hi)
      as [Hapi Hsvc]; [now rewrite Hfid | exact Hkey |].
    eexists. split; [exact Hapi|]. split; [exact Hsvc|].
    split; [|split].
    + rewrite (member_iff_link db interviewer_no i interview_no Hi).
      now apply remove_link_gone.
    + reflexivity.
    + cbn [interviewer_forms with_interviewer_forms].
      now apply remove_link_NoDup.
Qed.

Lemma interviewer_membership_updates_witness :
  (exists members db',
     run_request (InterviewsApi.add_interviewer_to_form 1 2) two_forms_db
     = (Return (sample_form, members), db', [])
     /\ run_request (InterviewService.add_interviewer_to_form 1 2) two_forms_db
        = (Return (sample_form, members), db', [])
     /\ interviewer_in omar members = true
     /\ db' = with_interviewer_forms (fun links => (links ++ [(2, 1)])%list) two_forms_db
     /\ NoDup (interviewer_forms db'))
  /\ (exists db',
        run_request (InterviewsApi.remove_interviewer_from_form 1 1) two_forms_db
        = (Return "Інтерв'юера видалено з форми успішно", db', [])
        /\ run_request (InterviewService.remove_interviewer_from_form 1 1) two_forms_db
           = (Return true, db', [])
        /\ interviewer_in jane (form_interviewers 1 db') = false
        /\ db' = with_interviewer_forms (remove_link (1, 1)) two_forms_db
        /\ NoDup (interviewer_forms db')).
Proof.
  assert (Hkey : NoDup (interviewer_forms two_forms_db)).
  { repeat constructor; cbn; intuition discriminate. }
  destruct (interviewer_membership_updates two_forms_db 1 2 sample_form omar
              eq_refl eq_refl Hkey) as [Hadd _].
  destruct (interviewer_membership_updates two_forms_db 1 1 sample_form jane
              eq_refl eq_refl Hkey) as [_ Hremove].
  split; [apply Hadd | apply Hremove]; reflexivity.
Defined.

(** Adding an interviewer to a form and then removing them again gives back
    the database the pair of calls started from, whichever entry point
    serves each call. *)
Theorem add_then_remove_interviewer_restores
  (db : DB) (interview_no interviewer_no : Z) (form : InterviewForm) (i : Interviewer) :
  find_form interview_no db = Some form ->
  find_interviewer interviewer_no db = Some i ->
  interviewer_in i (form_interviewers interview_no db) = false ->
  NoDup (interviewer_forms db) ->
  exists added db',
    run_request (InterviewsApi.add_interviewer_to_form interview_no interviewer_no) db
    = (Return added, db', [])
    /\ run_request (InterviewService.add_interviewer_to_form interview_no interviewer_no) db
       = (Return added, db', [])
    /\ run_request (InterviewsApi.remove_interviewer_from_form interview_no interviewer_no) db'
       = (Return "Інтерв'юера видалено з форми успішно", db, [])
    /\ run_request
         (InterviewService.remove_interviewer_from_form interview_no interviewer_no) db'
       = (Return true, db, []).
Proof.
  intros Hform Hi Hout Hkey.
  pose proof (found_form_id _ _ _ Hform) as Hfid.
  assert (Hnew : link_in (interviewer_no, interview_no) (interviewer_forms db) = false).
  { now rewrite <- (member_iff_link_here db interviewer_no i interview_no Hi). }
  destruct (add_interviewer_run db interview_no interviewer_no form i Hform Hi)
    as [Hapi Hsvc]; [now rewrite Hfid|].
  eexists. eexists. split; [exact Hapi|]. split; [exact Hsvc|].
  set (db1 := with_interviewer_forms
                (fun _ => (interviewer_forms db ++ [(interviewer_no, interview_no)])%list)
                db).
  assert (Hback :
            with_interviewer_forms
              (fun _ => remove_link (interviewer_no, interview_no) (interviewer_forms db1))
              db1 = db).
  { unfold db1. cbn [interviewer_forms with_interviewer_forms].
    rewrite remove_link_last by exact Hnew. now destruct db. }
  pose proof (remove_interviewer_run db1 interview_no interviewer_no form i Hform Hi)
    as Hremove.
  cbv zeta in Hremove. rewrite Hback in Hremove. apply Hremove.
  - rewrite Hfid. unfold db1.
    rewrite (member_iff_link db interviewer_no i interview_no Hi).
    apply link_in_In, in_or_app. right. now left.
  - unfold db1. cbn [interviewer_forms with_interviewer_forms].
    apply NoDup_snoc; [exact Hkey|].
    intros Hin. apply link_in_In in Hin. congruence.
Qed.

Lemma add_then_remove_interviewer_restores_witness :
  exists added db',
    run_request (InterviewsApi.add_interviewer_to_form 1 2) two_forms_db
    = (Return added, db', [])
    /\ run_request (InterviewService.add_interviewer_to_form 1 2) two_forms_db
       = (Return added, db', [])
    /\ run_request (InterviewsApi.remove_interviewer_from_form 1 2) db'
       = (Return "Інтерв'юера видалено з форми успішно", two_forms_db, [])
    /\ run_request (InterviewService.remove_interviewer_from_form 1 2) db'
       = (Return true, two_forms_db, []).
Proof.
  apply (add_then_remove_interviewer_restores two_forms_db 1 2 sample_form omar
           eq_refl eq_refl eq_refl).
  repeat constructor; cbn; intuition discriminate.
Defined.

(** ** Updating and deleting a form *)

Lemma apply_update_id u r : form_id (apply_update u r) = form_id r.
Proof. reflexivity. Qed.

Lemma find_among_others interview_no other (rows : list InterviewForm) :
  other <> interview_no ->
  find (fun f => form_id f =? other)
    (filter (fun o => negb (form_id o =? interview_no)) rows)
  = find (fun f => form_id f =? other) rows.
Proof.
  intros Hother. induction rows as [|r rows IH]; [reflexivity|].
  cbn [filter find]. destruct (form_id r =? interview_no) eqn:Hr; cbn [negb find].
  - apply Z.eqb_eq in Hr.
    now replace (form_id r =? other) with false by (symmetry; apply Z.eqb_neq; lia).
  - now rewrite IH.
Qed.

Lemma find_not_among_others interview_no (rows : list InterviewForm) :
  find (fun f => form_id f =? interview_no)
    (filter (fun o => negb (form_id o =? interview_no)) rows) = None.
Proof.
  destruct (find _ _) as [r|] eqn:Hr; [|reflexivity].
  apply find_some in Hr. destruct Hr as [Hin Hid].
  apply filter_In in Hin. destruct Hin as [_ Hkeep].
  rewrite Hid in Hkeep. discriminate.
Qed.

(** Looking a form up after a row was rewritten. *)
Lemma find_rewritten (row : InterviewForm) (rows : list InterviewForm) (other : Z) :
  find (fun f => form_id f =? other) (rewritten row rows)
  = if other =? form_id row then Some row
    else find (fun f => form_id f =? other) rows.
Proof.
  unfold rewritten. rewrite find_over_app. cbn [find].
  destruct (other =? form_id row) eqn:Hother.
  - apply Z.eqb_eq in Hother. subst other.
    now rewrite find_not_among_others, Z.eqb_refl.
  - apply Z.eqb_neq in Hother. rewrite find_among_others by exact Hother.
    destruct (find _ rows); [reflexivity|].
    now replace (form_id row =? other) with false by (symmetry; apply Z.eqb_neq; lia).
Qed.

(** The strings an update writes are those of the rewritten row. *)
Lemma update_strings_written db (row : InterviewForm) :
  strings_fit db (with_interview_forms (rewritten row) db)
  = form_fits (interview_forms db) row.
Proof.
  unfold strings_fit.
  cbn [application_templates interviewers interview_forms predefined_phrases
       with_interview_forms].
  rewrite templates_fit_stored, interviewers_fit_stored, phrases_fit_stored.
  unfold rewritten. rewrite forallb_app. cbn [forallb andb].
  rewrite !andb_true_r.
  replace (forallb (form_fits (interview_forms db))
             (filter (fun o => negb (form_id o =? form_id row)) (interview_forms db)))
    with true; [reflexivity|].
  symmetry. apply forallb_forall. intros r Hr. apply filter_In in Hr.
  destruct Hr as [Hr _]. unfold form_fits. now rewrite !column_fits_stored.
Qed.

Lemma update_strings_fit db interview_no u db_form :
  find_form interview_no db = Some db_form ->
  (forall v, patch_candidate_name u = Given (Some v) -> fits 100 v = true) ->
  (forall v, patch_position u = Given (Some v) -> fits 100 v = true) ->
  form_fits (interview_forms db) (apply_update u db_form) = true.
Proof.
  intros Hform Hname Hposition.
  unfold find_form in Hform. apply find_some in Hform. destruct Hform as [Hin _].
  unfold form_fits. rewrite !andb_true_iff. split; [split|].
  - now apply (column_fits_kept _ _ _ _ _ db_form).
  - destruct (patch_candidate_name u) as [|[v|]] eqn:Hu.
    + apply (column_fits_kept _ _ _ _ _ db_form); try easy.
      cbn [apply_update form_candidate_name]. now rewrite Hu.
    + apply column_fits_short. cbn [apply_update form_candidate_name fits_opt].
      rewrite Hu. cbn [patched]. now apply Hname.
    + apply (column_fits_kept _ _ _ _ _ db_form); try easy.
      cbn [apply_update form_candidate_name]. now rewrite Hu.
  - destruct (patch_position u) as [|[v|]] eqn:Hu.
    + apply (column_fits_kept _ _ _ _ _ db_form); try easy.
      cbn [apply_update form_position]. now rewrite Hu.
    + apply column_fits_short. cbn [apply_update form_position fits_opt].
      rewrite Hu. cbn [patched]. now apply Hposition.
    + apply (column_fits_kept _ _ _ _ _ db_form); try easy.
      cbn [apply_update form_position]. now rewrite Hu.
Qed.

(** The form ids being a key, the row an id finds is the only one of that id. *)
Lemma form_id_key db interview_no db_form o :
  NoDup (map form_id (interview_forms db)) ->
  find_form interview_no db = Some db_form ->
  In o (interview_forms db) -> form_id o = interview_no -> o = db_form.
Proof.
  unfold find_form. induction (interview_forms db) as [|r rows IH];
    cbn [map find In]; [easy|].
  intros Hkey Hfind Hin Hid. inversion Hkey as [|? ? Hfresh Hrest]; subst.
  destruct (form_id r =? form_id o) eqn:Hr.
  - injection Hfind as <-. destruct Hin as [Hin|Hin]; [now symmetry|].
    apply Z.eqb_eq in Hr. exfalso. apply Hfresh. rewrite Hr. now apply in_map.
  - destruct Hin as [Hin|Hin]; [subst r; now rewrite Z.eqb_refl in Hr|].
    now apply IH.
Qed.

Lemma update_strings_too_long db interview_no u db_form v :
  NoDup (map form_id (interview_forms db)) ->
  find_form interview_no db = Some db_form ->
  (patch_candidate_name u = Given (Some v) /\ v <> form_candidate_name db_form)
  \/ (patch_position u = Given (Some v) /\ v <> form_position db_form) ->
  fits 100 v = false ->
  form_fits (interview_forms db) (apply_update u db_form) = false.
Proof.
  intros Hkey Hform Hpatch Hlong.
  pose proof (found_form_id _ _ _ Hform) as Hfid.
  assert (Hcolumn : forall column : InterviewForm -> option string,
             column (apply_update u db_form) = Some v ->
             column db_form <> Some v ->
             column_fits form_id column 100 (interview_forms db)
               (apply_update u db_form) = false).
  { intros column Hnew Hold. unfold column_fits. rewrite Hnew.
    cbn [fits_opt]. rewrite Hlong, orb_false_r.
    apply not_true_is_false. intros Hex. apply existsb_exists in Hex.
    destruct Hex as (o & Ho & Hsame). apply andb_true_iff in Hsame.
    destruct Hsame as [Hid Hvalue]. apply Z.eqb_eq in Hid.
    rewrite apply_update_id, Hfid in Hid.
    rewrite (form_id_key db interview_no db_form o Hkey Hform Ho Hid) in Hvalue.
    destruct (column db_form) as [x|]; cbn [text_eqb] in Hvalue; [|discriminate].
    apply String.eqb_eq in Hvalue. congruence. }
  unfold form_fits. destruct Hpatch as [[Hu Hne]|[Hu Hne]].
  - rewrite (Hcolumn (fun r => Some (form_candidate_name r))).
    + now rewrite andb_false_r.
    + cbn [apply_update form_candidate_name]. now rewrite Hu.
    + congruence.
  - rewrite (Hcolumn (fun r => Some (form_position r))).
    + now rewrite andb_false_r.
    + cbn [apply_update form_position]. now rewrite Hu.
    + congruence.
Qed.

Lemma update_interview_form_run db interview_no u db_form :
  find_form interview_no db = Some db_form ->
  run_request (InterviewsApi.update_interview_form interview_no u) db
  = if negb (form_fits (interview_forms db) (apply_update u db_form))
    then (Raise too_long, db, [])
    else if update_assigns_null u
    then (Raise (IntegrityError "interview_forms_not_null"), db, [])
    else (Return (apply_update u db_form, form_interviewers interview_no db),
          with_interview_forms (rewritten (apply_update u db_form)) db, []).
Proof.
  intros Hform.
  pose proof (found_form_id _ _ _ Hform) as Hfid.
  unfold run_request, InterviewsApi.update_interview_form, refresh_form,
    written_strings_fit.
  step_handler. rewrite Hform. step_handler.
  rewrite update_strings_written.
  destruct (form_fits (interview_forms db) (apply_update u db_form)) eqn:Hfit;
    cbn [negb]; [|reflexivity].
  step_handler. destruct (update_assigns_null u); [reflexivity|].
  rewrite commit_no_link_change;
    [| cbn [database session]; now rewrite update_strings_written
     | reflexivity | reflexivity ].
  step_handler. rewrite apply_update_id, Hfid.
  unfold find_form at 1. cbn [interview_forms with_interview_forms].
  rewrite find_rewritten, apply_update_id, Hfid, Z.eqb_refl. reflexivity.
Qed.

(** PUT /api/interviews/{id} with no null among the submitted values and
    no submitted name or position of more than 100 characters rewrites the
    row of that id and nothing else: the answer is the patched row with the
    form's interviewers, the row is found patched afterwards, every other id
    finds what it found before, and a field the body did not set keeps its
    value.  The rewritten row is then the last of the table, after the rows
    of the other forms in their former order, so a listing may return the
    forms in another order than before.  The candidate id and the template
    of a form cannot be changed this way. *)
Theorem update_patches_one_row
  (db : DB) (interview_no : Z) (u : InterviewFormUpdate) (db_form : InterviewForm) :
  find_form interview_no db = Some db_form ->
  update_assigns_null u = false ->
  (forall v, patch_candidate_name u = Given (Some v) -> fits 100 v = true) ->
  (forall v, patch_position u = Given (Some v) -> fits 100 v = true) ->
  exists row db',
    run_request (InterviewsApi.update_interview_form interview_no u) db
    = (Return (row, form_interviewers interview_no db), db', [])
    /\ find_form interview_no db' = Some row
    /\ (forall other, other <> interview_no -> find_form other db' = find_form other db)
    /\ interview_forms db'
       = (filter (fun o => negb (form_id o =? interview_no)) (interview_forms db)
          ++ [row])%list
    /\ db' = with_interview_forms (fun _ => interview_forms db') db
    /\ form_id row = interview_no
    /\ form_candidate_id row = form_candidate_id db_form
    /\ form_template_id row = form_template_id db_form
    /\ (patch_candidate_name u = Unset ->
        form_candidate_name row = form_candidate_name db_form)
    /\ (patch_position u = Unset -> form_position row = form_position db_form)
    /\ (patch_interview_date u = Unset ->
        form_interview_date row = form_interview_date db_form)
    /\ (forall v, patch_candidate_name u = Given (Some v) -> form_candidate_name row = v)
    /\ (forall v, patch_position u = Given (Some v) -> form_position row = v)
    /\ (forall v, patch_interview_date u = Given (Some v) -> form_interview_date row = v).
Proof.
  intros Hform Hnull Hname Hposition.
  pose proof (found_form_id _ _ _ Hform) as Hfid.
  exists (apply_update u db_form),
         (with_interview_forms (rewritten (apply_update u db_form)) db).
  split.
  { rewrite (update_interview_form_run db interview_no u db_form Hform).
    rewrite (update_strings_fit db interview_no u db_form Hform Hname Hposition).
    now rewrite Hnull. }
  split; [|split; [|split; [|split]]].
  - unfold find_form. cbn [interview_forms with_interview_forms].
    now rewrite find_rewritten, apply_update_id, Hfid, Z.eqb_refl.
  - intros other Hother. unfold find_form.
    cbn [interview_forms with_interview_forms].
    rewrite find_rewritten, apply_update_id, Hfid.
    now replace (other =? interview_no) with false by (symmetry; apply Z.eqb_neq; lia).
  - cbn [interview_forms with_interview_forms]. unfold rewritten.
    now rewrite apply_update_id, Hfid.
  - reflexivity.
  - cbn [apply_update form_id form_candidate_id form_template_id form_candidate_name
         form_position form_interview_date].
    split; [exact Hfid|]. split; [reflexivity|]. split; [reflexivity|].
    split; [now intros ->|]. split; [now intros ->|]. split; [now intros ->|].
    split; [now intros v ->|]. split; now intros v ->.
Qed.

Lemma update_patches_one_row_witness :
  exists row db',
    run_request (InterviewsApi.update_interview_form 1 rename_candidate) two_forms_db
    = (Return (row, [jane]), db', [])
    /\ interview_forms two_forms_db = [sample_form; second_form]
    /\ interview_forms db' = [second_form; row]
    /\ form_candidate_name row = "Ada L."
    /\ form_position row = form_position sample_form.
Proof.
  destruct (update_patches_one_row two_forms_db 1 rename_candidate sample_form)
    as (row & db' & Hrun & _ & _ & Hrows & _ & _ & _ & _ & _ & Hposition & _
        & Hname & _).
  - reflexivity.
  - reflexivity.
  - intros v Hv. injection Hv as <-. reflexivity.
  - intros v Hv. discriminate.
  - exists row, db'. split; [exact Hrun|]. split; [reflexivity|].
    split; [exact Hrows|]. split; [now apply Hname | now apply Hposition].
Defined.

(** PUT /api/interviews/{id} fails in three ways, all leaving the database
    as it was: the 404 HTTPException for an id without a row; for a body
    that sets a field to null, the integrity error of the commit (the three
    columns are NOT NULL), which no handler catches, and this even when other
    fields of the same body carry values; and, the form ids being a key, the
    data error of the database for a new name or position that has a
    character other than a space after its first 100 characters.  A body that sets nothing is accepted and answered with the
    values the form had; as the handler assigns [updated_at] for every body,
    the row is rewritten all the same and is then the last of the table. *)
Theorem update_refusals
  (db : DB) (interview_no : Z) (u : InterviewFormUpdate) :
  (find_form interview_no db = None ->
   run_request (InterviewsApi.update_interview_form interview_no u) db
   = (Raise (HTTPException 404 "Форму інтерв'ю не знайдено"), db, []))
  /\ (forall db_form,
        find_form interview_no db = Some db_form ->
        (update_assigns_null u = true ->
         (forall v, patch_candidate_name u = Given (Some v) -> fits 100 v = true) ->
         (forall v, patch_position u = Given (Some v) -> fits 100 v = true) ->
         exists refused,
           run_request (InterviewsApi.update_interview_form interview_no u) db
           = (Raise (IntegrityError refused), db, []))
        /\ (NoDup (map form_id (interview_forms db)) ->
            forall v,
              (patch_candidate_name u = Given (Some v)
               /\ v <> form_candidate_name db_form)
              \/ (patch_position u = Given (Some v) /\ v <> form_position db_form) ->
              too_long_for 100 v = true ->
              exists refused,
                run_request (InterviewsApi.update_interview_form interview_no u) db
                = (Raise (DataError refused), db, []))
        /\ run_request (InterviewsApi.update_interview_form interview_no no_patch) db
           = (Return (db_form, form_interviewers interview_no db),
              with_interview_forms
                (fun rows =>
                   (filter (fun o => negb (form_id o =? interview_no)) rows
                    ++ [db_form])%list) db, [])).
Proof.
  split.
  - intros Hform. unfold run_request, InterviewsApi.update_interview_form.
    step_handler. now rewrite Hform.
  - intros db_form Hform. pose proof (found_form_id _ _ _ Hform) as Hfid.
    split; [|split].
    + intros Hnull Hname Hposition. eexists.
      rewrite (update_interview_form_run db interview_no u db_form Hform).
      rewrite (update_strings_fit db interview_no u db_form Hform Hname Hposition).
      rewrite Hnull. reflexivity.
    + intros Hkey v Hpatch Hlong. apply too_long_does_not_fit in Hlong. eexists.
      rewrite (update_interview_form_run db interview_no u db_form Hform).
      rewrite (update_strings_too_long db interview_no u db_form v Hkey Hform
                 Hpatch Hlong).
      reflexivity.
    + rewrite (update_interview_form_run db interview_no no_patch db_form Hform).
      rewrite (update_strings_fit db interview_no no_patch db_form Hform)
        by discriminate.
      assert (Hsame : apply_update no_patch db_form = db_form) by now destruct db_form.
      rewrite Hsame. cbn [negb update_assigns_null no_patch patch_candidate_name
        patch_position patch_interview_date assigns_null orb].
      unfold rewritten. now rewrite Hfid.
Qed.

Lemma deleted_form_writes_no_string db form :
  strings_fit db (delete_form_rows form db) = true.
Proof.
  unfold strings_fit.
  cbn [application_templates interviewers interview_forms predefined_phrases
       delete_form_rows].
  rewrite templates_fit_stored, interviewers_fit_stored, phrases_fit_stored.
  cbn [andb]. rewrite andb_true_r. apply forallb_forall. intros r Hr.
  apply filter_In in Hr. destruct Hr as [Hr _].
  unfold form_fits. now rewrite !column_fits_stored.
Qed.

Lemma flush_links_filtered pkey stored (keep : Z * Z -> bool) :
  flush_links pkey stored (filter keep stored) = Return (filter keep stored).
Proof.
  unfold flush_links. rewrite appended_links_filter.
  cbn [has_duplicates existsb orb]. rewrite app_nil_r. f_equal.
  apply filter_ext_in. intros r Hr. apply eq_true_iff_eq.
  rewrite link_in_In, filter_In. tauto.
Qed.

Lemma commit_deleted_form db form l :
  commit {| database := db; session := delete_form_rows form db; sent := l |}
  = (Return tt, {| database := delete_form_rows form db;
                   session := delete_form_rows form db; sent := l |}).
Proof.
  unfold commit, flush. cbn [database session sent].
  rewrite deleted_form_writes_no_string. cbn [negb].
  cbn [template_questions interviewer_forms delete_form_rows].
  rewrite flush_links_unchanged, flush_links_filtered. reflexivity.
Qed.

Lemma delete_runs db interview_no db_form :
  find_form interview_no db = Some db_form ->
  (has_dependents interview_no db = false ->
   run_request (InterviewsApi.delete_interview_form interview_no) db
   = (Return "Форму інтерв'ю видалено успішно", delete_form_rows interview_no db, [])
   /\ run_request (InterviewService.delete_interview interview_no) db
      = (Return true, delete_form_rows interview_no db, []))
  /\ (has_dependents interview_no db = true ->
      run_request (InterviewsApi.delete_interview_form interview_no) db
      = (Raise (IntegrityError "interview_form_id_not_null"), db, [])
      /\ run_request (InterviewService.delete_interview interview_no) db
         = (Raise (IntegrityError "interview_form_id_not_null"), db, [])).
Proof.
  intros Hform. pose proof (found_form_id _ _ _ Hform) as Hfid.
  split; intros Hdep; split.
  - unfold run_request, InterviewsApi.delete_interview_form.
    step_handler. rewrite Hform. step_handler. rewrite Hfid, Hdep.
    rewrite commit_deleted_form. reflexivity.
  - unfold run_request, InterviewService.delete_interview,
      InterviewService.get_interview_by_id.
    step_handler. rewrite Hform. step_handler. rewrite Hfid, Hdep.
    rewrite commit_deleted_form. reflexivity.
  - unfold run_request, InterviewsApi.delete_interview_form.
    step_handler. rewrite Hform. step_handler. rewrite Hfid, Hdep. reflexivity.
  - unfold run_request, InterviewService.delete_interview,
      InterviewService.get_interview_by_id.
    step_handler. rewrite Hform. step_handler. rewrite Hfid, Hdep. reflexivity.
Qed.

(** Deleting a form that has no score, evaluation or feedback succeeds on
    the handler and on the service: the row is gone (GET on the id is then
    the 404 HTTPException), no link of the association table names the form any
    more, every other form is found as before, and the other tables are
    untouched. *)
Theorem delete_removes_form_and_links
  (db : DB) (interview_no : Z) (db_form : InterviewForm) :
  find_form interview_no db = Some db_form ->
  has_dependents interview_no db = false ->
  exists db',
    run_request (InterviewsApi.delete_interview_form interview_no) db
    = (Return "Форму інтерв'ю видалено успішно", db', [])
    /\ run_request (InterviewService.delete_interview interview_no) db
       = (Return true, db', [])
    /\ find_form interview_no db' = None
    /\ run_request (InterviewsApi.get_interview_form interview_no) db'
       = (Raise (HTTPException 404 "Форму інтерв'ю не знайдено"), db', [])
    /\ (forall link, In link (interviewer_forms db') <->
                     In link (interviewer_forms db) /\ snd link <> interview_no)
    /\ (forall other, other <> interview_no -> find_form other db' = find_form other db)
    /\ (interviewers db', scores db', evaluations db', feedbacks db',
        predefined_phrases db', questions db', application_templates db',
        template_questions db')
       = (interviewers db, scores db, evaluations db, feedbacks db,
          predefined_phrases db, questions db, application_templates db,
          template_questions db).
Proof.
  intros Hform Hdep.
  destruct (delete_runs db interview_no db_form Hform) as [Hruns _].
  destruct (Hruns Hdep) as [Hapi Hsvc].
  exists (delete_form_rows interview_no db).
  assert (Hgone : find_form interview_no (delete_form_rows interview_no db) = None).
  { unfold find_form. cbn [interview_forms delete_form_rows].
    destruct (find _ _) as [r|] eqn:Hr; [|reflexivity].
    apply find_some in Hr. destruct Hr as [Hin Hid].
    apply filter_In in Hin. destruct Hin as [_ Hkeep].
    rewrite Hid in Hkeep. discriminate. }
  split; [exact Hapi|]. split; [exact Hsvc|]. split; [exact Hgone|].
  split; [|split; [|split]].
  - unfold run_request, InterviewsApi.get_interview_form. step_handler.
    now rewrite Hgone.
  - intros link. cbn [interviewer_forms delete_form_rows]. rewrite filter_In.
    rewrite negb_true_iff, Z.eqb_neq. tauto.
  - intros other Hother. unfold find_form. cbn [interview_forms delete_form_rows].
    induction (interview_forms db) as [|r rows IH]; [reflexivity|].
    cbn [filter find]. destruct (form_id r =? interview_no) eqn:Hr; cbn [negb find].
    + apply Z.eqb_eq in Hr.
      now replace (form_id r =? other) with false by (symmetry; apply Z.eqb_neq; lia).
    + now rewrite IH.
  - reflexivity.
Qed.

Lemma delete_removes_form_and_links_witness :
  exists db',
    run_request (InterviewsApi.delete_interview_form 2) two_forms_db
    = (Return "Форму інтерв'ю видалено успішно", db', [])
    /\ run_request (InterviewService.delete_interview 2) two_forms_db
       = (Return true, db', [])
    /\ find_form 2 db' = None
    /\ run_request (InterviewsApi.get_interview_form 2) db'
       = (Raise (HTTPException 404 "Форму інтерв'ю не знайдено"), db', [])
    /\ (forall link, In link (interviewer_forms db') <->
                     In link (interviewer_forms two_forms_db) /\ snd link <> 2)
    /\ (forall other, other <> 2 -> find_form other db' = find_form other two_forms_db)
    /\ (interviewers db', scores db', evaluations db', feedbacks db',
        predefined_phrases db', questions db', application_templates db',
        template_questions db')
       = (interviewers two_forms_db, scores two_forms_db, evaluations two_forms_db,
          feedbacks two_forms_db, predefined_phrases two_forms_db,
          questions two_forms_db, application_templates two_forms_db,
          template_questions two_forms_db).
Proof.
  apply (delete_removes_form_and_links two_forms_db 2 second_form); reflexivity.
Defined.

(** A form that has a score, an evaluation or a feedback cannot be deleted:
    no delete cascade is declared, so the commit fails on the NOT NULL
    foreign key of the dependent row, the error is not caught, and the
    database keeps the form, its links and its dependent rows.  An id with no
    form is the 404 HTTPException on both entry points. *)
Theorem delete_with_dependents_fails
  (db : DB) (interview_no : Z) :
  (find_form interview_no db = None ->
   run_request (InterviewsApi.delete_interview_form interview_no) db
   = (Raise (HTTPException 404 "Форму інтерв'ю не знайдено"), db, [])
   /\ run_request (InterviewService.delete_interview interview_no) db
      = (Raise (HTTPException 404 "Форму співбесіди не знайдено"), db, []))
  /\ (forall db_form,
        find_form interview_no db = Some db_form ->
        (scores_of_form interview_no db <> []
         \/ evaluations_of_form interview_no db <> []
         \/ feedbacks_of_form interview_no db <> []) ->
        exists refused,
          run_request (InterviewsApi.delete_interview_form interview_no) db
          = (Raise (IntegrityError refused), db, [])
          /\ run_request (InterviewService.delete_interview interview_no) db
             = (Raise (IntegrityError refused), db, [])).
Proof.
  split.
  - intros Hform. split.
    + unfold run_request, InterviewsApi.delete_interview_form.
      step_handler. now rewrite Hform.
    + unfold run_request, InterviewService.delete_interview,
        InterviewService.get_interview_by_id.
      step_handler. now rewrite Hform.
  - intros db_form Hform Hrows.
    destruct (delete_runs db interview_no db_form Hform) as [_ Hruns].
    eexists. apply Hruns.
    assert (Hex : forall {A} (p : A -> bool) (l : list A),
               filter p l <> [] -> existsb p l = true).
    { intros A p l Hne. apply existsb_exists.
      destruct (filter p l) as [|x rest] eqn:Hf; [congruence|].
      exists x. apply filter_In. rewrite Hf. now left. }
    unfold has_dependents. rewrite !orb_true_iff.
    destruct Hrows as [H|[H|H]]; [left; left | left; right | right];
      now apply Hex.
Qed.

Lemma delete_with_dependents_fails_witness :
  exists refused,
    run_request (InterviewsApi.delete_interview_form 1) two_forms_db
    = (Raise (IntegrityError refused), two_forms_db, [])
    /\ run_request (InterviewService.delete_interview 1) two_forms_db
       = (Raise (IntegrityError refused), two_forms_db, []).
Proof.
  destruct (delete_with_dependents_fails two_forms_db 1) as [_ Hfails].
  apply (Hfails sample_form eq_refl).
  right. left. discriminate.
Defined.

Lemma update_refusals_witness :
  run_request (InterviewsApi.update_interview_form 7 rename_candidate) two_forms_db
  = (Raise (HTTPException 404 "Форму інтерв'ю не знайдено"), two_forms_db, [])
  /\ (exists refused,
        run_request (InterviewsApi.update_interview_form 1 null_position) two_forms_db
        = (Raise (IntegrityError refused), two_forms_db, []))
  /\ (exists refused,
        run_request (InterviewsApi.update_interview_form 1 long_rename) two_forms_db
        = (Raise (DataError refused), two_forms_db, []))
  /\ (exists db',
        run_request (InterviewsApi.update_interview_form 1 no_patch) two_forms_db
        = (Return (sample_form, [jane]), db', [])
        /\ interview_forms two_forms_db = [sample_form; second_form]
        /\ interview_forms db' = [second_form; sample_form]).
Proof.
  destruct (update_refusals two_forms_db 7 rename_candidate) as [Hmissing _].
  destruct (update_refusals two_forms_db 1 null_position) as [_ Hfound].
  destruct (Hfound sample_form eq_refl) as (Hnull & _ & Hnone).
  destruct (update_refusals two_forms_db 1 long_rename) as [_ Hlong].
  destruct (Hlong sample_form eq_refl) as (_ & Hrefused & _).
  split; [now apply Hmissing|]. split; [|split].
  - apply Hnull; [reflexivity | |].
    + intros v Hv. injection Hv as <-. reflexivity.
    + intros v Hv. discriminate.
  - apply (Hrefused ltac:(repeat constructor; cbn; intuition discriminate) long_name).
    + left. split; [reflexivity | discriminate].
    + reflexivity.
  - eexists. split; [exact Hnone|]. split; reflexivity.
Defined.

(** ** Cloning a template *)

Lemma with_template_questions_ext f g (s : DB) :
  f (template_questions s) = g (template_questions s) ->
  with_template_questions f s = with_template_questions g s.
Proof. unfold with_template_questions. now intros ->. Qed.

Lemma append_questions_run t rows w :
  for_each rows (append_question t) w
  = (Return tt,
     {| database := database w;
        session := with_template_questions
                     (fun links =>
                        (links ++ clone_links (application_template_id t) rows)%list)
                     (session w);
        sent := sent w |}).
Proof.
  revert w. induction rows as [|q rows IH]; intros w; cbn [for_each].
  - unfold ret. f_equal. destruct w as [d s l]. cbn [database session sent].
    f_equal.
    rewrite (with_template_questions_ext
               (fun links => (links ++ clone_links (application_template_id t) [])%list)
               (fun links => links) s) by apply app_nil_r.
    now destruct s.
  - unfold bind, append_question at 1, modify. rewrite IH.
    cbn [database session sent]. f_equal. f_equal.
    change (with_template_questions ?f (with_template_questions ?g ?s))
      with (with_template_questions (fun links => f (g links)) s).
    apply with_template_questions_ext.
    unfold clone_links. cbn [map]. now rewrite <- app_assoc.
Qed.

Lemma link_in_app (a : Z * Z) (l l' : list (Z * Z)) :
  link_in a (l ++ l')%list = link_in a l || link_in a l'.
Proof. apply existsb_app. Qed.

Lemma template_rows_in_table template db q :
  In q (template_question_rows template db) <->
  In q (questions db) /\ In (template, question_id q) (template_questions db).
Proof.
  unfold template_question_rows. now rewrite filter_In, link_in_In.
Qed.

(** Under the primary key of the questions, a template lists each question
    once. *)
Lemma template_rows_distinct template db :
  NoDup (map question_id (questions db)) ->
  NoDup (map question_id (template_question_rows template db)).
Proof.
  unfold template_question_rows.
  induction (questions db) as [|q rows IH]; cbn [map filter]; [easy|].
  intros Hkey. inversion Hkey as [|? ? Hfresh Hrest]; subst.
  destruct (link_in (template, question_id q) (template_questions db));
    [|now apply IH].
  cbn [map]. constructor; [|now apply IH].
  intros Hlisted. apply Hfresh. apply in_map_iff in Hlisted.
  destruct Hlisted as (other & Hid & Hother). apply filter_In in Hother.
  rewrite <- Hid. apply in_map. tauto.
Qed.

Lemma clone_links_distinct new_id (rows : list Question) :
  NoDup (map question_id rows) -> NoDup (clone_links new_id rows).
Proof.
  unfold clone_links. induction rows as [|q rows IH]; cbn [map]; [constructor|].
  intros Hd. inversion Hd as [|? ? Hnotin Hd']; subst. constructor; [|now apply IH].
  intros Hin. apply in_map_iff in Hin. destruct Hin as (q' & Heq & Hq').
  injection Heq as Heq. apply Hnotin. rewrite <- Heq. now apply in_map.
Qed.

(** The two [String(100)] columns of a new template. *)
Lemma cloned_template_fits db new_id data :
  find_template new_id db = None ->
  template_fits (application_templates db) (cloned_template new_id data)
  = fits 100 (new_template_name data) && fits 100 (new_template_position data).
Proof.
  intros Hnew. unfold template_fits. now rewrite !column_fits_fresh.
Qed.

Lemma clone_runs db new_id template_no data source :
  find_template template_no db = Some source ->
  find_template new_id db = None ->
  (forall link, In link (template_questions db) -> fst link <> new_id) ->
  NoDup (map question_id (questions db)) ->
  let result :=
    if fits 100 (new_template_name data) && fits 100 (new_template_position data)
    then (Return (cloned_template new_id data),
          db_with_clone db new_id template_no data, [])
    else (Raise too_long, db, []) in
  run_request (TemplatesApi.clone_template new_id template_no data) db = result
  /\ run_request (TemplateService.clone_template new_id template_no data) db = result.
Proof.
  intros Hsource Hnew Hfresh Hrows result.
  pose proof (found_template_id _ _ _ Hsource) as Htid.
  assert (Hwritten : strings_fit db (db_with_clone db new_id template_no data)
                     = fits 100 (new_template_name data)
                       && fits 100 (new_template_position data)).
  { rewrite (strings_fit_added_template db _ (cloned_template new_id data))
      by reflexivity.
    now apply cloned_template_fits. }
  assert (Hcommit :
            forall l,
              commit {| database := db;
                        session := db_with_clone db new_id template_no data;
                        sent := l |}
              = if fits 100 (new_template_name data)
                   && fits 100 (new_template_position data)
                then (Return tt,
                      {| database := db_with_clone db new_id template_no data;
                         session := db_with_clone db new_id template_no data;
                         sent := l |})
                else (Raise too_long,
                      {| database := db;
                         session := db_with_clone db new_id template_no data;
                         sent := l |})).
  { intros l. unfold commit, flush, after_failed_flush.
    cbn [database session sent]. rewrite Hwritten.
    destruct (fits 100 (new_template_name data)
              && fits 100 (new_template_position data)); cbn [negb]; [|reflexivity].
    unfold db_with_clone.
    cbn [template_questions interviewer_forms with_template_questions add_template_row].
    rewrite flush_links_unchanged, flush_links_fresh.
    - reflexivity.
    - apply clone_links_distinct. now apply template_rows_distinct.
    - intros x Hx Hstored. unfold clone_links in Hx. apply in_map_iff in Hx.
      destruct Hx as (q & <- & _). now apply (Hfresh _ Hstored). }
  assert (Hfound : find_template new_id (db_with_clone db new_id template_no data)
                   = Some (cloned_template new_id data)).
  { unfold find_template, db_with_clone in *.
    cbn [application_templates with_template_questions add_template_row].
    apply find_appended; [exact Hnew | apply Z.eqb_refl]. }
  subst result. split.
  - unfold run_request, TemplatesApi.clone_template.
    step_handler. rewrite Hsource. step_handler.
    rewrite append_questions_run. cbn [database session sent].
    rewrite Htid.
    change (with_template_questions _ _) with (db_with_clone db new_id template_no data).
    rewrite Hcommit.
    destruct (fits 100 (new_template_name data)
              && fits 100 (new_template_position data)); [|reflexivity].
    step_handler. now rewrite Hfound.
  - unfold run_request, TemplateService.clone_template,
      TemplateService.get_template_by_id.
    step_handler. rewrite Hsource. step_handler.
    rewrite append_questions_run. cbn [database session sent].
    rewrite Htid.
    change (with_template_questions _ _) with (db_with_clone db new_id template_no data).
    rewrite Hcommit.
    destruct (fits 100 (new_template_name data)
              && fits 100 (new_template_position data)); [|reflexivity].
    step_handler. now rewrite Hfound.
Qed.

(** Cloning a template gives the clone exactly the questions of its source,
    on the handler and on the service alike (the primary keys holding, the
    clone's id being new, and the new name and position having at most 100
    characters): the answer is the new template row, it is found under its
    id afterwards, the links of the clone are stored after the links there
    were, one per question of the source in the order the questions of the
    source are loaded, the source and every other template keep their
    questions, and the links stay a key.  A name or position that has a
    character other than a space after its first 100 characters is refused
    by the database with a data error that no handler catches, and nothing
    is stored.  When the source has no row, the
    handler and the service both raise a 404 HTTPException, each with its own
    detail, and nothing is stored. *)
Theorem clone_copies_questions
  (db : DB) (new_id template_no : Z) (data : TemplateCreate) :
  (find_template template_no db = None ->
   run_request (TemplatesApi.clone_template new_id template_no data) db
   = (Raise (HTTPException 404 "Шаблон для клонування не знайдено"), db, [])
   /\ run_request (TemplateService.clone_template new_id template_no data) db
      = (Raise (HTTPException 404 "Шаблон не знайдено"), db, []))
  /\ (forall source,
        find_template template_no db = Some source ->
        find_template new_id db = None ->
        (forall link, In link (template_questions db) -> fst link <> new_id) ->
        NoDup (template_questions db) ->
        NoDup (map question_id (questions db)) ->
        (fits 100 (new_template_name data) = true ->
         fits 100 (new_template_position data) = true ->
         exists db',
           run_request (TemplatesApi.clone_template new_id template_no data) db
           = (Return (cloned_template new_id data), db', [])
           /\ run_request (TemplateService.clone_template new_id template_no data) db
              = (Return (cloned_template new_id data), db', [])
           /\ find_template new_id db' = Some (cloned_template new_id data)
           /\ template_questions db'
              = (template_questions db
                 ++ map (fun q => (new_id, question_id q))
                      (template_question_rows template_no db))%list
           /\ template_question_rows new_id db' = template_question_rows template_no db
           /\ (forall other, other <> new_id ->
                 template_question_rows other db' = template_question_rows other db)
           /\ NoDup (template_questions db'))
        /\ (too_long_for 100 (new_template_name data) = true
            \/ too_long_for 100 (new_template_position data) = true ->
            exists refused,
              run_request (TemplatesApi.clone_template new_id template_no data) db
              = (Raise (DataError refused), db, [])
              /\ run_request (TemplateService.clone_template new_id template_no data) db
                 = (Raise (DataError refused), db, []))).
Proof.
  split.
  - intros Hnone. split.
    + unfold run_request, TemplatesApi.clone_template.
      step_handler. now rewrite Hnone.
    + unfold run_request, TemplateService.clone_template,
        TemplateService.get_template_by_id.
      step_handler. now rewrite Hnone.
  - intros source Hsource Hnew Hfresh Hlinks Hrows.
    pose proof (clone_runs db new_id template_no data source
                  Hsource Hnew Hfresh Hrows) as Hruns.
    cbv zeta in Hruns. split.
    + intros Hname Hposition. rewrite Hname, Hposition in Hruns.
      cbn [andb] in Hruns. destruct Hruns as [Hapi Hsvc].
      exists (db_with_clone db new_id template_no data).
      split; [exact Hapi|]. split; [exact Hsvc|].
      split; [|split; [|split; [|split]]].
      * unfold find_template, db_with_clone in *.
        cbn [application_templates with_template_questions add_template_row].
        apply find_appended; [exact Hnew | apply Z.eqb_refl].
      * reflexivity.
      * unfold template_question_rows at 1, db_with_clone.
        cbn [template_questions questions with_template_questions add_template_row].
        apply filter_ext_in. intros q Hq. rewrite link_in_app.
        replace (link_in (new_id, question_id q) (template_questions db)) with false.
        -- cbn [orb]. apply eq_true_iff_eq. rewrite !link_in_In.
           unfold clone_links. rewrite in_map_iff. split.
           ++ intros (q' & Heq & Hq'). injection Heq as Heq.
              apply template_rows_in_table in Hq'. now rewrite <- Heq.
           ++ intros Hlink. exists q. split; [reflexivity|].
              now apply template_rows_in_table.
        -- symmetry. apply not_true_is_false. intros Hin.
           apply link_in_In in Hin. now apply (Hfresh _ Hin).
      * intros other Hother. unfold template_question_rows, db_with_clone.
        cbn [template_questions questions with_template_questions add_template_row].
        apply filter_ext. intros q. rewrite link_in_app.
        replace (link_in (other, question_id q)
                   (clone_links new_id (template_question_rows template_no db)))
          with false; [apply orb_false_r|].
        symmetry. apply not_true_is_false. intros Hin.
        apply link_in_In in Hin. unfold clone_links in Hin.
        apply in_map_iff in Hin. destruct Hin as (q' & Heq & _).
        injection Heq as Heq _. now apply Hother.
      * unfold db_with_clone.
        cbn [template_questions with_template_questions add_template_row].
        apply NoDup_app; [exact Hlinks | |].
        -- apply clone_links_distinct. now apply template_rows_distinct.
        -- intros link Hstored Hadded. unfold clone_links in Hadded.
           apply in_map_iff in Hadded. destruct Hadded as (q & <- & _).
           now apply (Hfresh _ Hstored).
    + intros Hlong.
      assert (Hfits : fits 100 (new_template_name data)
                      && fits 100 (new_template_position data) = false).
      { destruct Hlong as [Hlong|Hlong]; apply too_long_does_not_fit in Hlong;
          rewrite Hlong; [reflexivity | apply andb_false_r]. }
      rewrite Hfits in Hruns. eexists. exact Hruns.
Qed.

Lemma clone_copies_questions_witness :
  (exists db',
     run_request (TemplatesApi.clone_template 2 1 rust_template) links_reversed_db
     = (Return (cloned_template 2 rust_template), db', [])
     /\ run_request (TemplateService.clone_template 2 1 rust_template) links_reversed_db
        = (Return (cloned_template 2 rust_template), db', [])
     /\ template_questions links_reversed_db = [(1, 6); (1, 5)]
     /\ template_questions db' = [(1, 6); (1, 5); (2, 5); (2, 6)]
     /\ template_question_rows 2 db' = [sample_question; second_question])
  /\ (exists refused,
        run_request (TemplatesApi.clone_template 2 1 long_named_template)
          links_reversed_db
        = (Raise (DataError refused), links_reversed_db, [])).
Proof.
  destruct (clone_copies_questions links_reversed_db 2 1 rust_template) as [_ Hclone].
  destruct (Hclone sample_template eq_refl eq_refl) as [Hstored _].
  - intros link [<-|[<-|[]]]; discriminate.
  - repeat constructor; cbn; intuition discriminate.
  - repeat constructor; cbn; intuition discriminate.
  - destruct (clone_copies_questions links_reversed_db 2 1 long_named_template)
      as [_ Hlong].
    destruct (Hlong sample_template eq_refl eq_refl) as [_ Hrefused].
    + intros link [<-|[<-|[]]]; discriminate.
    + repeat constructor; cbn; intuition discriminate.
    + repeat constructor; cbn; intuition discriminate.
    + split.
      * destruct (Hstored eq_refl eq_refl)
          as (db' & Hapi & Hsvc & _ & Hlinks & Hquestions & _).
        exists db'. split; [exact Hapi|]. split; [exact Hsvc|].
        split; [reflexivity|]. split; [exact Hlinks | exact Hquestions].
      * destruct (Hrefused (or_introl eq_refl)) as (refused & Hapi & _).
        now exists refused.
Defined.

(** ** A form from creation to deletion *)

Lemma filter_no_match {A} (p : A -> bool) (l : list A) :
  existsb p l = false -> filter p l = [].
Proof.
  intros Hnone. apply filter_none. intros x Hx.
  apply not_true_is_false. intros Hp.
  assert (existsb p l = true) by (apply existsb_exists; now exists x).
  congruence.
Qed.

Lemma link_in_new_links (a seq : Z) (ids : list Z) :
  link_in (a, seq) (map (fun id => (id, seq)) ids) = existsb (Z.eqb a) ids.
Proof.
  induction ids as [|id ids IH]; [reflexivity|].
  cbn [map existsb]. rewrite <- IH. unfold link_in. cbn [existsb]. f_equal.
  unfold link_eqb. cbn [fst snd]. now rewrite Z.eqb_refl, andb_true_r.
Qed.

(** A form that was just created, with pairwise distinct interviewers and
    strings that fit their columns, is read back by GET as it was stored:
    the new row, the submitted interviewers, no scores, no evaluations and
    no feedback.  The interviewers come in the order of their rows in the
    interviewer table, whatever the order of the submitted ids, in the
    answer of the creation and in the answer of GET alike.  Deleting the
    form then succeeds and gives back the tables the creation started from;
    only the id sequence has moved on. *)
Theorem created_form_is_read_and_deleted
  (db : DB) (form : InterviewFormCreate) (t : ApplicationTemplate) :
  find_template (new_template_id form) db = Some t ->
  (forall id, In id (interviewer_ids form) -> find_interviewer id db <> None) ->
  NoDup (interviewer_ids form) ->
  fits 100 (new_candidate_id form) = true ->
  fits 100 (new_candidate_name form) = true ->
  fits 100 (new_position form) = true ->
  forms_seq_fresh db ->
  exists db' db'',
    run_request (InterviewsApi.create_interview_form form) db
    = (Return (created_form db form, submitted_interviewers (interviewer_ids form) db),
       db', [])
    /\ run_request (InterviewsApi.get_interview_form (interview_forms_id_seq db)) db'
       = (Return (bare_detail (created_form db form)
                    (submitted_interviewers (interviewer_ids form) db)), db', [])
    /\ run_request (InterviewsApi.delete_interview_form (interview_forms_id_seq db)) db'
       = (Return "Форму інтерв'ю видалено успішно", db'', [])
    /\ db'' = form_id_taken db.
Proof.
  intros Ht Hall Hnd Hcandidate Hname Hposition (Hnoform & Hnolink & Hnodep).
  pose proof Hall as Hmissing. apply first_missing_none in Hmissing.
  set (seq := interview_forms_id_seq db) in *.
  set (links := (interviewer_forms db
                 ++ map (fun id => (id, seq)) (interviewer_ids form))%list).
  set (db' := db_with_created_form db form links).
  assert (Hflush : flush_links "interviewer_forms_pkey" (interviewer_forms db)
                     (interviewer_forms db ++ new_links db form)%list
                   = Return links).
  { rewrite (new_links_all_found db form Hmissing). fold seq.
    apply flush_links_fresh.
    - now apply NoDup_links.
    - intros x Hx Hstored. apply in_map_iff in Hx. destruct Hx as (id & <- & _).
      now apply (Hnolink _ Hstored). }
  assert (Hfound : find_form seq db' = Some (created_form db form)).
  { unfold find_form, db', db_with_created_form.
    cbn [interview_forms add_form_row with_interviewer_forms].
    apply find_appended; [exact Hnoform | apply Z.eqb_refl]. }
  assert (Hmembers : form_interviewers seq db'
                     = submitted_interviewers (interviewer_ids form) db).
  { unfold form_interviewers, submitted_interviewers, db', db_with_created_form, links.
    cbn [interviewer_forms interviewers add_form_row with_interviewer_forms].
    apply filter_ext. intros i. rewrite link_in_app, link_in_new_links.
    replace (link_in (interviewer_id i, seq) (interviewer_forms db)) with false;
      [reflexivity|].
    symmetry. apply not_true_is_false. intros Hin. apply link_in_In in Hin.
    now apply (Hnolink _ Hin). }
  assert (Hdeps : has_dependents seq db' = false) by exact Hnodep.
  apply orb_false_iff in Hnodep. destruct Hnodep as [Hnodep Hfeedback].
  apply orb_false_iff in Hnodep. destruct Hnodep as [Hscores Hevaluations].
  exists db', (form_id_taken db). split; [|split; [|split]].
  - rewrite api_create_interview_form_run. unfold creation_outcome.
    rewrite Ht, Hmissing, created_form_fits by assumption. cbn [negb].
    rewrite Hflush. fold seq. fold db'. cbv zeta.
    now rewrite Hfound, Hmembers.
  - unfold run_request, InterviewsApi.get_interview_form. step_handler.
    rewrite Hfound. step_handler.
    change (form_id (created_form db form)) with seq. rewrite Hmembers.
    unfold bare_detail, scores_of_form, evaluations_of_form, feedbacks_of_form, db',
      db_with_created_form.
    cbn [scores evaluations feedbacks add_form_row with_interviewer_forms].
    now rewrite !filter_no_match by assumption.
  - destruct (delete_runs db' seq (created_form db form) Hfound) as [Hruns _].
    destruct (Hruns Hdeps) as [Hapi _]. rewrite Hapi. do 2 f_equal.
    unfold delete_form_rows, db', db_with_created_form, links, form_id_taken.
    cbn [questions application_templates template_questions interviewers
         interview_forms interviewer_forms scores evaluations feedbacks
         predefined_phrases interview_forms_id_seq feedbacks_id_seq
         add_form_row with_interviewer_forms].
    rewrite !filter_app.
    rewrite (filter_all (fun r => negb (form_id r =? seq)) (interview_forms db)),
            (filter_all (fun l => negb (snd l =? seq)) (interviewer_forms db)),
            (filter_none (fun l : Z * Z => negb (snd l =? seq))
               (map (fun id => (id, seq)) (interviewer_ids form))).
    + cbn [filter created_form form_id]. fold seq. rewrite Z.eqb_refl. cbn [negb].
      now rewrite !app_nil_r.
    + intros x Hx. apply in_map_iff in Hx. destruct Hx as (id & <- & _).
      cbn [snd]. now rewrite Z.eqb_refl.
    + intros x Hx. apply negb_true_iff, Z.eqb_neq. now apply Hnolink.
    + intros x Hx. apply negb_true_iff, not_true_is_false. intros Hid.
      unfold find_form in Hnoform.
      rewrite (find_none _ _ Hnoform x Hx) in Hid. discriminate.
  - reflexivity.
Qed.

Lemma created_form_is_read_and_deleted_witness :
  interviewer_ids panel_reversed = [2; 1]
  /\ exists db' db'',
       run_request (InterviewsApi.create_interview_form panel_reversed) two_forms_db
       = (Return (created_form two_forms_db panel_reversed, [jane; omar]), db', [])
       /\ run_request (InterviewsApi.get_interview_form 3) db'
          = (Return (bare_detail (created_form two_forms_db panel_reversed)
                       [jane; omar]), db', [])
       /\ run_request (InterviewsApi.delete_interview_form 3) db'
          = (Return "Форму інтерв'ю видалено успішно", db'', [])
       /\ db'' = form_id_taken two_forms_db.
Proof.
  split; [reflexivity|].
  apply (created_form_is_read_and_deleted two_forms_db panel_reversed sample_template
           eq_refl).
  - intros id [<-|[<-|[]]]; discriminate.
  - repeat constructor; cbn; intuition discriminate.
  - reflexivity.
  - reflexivity.
  - reflexivity.
  - repeat split. intros link [<-|[]]. discriminate.
Defined.

(** ** Listing interviews and phrases *)

Lemma lex_leb_antisym (a b : list Z) :
  List.length a = List.length b ->
  lex_leb a b = true -> lex_leb b a = true -> a = b.
Proof.
  revert b. induction a as [|x a IH]; intros [|y b] Hlen Hab Hba;
    try discriminate; [reflexivity|].
  cbn [lex_leb List.length] in *.
  apply orb_true_iff in Hab, Hba.
  destruct Hab as [Hab|Hab]; destruct Hba as [Hba|Hba];
    rewrite ?andb_true_iff, ?Z.ltb_lt, ?Z.eqb_eq in *; try lia.
  destruct Hab as [-> Hab]. destruct Hba as [_ Hba].
  f_equal. apply IH; [lia | assumption | assumption].
Qed.

Lemma datetime_leb_antisym (a b : datetime) :
  datetime_leb a b = true -> datetime_leb b a = true -> a = b.
Proof.
  intros Hab Hba.
  pose proof (lex_leb_antisym (datetime_fields a) (datetime_fields b) eq_refl Hab Hba)
    as Hfields.
  destruct a, b. cbn in Hfields. now injection Hfields as -> -> -> -> -> -> ->.
Qed.

(** The interview listing is exact: with offset 0 and a limit that is at
    least the size of the table (and within the 64 bits the database gives
    it), a form is listed if and only if it is in the table, has the candidate id asked for (when one is given and not
    empty), matches the position pattern (likewise), and its date lies
    between the two bounds, both included, each bound applying only when
    given.  When the two bounds are the same instant, only forms dated at
    that very instant are listed. *)
Theorem interview_listing_is_exact
  (ilike : string -> string -> bool) (db : DB) (limit : Z)
  (candidate_id position : option string) (start_date end_date : option datetime) :
  Z.of_nat (List.length (interview_forms db)) <= limit -> limit < 2 ^ 63 ->
  exists rows,
    run_request
      (get_interviews ilike 0 limit candidate_id position start_date end_date) db
    = (Return rows, db, [])
    /\ (forall f,
          In f rows <->
          In f (interview_forms db)
          /\ (truthy_str candidate_id = true ->
              Some (form_candidate_id f) = candidate_id)
          /\ (truthy_str position = true ->
              ilike (form_position f) ("%" ++ str_value position ++ "%") = true)
          /\ (forall d, start_date = Some d ->
                        datetime_leb d (form_interview_date f) = true)
          /\ (forall d, end_date = Some d ->
                        datetime_leb (form_interview_date f) d = true))
    /\ (forall d f, start_date = Some d -> end_date = Some d -> In f rows ->
                    form_interview_date f = d).
Proof.
  intros Hbig Hrange.
  unfold run_request, get_interviews. step_handler.
  rewrite offset_limit_run by lia. cbn [Z.to_nat skipn].
  rewrite firstn_all2.
  - eexists. split; [reflexivity|].
    match goal with |- ?exact /\ _ => assert (Hexact : exact) end.
    { intros f.
      assert (Hcand : truthy_str candidate_id = true ->
                      (String.eqb (form_candidate_id f) (str_value candidate_id) = true
                       <-> Some (form_candidate_id f) = candidate_id)).
      { destruct candidate_id as [c|]; [|discriminate]. intros _. cbn [str_value].
        rewrite String.eqb_eq. split; [now intros -> | now intros [= ->]]. }
      destruct start_date as [d0|], end_date as [d1|];
        rewrite ?filter_In, !In_filter_if; split.
      - intros ((((Hin & Hc) & Hp) & Hs) & He).
        repeat split; try assumption.
        + intros Ht. now apply Hcand, Hc.
        + now intros d [= <-].
        + now intros d [= <-].
      - intros (Hin & Hc & Hp & Hs & He).
        repeat split; try assumption; [|now apply Hs | now apply He].
        intros Ht. now apply Hcand, Hc.
      - intros (((Hin & Hc) & Hp) & Hs).
        repeat split; try assumption.
        + intros Ht. now apply Hcand, Hc.
        + now intros d [= <-].
        + discriminate.
      - intros (Hin & Hc & Hp & Hs & He).
        repeat split; try assumption; [|now apply Hs].
        intros Ht. now apply Hcand, Hc.
      - intros (((Hin & Hc) & Hp) & He).
        repeat split; try assumption.
        + intros Ht. now apply Hcand, Hc.
        + discriminate.
        + now intros d [= <-].
      - intros (Hin & Hc & Hp & Hs & He).
        repeat split; try assumption; [|now apply He].
        intros Ht. now apply Hcand, Hc.
      - intros ((Hin & Hc) & Hp).
        repeat split; try assumption; try discriminate.
        intros Ht. now apply Hcand, Hc.
      - intros (Hin & Hc & Hp & Hs & He).
        repeat split; try assumption.
        intros Ht. now apply Hcand, Hc. }
    split; [exact Hexact|].
    intros d f Hs He Hin. apply Hexact in Hin.
    destruct Hin as (_ & _ & _ & Hafter & Hbefore).
    symmetry. apply datetime_leb_antisym; [now apply Hafter | now apply Hbefore].
  - destruct end_date, start_date;
      repeat (etransitivity; [first [apply filter_length_le | apply filter_if_length]|]);
      lia.
Qed.

Lemma interview_listing_is_exact_witness :
  exists rows,
    run_request
      (get_interviews (fun _ _ => true) 0 100 (Some "cand-42") None
         (Some sample_date) (Some sample_date)) two_forms_db
    = (Return rows, two_forms_db, [])
    /\ In sample_form rows
    /\ ~ In second_form rows.
Proof.
  destruct (interview_listing_is_exact (fun _ _ => true) two_forms_db 100
              (Some "cand-42") None (Some sample_date) (Some sample_date))
    as (rows & Hrun & Hexact & _).
  - cbn. lia.
  - lia.
  - exists rows. split; [exact Hrun|]. split.
    + apply Hexact. split; [now left|]. split; [reflexivity|].
      split; [discriminate|]. split; now intros d [= <-].
    + intros Hin. apply Hexact in Hin. destruct Hin as (_ & Hcandidate & _).
      specialize (Hcandidate eq_refl). discriminate.
Defined.

(** The [String(50)] column of a new phrase. *)
Lemma created_phrase_fits db new_id phrase :
  find_phrase new_id db = None ->
  phrase_fits (predefined_phrases db) (created_phrase new_id phrase)
  = fits_opt 50 (new_phrase_category phrase).
Proof.
  intros Hnew. unfold phrase_fits. now rewrite column_fits_fresh.
Qed.

Lemma create_phrase_run db new_id phrase :
  find_phrase new_id db = None ->
  let result :=
    if fits_opt 50 (new_phrase_category phrase)
    then (Return (created_phrase new_id phrase),
          add_phrase_row (created_phrase new_id phrase) db, [])
    else (Raise too_long, db, []) in
  run_request (InterviewsApi.create_phrase new_id phrase) db = result
  /\ run_request (InterviewService.create_predefined_phrase new_id phrase) db = result.
Proof.
  intros Hnew result.
  assert (Hfound : find_phrase new_id (add_phrase_row (created_phrase new_id phrase) db)
                   = Some (created_phrase new_id phrase)).
  { unfold find_phrase. cbn [predefined_phrases add_phrase_row].
    apply find_appended; [exact Hnew | apply Z.eqb_refl]. }
  assert (Hwritten : strings_fit db (add_phrase_row (created_phrase new_id phrase) db)
                     = fits_opt 50 (new_phrase_category phrase)).
  { rewrite (strings_fit_added_phrase db _ (created_phrase new_id phrase))
      by reflexivity.
    now apply created_phrase_fits. }
  subst result. split.
  - unfold run_request, InterviewsApi.create_phrase. step_handler.
    rewrite commit_rows by reflexivity. cbn [database session sent].
    fold (created_phrase new_id phrase). rewrite Hwritten.
    destruct (fits_opt 50 (new_phrase_category phrase)); [|reflexivity].
    step_handler. now rewrite Hfound.
  - unfold run_request, InterviewService.create_predefined_phrase. step_handler.
    rewrite commit_rows by reflexivity. cbn [database session sent].
    fold (created_phrase new_id phrase). rewrite Hwritten.
    destruct (fits_opt 50 (new_phrase_category phrase)); [|reflexivity].
    step_handler. now rewrite Hfound.
Qed.

(** The phrase listing is exact: a phrase is listed if and only if it is in
    the table and, when a non-empty category is asked for, has that very
    category; a phrase without category is listed only when no category is
    asked for.  A phrase created with a new id and a category of at most 50
    characters (or none) is answered as submitted, attached to no feedback,
    stored last, and listed from then on.  A category that has a character
    other than a space after its first 50 characters is refused by the
    database with a data error that no handler catches, and nothing is
    stored. *)
Theorem phrase_listing_is_exact
  (db : DB) (new_id : Z) (phrase : PredefinedPhraseCreate) (category : option string) :
  (exists rows,
     run_request (get_phrases category) db = (Return rows, db, [])
     /\ forall p,
          In p rows <->
          In p (predefined_phrases db)
          /\ (truthy_str category = true -> phrase_category p = category))
  /\ (find_phrase new_id db = None ->
      fits_opt 50 (new_phrase_category phrase) = true ->
      exists row db' rows,
        run_request (InterviewsApi.create_phrase new_id phrase) db = (Return row, db', [])
        /\ run_request (InterviewService.create_predefined_phrase new_id phrase) db
           = (Return row, db', [])
        /\ row = created_phrase new_id phrase
        /\ predefined_phrases db' = (predefined_phrases db ++ [row])%list
        /\ (forall feedback, feedback_phrases feedback db' = feedback_phrases feedback db)
        /\ run_request (get_phrases (new_phrase_category phrase)) db'
           = (Return rows, db', [])
        /\ In row rows)
  /\ (find_phrase new_id db = None ->
      (exists category,
         new_phrase_category phrase = Some category
         /\ too_long_for 50 category = true) ->
      exists refused,
        run_request (InterviewsApi.create_phrase new_id phrase) db
        = (Raise (DataError refused), db, [])
        /\ run_request (InterviewService.create_predefined_phrase new_id phrase) db
           = (Raise (DataError refused), db, [])).
Proof.
  assert (Hexact : forall (d : DB) (c : option string) p,
             In p (filter_if (truthy_str c)
                     (fun p => match phrase_category p with
                               | Some c0 => String.eqb c0 (str_value c)
                               | None => false
                               end) (predefined_phrases d)) <->
             In p (predefined_phrases d)
             /\ (truthy_str c = true -> phrase_category p = c)).
  { intros d c p. rewrite In_filter_if.
    destruct c as [c|]; cbn [str_value].
    - destruct (phrase_category p) as [c0|].
      + rewrite String.eqb_eq. split; intros [Hin Hc]; (split; [exact Hin|]);
          intros Ht; specialize (Hc Ht); congruence.
      + split; intros [Hin Hc]; (split; [exact Hin|]);
          intros Ht; specialize (Hc Ht); discriminate.
    - split; intros [Hin _]; (split; [exact Hin | discriminate]). }
  split; [|split].
  - unfold run_request, get_phrases. step_handler.
    eexists. split; [reflexivity | apply Hexact].
  - intros Hnew Hfits. pose proof (create_phrase_run db new_id phrase Hnew) as Hruns.
    cbv zeta in Hruns. rewrite Hfits in Hruns. destruct Hruns as [Hapi Hsvc].
    eexists. eexists. eexists.
    split; [exact Hapi|]. split; [exact Hsvc|]. split; [reflexivity|].
    split; [reflexivity|]. split; [|split].
    + intros feedback. unfold feedback_phrases.
      cbn [predefined_phrases add_phrase_row].
      rewrite filter_app. cbn [filter attached_to created_phrase phrase_feedback_id].
      apply app_nil_r.
    + unfold run_request, get_phrases. step_handler. reflexivity.
    + apply Hexact. split.
      * cbn [predefined_phrases add_phrase_row]. apply in_or_app. right. now left.
      * reflexivity.
  - intros Hnew (long_category & Hcategory & Hlong).
    apply too_long_does_not_fit in Hlong.
    pose proof (create_phrase_run db new_id phrase Hnew) as Hruns.
    cbv zeta in Hruns. rewrite Hcategory in Hruns. cbn [fits_opt] in Hruns.
    rewrite Hlong in Hruns. eexists. exact Hruns.
Qed.

Lemma phrase_listing_is_exact_witness :
  (exists row db' rows,
     run_request (InterviewsApi.create_phrase 3 neutral_phrase) two_forms_db
     = (Return row, db', [])
     /\ run_request (InterviewService.create_predefined_phrase 3 neutral_phrase)
          two_forms_db
        = (Return row, db', [])
     /\ row = created_phrase 3 neutral_phrase
     /\ predefined_phrases db' = (predefined_phrases two_forms_db ++ [row])%list
     /\ (forall feedback,
           feedback_phrases feedback db' = feedback_phrases feedback two_forms_db)
     /\ run_request (get_phrases (new_phrase_category neutral_phrase)) db'
        = (Return rows, db', [])
     /\ In row rows)
  /\ (exists refused,
        run_request (InterviewsApi.create_phrase 3 long_category_phrase) two_forms_db
        = (Raise (DataError refused), two_forms_db, [])).
Proof.
  destruct (phrase_listing_is_exact two_forms_db 3 neutral_phrase None)
    as (_ & Hcreated & _).
  destruct (phrase_listing_is_exact two_forms_db 3 long_category_phrase None)
    as (_ & _ & Hlong).
  split; [now apply Hcreated|].
  destruct (Hlong eq_refl) as (refused & Hapi & _); [|now exists refused].
  eexists. split; reflexivity.
Defined.

(** ** Questions joining and leaving a template *)

Lemma found_question_id id db q : find_question id db = Some q -> question_id q = id.
Proof.
  unfold find_question. intros H. apply find_some in H. now apply Z.eqb_eq.
Qed.

(** A question with a row is in a template exactly when the association
    table holds the link. *)
Lemma question_member_iff_link db id q template links :
  find_question id db = Some q ->
  question_in q (template_question_rows template
                   (with_template_questions (fun _ => links) db))
  = link_in (template, id) links.
Proof.
  intros Hfind.
  pose proof (found_question_id id db q Hfind) as Hid.
  unfold find_question in Hfind. apply find_some in Hfind. destruct Hfind as [Hin _].
  unfold question_in, template_question_rows.
  cbn [template_questions questions with_template_questions].
  apply eq_true_iff_eq. rewrite link_in_In, existsb_exists. split.
  - intros (r & Hr & Heq). apply filter_In in Hr. destruct Hr as [_ Hlink].
    apply Z.eqb_eq in Heq. apply link_in_In in Hlink.
    assert (Er : question_id r = id) by congruence.
    now rewrite <- Er.
  - intros Hlink. exists q. split; [|apply Z.eqb_refl].
    apply filter_In. split; [exact Hin|].
    rewrite Hid. now apply link_in_In.
Qed.

Lemma commit_template_links db links l :
  flush_links "template_questions_pkey" (template_questions db) links = Return links ->
  commit {| database := db;
            session := with_template_questions (fun _ => links) db;
            sent := l |}
  = (Return tt,
     {| database := with_template_questions (fun _ => links) db;
        session := with_template_questions (fun _ => links) db;
        sent := l |}).
Proof.
  intros Hflush. unfold commit, flush. cbn [database session sent].
  rewrite strings_fit_same by reflexivity. cbn [negb].
  cbn [template_questions interviewer_forms with_template_questions].
  rewrite Hflush, flush_links_unchanged. now destruct db.
Qed.

(** The loop of [TemplateService.add_questions_to_template] when every id
    has a row. *)
Lemma add_questions_loop_run t ids w :
  (forall id, In id ids -> find_question id (database w) <> None) ->
  for_each ids (fun question_id =>
    question <- query (find_question question_id) ;;
    match question with
    | None =>
        raise (HTTPException 404
                 ("Питання з ID " ++ str_int question_id ++ " не знайдено"))
    | Some q => append_question t q
    end) w
  = (Return tt,
     {| database := database w;
        session := with_template_questions
                     (fun links =>
                        (links ++ map (fun id => (application_template_id t, id)) ids)%list)
                     (session w);
        sent := sent w |}).
Proof.
  revert w. induction ids as [|id ids IH]; intros w Hall; cbn [for_each].
  - unfold ret. f_equal. destruct w as [d s l]. cbn [database session sent].
    f_equal.
    rewrite (with_template_questions_ext
               (fun links => (links ++ map (fun id => (application_template_id t, id)) [])%list)
               (fun links => links) s) by apply app_nil_r.
    now destruct s.
  - unfold bind at 1. unfold bind at 1, query at 1.
    destruct (find_question id (database w)) as [q|] eqn:Hq;
      [|exfalso; apply (Hall id); [now left | exact Hq]].
    unfold append_question, modify. rewrite IH.
    + cbn [database session sent]. f_equal. f_equal.
      change (with_template_questions ?f (with_template_questions ?g ?s))
        with (with_template_questions (fun links => f (g links)) s).
      apply with_template_questions_ext.
      cbn [map]. rewrite (found_question_id _ _ _ Hq). now rewrite <- app_assoc.
    + cbn [database]. intros id' Hid'. apply Hall. now right.
Qed.

(** With the association table keyed by its pairs, the successful
    membership updates of a template do what their names say.  The service
    adds every submitted question that has a row, each once (the ids being
    pairwise distinct and none of them in the template yet): the links are
    appended in the order submitted and every added question is among the
    questions returned.  Removing a question that is in the template, on the
    handler and on the service alike, deletes its link, after which the
    question is not in the template.  Both keep the pairs a key. *)
Theorem template_membership_updates
  (db : DB) (template_no : Z) (t : ApplicationTemplate) :
  find_template template_no db = Some t ->
  NoDup (template_questions db) ->
  (forall ids,
     NoDup ids ->
     (forall id, In id ids ->
                 find_question id db <> None
                 /\ ~ In (template_no, id) (template_questions db)) ->
     exists rows db',
       run_request (TemplateService.add_questions_to_template template_no ids) db
       = (Return (t, rows), db', [])
       /\ rows = template_question_rows template_no db'
       /\ db' = with_template_questions
                  (fun links => (links ++ map (fun id => (template_no, id)) ids)%list) db
       /\ (forall id q, In id ids -> find_question id db = Some q ->
                        question_in q rows = true)
       /\ NoDup (template_questions db'))
  /\ (forall question_no q,
        find_question question_no db = Some q ->
        question_in q (template_question_rows template_no db) = true ->
        exists db',
          run_request (TemplatesApi.remove_question_from_template template_no question_no) db
          = (Return "Питання видалено з шаблону успішно", db', [])
          /\ run_request
               (TemplateService.remove_question_from_template template_no question_no) db
             = (Return true, db', [])
          /\ question_in q (template_question_rows template_no db') = false
          /\ db' = with_template_questions (remove_link (template_no, question_no)) db
          /\ NoDup (template_questions db')).
Proof.
  intros Ht Hkey.
  pose proof (found_template_id _ _ _ Ht) as Htid.
  split.
  - intros ids Hnd Hall.
    set (links := (template_questions db ++ map (fun id => (template_no, id)) ids)%list).
    assert (Hfresh : forall x, In x (map (fun id => (template_no, id)) ids) ->
                               ~ In x (template_questions db)).
    { intros x Hx. apply in_map_iff in Hx. destruct Hx as (id & <- & Hid).
      now apply Hall. }
    assert (Hnew : NoDup (map (fun id => (template_no, id)) ids)).
    { clear Hall Hfresh links.
      induction Hnd as [|id ids Hnotin Hnd IH]; cbn [map]; constructor; [|exact IH].
      intros Hin. apply in_map_iff in Hin. destruct Hin as (y & Heq & Hy).
      injection Heq as ->. contradiction. }
    assert (Hsession :
              with_template_questions
                (fun l => (l ++ map (fun id => (application_template_id t, id)) ids)%list) db
              = with_template_questions (fun _ => links) db).
    { rewrite Htid. reflexivity. }
    exists (template_question_rows template_no (with_template_questions (fun _ => links) db)),
           (with_template_questions (fun _ => links) db).
    split; [|split; [|split; [|split]]].
    + unfold run_request, TemplateService.add_questions_to_template,
        TemplateService.get_template_by_id, refresh_template.
      pose proof (add_questions_loop_run t ids (open_session db)) as Hloop.
      step_handler. rewrite Ht. step_handler.
      step_handler_in Hloop. rewrite Hloop by (intros id Hid; now apply Hall).
      rewrite Hsession.
      rewrite commit_template_links by now apply flush_links_fresh.
      step_handler. rewrite Htid.
      replace (find_template template_no (with_template_questions (fun _ => links) db))
        with (Some t) by (symmetry; exact Ht).
      reflexivity.
    + reflexivity.
    + reflexivity.
    + intros id q Hid Hq.
      rewrite (question_member_iff_link db id q template_no links Hq).
      apply link_in_In, in_or_app. right. apply in_map_iff. now exists id.
    + cbn [template_questions with_template_questions].
      apply NoDup_app; [exact Hkey | exact Hnew |].
      intros x Hstored Hadded. now apply (Hfresh x).
  - intros question_no q Hq Hmember.
    pose proof (found_question_id _ _ _ Hq) as Hqid.
    set (links := remove_link (template_no, question_no) (template_questions db)).
    assert (Hsession :
              with_template_questions
                (remove_link (application_template_id t, question_id q)) db
              = with_template_questions (fun _ => links) db).
    { rewrite Htid, Hqid. reflexivity. }
    exists (with_template_questions (fun _ => links) db).
    split; [|split; [|split; [|split]]].
    + unfold run_request, TemplatesApi.remove_question_from_template, remove_question.
      step_handler. rewrite Ht. step_handler. rewrite Hq. step_handler.
      rewrite Htid, Hmember. cbn [negb]. step_handler.
      rewrite Hqid.
      change (with_template_questions (remove_link (template_no, question_no)) db)
        with (with_template_questions (fun _ => links) db).
      rewrite commit_template_links by now apply flush_links_removed.
      reflexivity.
    + unfold run_request, TemplateService.remove_question_from_template,
        TemplateService.get_template_by_id, remove_question.
      step_handler. rewrite Ht. step_handler. rewrite Hq. step_handler.
      rewrite Htid, Hmember. cbn [negb]. step_handler.
      rewrite Hqid.
      change (with_template_questions (remove_link (template_no, question_no)) db)
        with (with_template_questions (fun _ => links) db).
      rewrite commit_template_links by now apply flush_links_removed.
      reflexivity.
    + rewrite (question_member_iff_link db question_no q template_no links Hq).
      now apply remove_link_gone.
    + reflexivity.
    + cbn [template_questions with_template_questions].
      now apply remove_link_NoDup.
Qed.

Lemma template_membership_updates_witness :
  (exists rows db',
     run_request (TemplateService.add_questions_to_template 1 [6]) two_questions_db
     = (Return (sample_template, rows), db', [])
     /\ rows = template_question_rows 1 db'
     /\ db' = with_template_questions
                (fun links => (links ++ map (fun id => (1, id)) [6])%list)
                two_questions_db
     /\ (forall id q, In id [6] -> find_question id two_questions_db = Some q ->
                      question_in q rows = true)
     /\ NoDup (template_questions db'))
  /\ (exists db',
        run_request (TemplatesApi.remove_question_from_template 1 5) two_questions_db
        = (Return "Питання видалено з шаблону успішно", db', [])
        /\ run_request (TemplateService.remove_question_from_template 1 5) two_questions_db
           = (Return true, db', [])
        /\ question_in sample_question (template_question_rows 1 db') = false
        /\ db' = with_template_questions (remove_link (1, 5)) two_questions_db
        /\ NoDup (template_questions db')).
Proof.
  assert (Hkey : NoDup (template_questions two_questions_db)).
  { repeat constructor; cbn; intuition discriminate. }
  destruct (template_membership_updates two_questions_db 1 sample_template eq_refl Hkey)
    as [Hadd Hremove].
  split.
  - apply Hadd.
    + repeat constructor. intros [].
    + intros id [<-|[]]. split; [discriminate|].
      cbn. intuition discriminate.
  - now apply Hremove.
Defined.



